(** * travis: verification of Travis CI webhook notifications

    A shallow embedding of [travis.go] (package [travis]): the [Payload]
    entity with its classification predicates, the unauthenticated decoder
    [GetPayload], the key cache [travisPublicKey], the helpers
    [parsePublicKey], [parsePayloadSignature] and [payloadDigest], and the
    authenticated decoder [GetPayloadFromRequest].

    Go's standard library (encoding/json's scanner, encoding/pem,
    crypto/x509, crypto/rsa, crypto/sha1, encoding/base64, time, strconv)
    and the network are not part of the repository: they are the fields of
    the class [Runtime], and every theorem about the package holds for all
    runtimes.  Module [Std] gives one executable runtime, used to evaluate
    the package on concrete inputs. *)

From Stdlib Require Import ZArith Lia List String Ascii Bool.
From Stdlib.Strings Require Import Byte.
From Stdlib Require Import DecimalString DecimalZ DecimalPos.
From stdpp Require Import gmap strings list.

Set Warnings "-register-all".

Local Open Scope Z_scope.
Local Open Scope string_scope.

(** ** Results of Go calls

    A Go function of the package returns [(value, nil)], returns
    [(nil, err)] with an error built by [errors.New] or [fmt.Errorf], or
    does not return at all because a run-time panic unwinds the goroutine
    (nothing in the package recovers). *)

Inductive result (A : Type) : Type :=
| Ok (v : A)
| Err (msg : string)
| Panic (msg : string).

Arguments Ok {A} v.
Arguments Err {A} msg.
Arguments Panic {A} msg.

Definition is_Ok {A} (r : result A) : bool :=
  match r with Ok _ => true | _ => false end.

Definition is_Err {A} (r : result A) : bool :=
  match r with Err _ => true | _ => false end.

Definition is_Panic {A} (r : result A) : bool :=
  match r with Panic _ => true | _ => false end.

(** ** JSON values

    A JSON text as the scanner of encoding/json delimits it.  A number keeps
    its literal, because the decoder hands the literal to
    [strconv.ParseInt]; an object keeps its members in order, duplicates
    included, because the decoder stores them one after the other. *)

Inductive JSON : Type :=
| JNull
| JBool (b : bool)
| JNumber (lit : string)
| JString (s : string)
| JArray (items : list JSON)
| JObject (members : list (string * JSON)).

(** ** The entity model *)

(** [time.Time], seen through its calendar fields and the offset of its
    location in minutes east of UTC.  The zero value of Go is January 1 of
    year 1, 00:00:00 UTC. *)
Record time_Time : Type := mkTime {
  year : Z;
  month : Z;
  day : Z;
  hour : Z;
  minute : Z;
  second : Z;
  nanosecond : Z;
  zoneOffset : Z
}.

Definition time_zero : time_Time :=
  {| year := 1; month := 1; day := 1; hour := 0; minute := 0; second := 0;
     nanosecond := 0; zoneOffset := 0 |}.

Module Color.
(** [type Color int] and its four constants. *)
Definition Passed : Z := 3779158.
Definition Fail : Z := 14370117.
Definition InProgress : Z := 15588927.
Definition Cancel : Z := 10329501.
End Color.

Module Config.
(** [type Config struct]: the [config] field of the payload. *)
Record t : Type := mk {
  Sudo : bool;
  Dist : string;
  Language : string
}.
Definition zero : t := {| Sudo := false; Dist := EmptyString; Language := EmptyString |}.
End Config.

Module Repository.
(** [type Repository struct]: the [repository] field of the payload. *)
Record t : Type := mk {
  ID : Z;
  Name : string;
  OwnerName : string;
  URL : string
}.
Definition zero : t :=
  {| ID := 0; Name := EmptyString; OwnerName := EmptyString; URL := EmptyString |}.
End Repository.

(** [type Payload struct].  The field [Type] of the source is [Type_] here;
    the pointer fields are [option]s, [None] being the nil pointer. *)
Record Payload : Type := mkPayload {
  ID : Z;
  Number : string;
  Config : option Config.t;
  Type_ : string;
  State : string;
  Status : Z;
  Result : Z;
  StatusMessage : string;
  ResultMessage : string;
  StartedAt : time_Time;
  FinishedAt : time_Time;
  Duration : Z;
  BuildURL : string;
  CommitID : Z;
  Commit : string;
  BaseCommit : string;
  HeadCommit : string;
  Branch : string;
  Message : string;
  CompareURL : string;
  CommitedAt : time_Time;
  AuthorName : string;
  AuthorEmail : string;
  CommiterName : string;
  CommiterEmail : string;
  PullRequest : Z;
  PullRequestNumber : Z;
  PullRequestTitle : string;
  Tag : string;
  Repository : option Repository.t
}.

(** [new(Payload)]: every field holds the zero value of its type. *)
Definition Payload_zero : Payload :=
  {| ID := 0; Number := EmptyString; Config := None; Type_ := EmptyString;
     State := EmptyString; Status := 0; Result := 0;
     StatusMessage := EmptyString; ResultMessage := EmptyString;
     StartedAt := time_zero; FinishedAt := time_zero; Duration := 0;
     BuildURL := EmptyString; CommitID := 0; Commit := EmptyString;
     BaseCommit := EmptyString; HeadCommit := EmptyString;
     Branch := EmptyString; Message := EmptyString;
     CompareURL := EmptyString; CommitedAt := time_zero;
     AuthorName := EmptyString; AuthorEmail := EmptyString;
     CommiterName := EmptyString; CommiterEmail := EmptyString;
     PullRequest := 0; PullRequestNumber := 0;
     PullRequestTitle := EmptyString; Tag := EmptyString;
     Repository := None |}.

(** ** The classification predicates *)

(** [Pending] returns true if a build has been requested. *)
Definition Pending (p : Payload) : bool :=
  String.eqb (StatusMessage p) "Pending" || String.eqb (ResultMessage p) "Pending".

(** [Passed] returns true if the build completed successfully. *)
Definition Passed (p : Payload) : bool :=
  String.eqb (StatusMessage p) "Passed" || String.eqb (ResultMessage p) "Passed".

(** [Fixed] returns true if the build completed successfully after a
    previously failed build. *)
Definition Fixed (p : Payload) : bool :=
  String.eqb (StatusMessage p) "Fixed" || String.eqb (ResultMessage p) "Fixed".

(** [Broken] returns true if the build completed in failure after a
    previously successful build. *)
Definition Broken (p : Payload) : bool :=
  String.eqb (StatusMessage p) "Broken" || String.eqb (ResultMessage p) "Broken".

(** [Failed] returns true if the build is the first build for a new branch
    and has failed. *)
Definition Failed (p : Payload) : bool :=
  String.eqb (StatusMessage p) "Failed" || String.eqb (ResultMessage p) "Failed".

(** [StillFailing] returns true if the build completed in failure after a
    previously failed build. *)
Definition StillFailing (p : Payload) : bool :=
  String.eqb (StatusMessage p) "Still Failing"
  || String.eqb (ResultMessage p) "Still Failing".

(** [Canceled] returns true if the build was canceled. *)
Definition Canceled (p : Payload) : bool :=
  String.eqb (StatusMessage p) "Canceled" || String.eqb (ResultMessage p) "Canceled".

(** [Errored] returns true if the build has errored. *)
Definition Errored (p : Payload) : bool :=
  String.eqb (StatusMessage p) "Errored" || String.eqb (ResultMessage p) "Errored".

(** [IsPullRequest] returns true if the event was caused by a pull request. *)
Definition IsPullRequest (p : Payload) : bool :=
  String.eqb (Type_ p) "pull_request".

(** [IsPush] returns true if the event was caused by a push. *)
Definition IsPush (p : Payload) : bool :=
  String.eqb (Type_ p) "push".

(** [IsCron] returns true if the event was caused by a cron. *)
Definition IsCron (p : Payload) : bool :=
  String.eqb (Type_ p) "cron".

(** [IsAPI] returns true if the event was caused by an api. *)
Definition IsAPI (p : Payload) : bool :=
  String.eqb (Type_ p) "api".

(** The composite literal [Payload{StatusMessage: a, ResultMessage: b,
    Type: c}]: the fields it does not name are zero. *)
Definition Payload_literal (statusMessage resultMessage type_ : string) : Payload :=
  {| ID := 0; Number := EmptyString; Config := None; Type_ := type_;
     State := EmptyString; Status := 0; Result := 0;
     StatusMessage := statusMessage; ResultMessage := resultMessage;
     StartedAt := time_zero; FinishedAt := time_zero; Duration := 0;
     BuildURL := EmptyString; CommitID := 0; Commit := EmptyString;
     BaseCommit := EmptyString; HeadCommit := EmptyString;
     Branch := EmptyString; Message := EmptyString;
     CompareURL := EmptyString; CommitedAt := time_zero;
     AuthorName := EmptyString; AuthorEmail := EmptyString;
     CommiterName := EmptyString; CommiterEmail := EmptyString;
     PullRequest := 0; PullRequestNumber := 0;
     PullRequestTitle := EmptyString; Tag := EmptyString;
     Repository := None |}.

(** The vocabulary of the state predicates, each word with its predicate,
    and the vocabulary of the event predicates. *)
Definition statePredicates : list (string * (Payload -> bool)) :=
  [ ("Pending", Pending); ("Passed", Passed); ("Fixed", Fixed);
    ("Broken", Broken); ("Failed", Failed); ("Still Failing", StillFailing);
    ("Canceled", Canceled); ("Errored", Errored) ].

Definition eventPredicates : list (string * (Payload -> bool)) :=
  [ ("pull_request", IsPullRequest); ("push", IsPush); ("cron", IsCron);
    ("api", IsAPI) ].

(** ** Go types and values as package reflect presents them

    encoding/json reads and writes a struct through reflection: it walks the
    fields the struct declaration lists, in order, with the names and
    options of their [json] tags.  [GoType] is the part of a declaration
    the codec looks at, [GoValue] the value it reads or stores. *)

Record StructField (T : Type) : Type := mkField {
  jsonName : string;
  omitEmpty : bool;
  fieldType : T
}.

Arguments mkField {T} jsonName omitEmpty fieldType.
Arguments jsonName {T} _.
Arguments omitEmpty {T} _.
Arguments fieldType {T} _.

(** The signed integer kinds, and their sizes in bits.  [int] has 64 bits
    on the platforms Go runs servers on. *)
Inductive IntKind : Type := Int | Int8 | Int16 | Int32 | Int64.

Definition intSize : Z := 64.

Definition bitsOf (k : IntKind) : Z :=
  match k with
  | Int => intSize
  | Int8 => 8
  | Int16 => 16
  | Int32 => 32
  | Int64 => 64
  end.

Inductive GoType : Type :=
| TBool
| TInt (kind : IntKind)
| TString
| TTime
| TPtr (elem : GoType)
| TSlice (elem : GoType)
| TStruct (fields : list (StructField GoType)).

Inductive GoValue : Type :=
| VBool (b : bool)
| VInt (n : Z)
| VString (s : string)
| VTime (t : time_Time)
| VPtr (target : option GoValue)
| VSlice (items : option (list GoValue))
| VStruct (fields : list GoValue).

(** The zero value of a type. *)
Fixpoint zeroValue (T : GoType) : GoValue :=
  match T with
  | TBool => VBool false
  | TInt _ => VInt 0
  | TString => VString EmptyString
  | TTime => VTime time_zero
  | TPtr _ => VPtr None
  | TSlice _ => VSlice None
  | TStruct fs => VStruct (List.map (fun f => zeroValue (fieldType f)) fs)
  end.

(** [isEmptyValue] of encoding/json: what [omitempty] leaves out.  A struct
    (a [time.Time] too) is never empty. *)
Definition isEmptyValue (v : GoValue) : bool :=
  match v with
  | VBool b => negb b
  | VInt n => Z.eqb n 0
  | VString s => String.eqb s EmptyString
  | VPtr None => true
  | VSlice None => true
  | VSlice (Some []) => true
  | _ => false
  end.

(** ** strconv *)

Definition parseDigits (s : string) : option Z :=
  match s with
  | EmptyString => None
  | _ => Z.of_uint <$> NilEmpty.uint_of_string s
  end.

(** An optional sign and at least one decimal digit, nothing else. *)
Definition parseSigned (s : string) : option Z :=
  match s with
  | String "+"%char r => parseDigits r
  | String "-"%char r => Z.opp <$> parseDigits r
  | _ => parseDigits s
  end.

(** [strconv.ParseInt(s, 10, bitSize)]: a signed decimal literal whose
    value fits [bitSize] bits. *)
Definition strconv_ParseInt (s : string) (bitSize : Z) : option Z :=
  n ← parseSigned s;
  if Z.leb (- 2 ^ (bitSize - 1)) n && Z.ltb n (2 ^ (bitSize - 1))
  then Some n else None.

(** [strconv.FormatInt(n, 10)], the digits encoding/json writes for an
    integer. *)
Definition strconv_FormatInt (n : Z) : string :=
  NilEmpty.string_of_int (Z.to_int n).

(** ** Keys *)

(** [*rsa.PublicKey]: modulus and public exponent. *)
Record rsa_PublicKey : Type := mkRSA {
  N : Z;
  E : Z
}.

(** The dynamic types [x509.ParsePKIXPublicKey] documents for the key it
    returns as [any]. *)
Inductive crypto_PublicKey : Type :=
| RSAKey (k : rsa_PublicKey)
| DSAKey (p q g y : Z)
| ECDSAKey (curve : string) (x y : Z)
| Ed25519Key (k : list byte)
| ECDHKey (curve : string) (k : list byte).

(** The name of a key's dynamic type, as a failed type assertion prints it. *)
Definition dynamicType (k : crypto_PublicKey) : string :=
  match k with
  | RSAKey _ => "*rsa.PublicKey"
  | DSAKey _ _ _ _ => "*dsa.PublicKey"
  | ECDSAKey _ _ _ => "*ecdsa.PublicKey"
  | Ed25519Key _ => "ed25519.PublicKey"
  | ECDHKey _ _ => "*ecdh.PublicKey"
  end.

(** [pem.Block]: the label of the BEGIN line and the decoded contents (the
    package reads no headers). *)
Record pem_Block : Type := mkBlock {
  pem_Type : string;
  pem_Bytes : list byte
}.

(** ** The runtime: Go's standard library and the network

    - [json_scan s]: the scanner of encoding/json reads the first JSON
      value of [s] (leading white space skipped) and leaves the rest
      unread; [None] is a syntax error or an input that ends early.
    - [strings_EqualFold]: the case folding under which the decoder
      matches an object key with a field name when no name is equal to it.
    - [time_UnmarshalJSON], [time_MarshalJSON]: [time.Time]'s RFC 3339
      codec, on the contents of a JSON string.
    - [strconv_Quote]: what the verb [%q] prints for a string.
    - [base64_DecodeString]: [base64.StdEncoding.DecodeString].
    - [pem_Decode]: the first PEM block of the input, if any.
    - [x509_ParsePKIXPublicKey]: the key of a DER SubjectPublicKeyInfo.
    - [sha1_Sum]: the SHA-1 digest.
    - [rsa_VerifyPKCS1v15_SHA1 key hashed sig]: whether
      [rsa.VerifyPKCS1v15(key, crypto.SHA1, hashed, sig)] returns nil.
    - [http_Get n url]: the outcome of [http.Get(url)] when it is the
      [n]-th request the process sends: a transport error ([None]) or the
      body of the response. *)
Class Runtime : Type := {
  json_scan : string -> option (JSON * string);
  strings_EqualFold : string -> string -> bool;
  time_UnmarshalJSON : string -> option time_Time;
  time_MarshalJSON : time_Time -> option string;
  strconv_Quote : string -> string;
  base64_DecodeString : string -> option (list byte);
  pem_Decode : string -> option pem_Block;
  x509_ParsePKIXPublicKey : list byte -> option crypto_PublicKey;
  sha1_Sum : list byte -> list byte;
  rsa_VerifyPKCS1v15_SHA1 : rsa_PublicKey -> list byte -> list byte -> bool;
  http_Get : nat -> string -> option string
}.

(** ** The struct declarations, as reflection lists them *)

(** [type Config struct], with its tags [json:"...,omitempty"]. *)
Definition Config_type : GoType :=
  TStruct [
    mkField "sudo" true TBool;
    mkField "dist" true TString;
    mkField "language" true TString ].

(** [type Repository struct]. *)
Definition Repository_type : GoType :=
  TStruct [
    mkField "id" true (TInt Int64);
    mkField "name" true TString;
    mkField "owner_name" true TString;
    mkField "url" true TString ].

(** [type Payload struct]: thirty fields, every tag with [omitempty]. *)
Definition Payload_fields : list (StructField GoType) :=
  [
    mkField "id" true (TInt Int64);
    mkField "number" true TString;
    mkField "config" true (TPtr Config_type);
    mkField "type" true TString;
    mkField "state" true TString;
    mkField "status" true (TInt Int);
    mkField "result" true (TInt Int);
    mkField "status_message" true TString;
    mkField "result_message" true TString;
    mkField "started_at" true TTime;
    mkField "finished_at" true TTime;
    mkField "duration" true (TInt Int);
    mkField "build_url" true TString;
    mkField "commit_id" true (TInt Int);
    mkField "commit" true TString;
    mkField "base_commit" true TString;
    mkField "head_commit" true TString;
    mkField "branch" true TString;
    mkField "message" true TString;
    mkField "compare_url" true TString;
    mkField "commited_at" true TTime;
    mkField "author_name" true TString;
    mkField "author_email" true TString;
    mkField "commiter_name" true TString;
    mkField "commiter_email" true TString;
    mkField "pull_request" true (TInt Int);
    mkField "pull_request_number" true (TInt Int);
    mkField "pull_request_title" true TString;
    mkField "tag" true TString;
    mkField "repository" true (TPtr Repository_type) ].

Definition Payload_type : GoType := TStruct Payload_fields.

(** [type configKey struct]: the configuration document of the provider.
    Its nested structs are values, not pointers, and no tag has
    [omitempty]. *)
Definition configKey_type : GoType :=
  TStruct [
    mkField "config" false (TStruct [
      mkField "host" false TString;
      mkField "shorten_host" false TString;
      mkField "assets" false (TStruct [ mkField "host" false TString ]);
      mkField "pusher" false (TStruct [ mkField "key" false TString ]);
      mkField "github" false (TStruct [
        mkField "api_url" false TString;
        mkField "scopes" false (TSlice TString) ]);
      mkField "notifications" false (TStruct [
        mkField "webhook" false (TStruct [
          mkField "public_key" false TString ]) ]) ]) ].

(** The value reflection sees behind a struct, and the struct rebuilt from
    such a value. *)
Definition reflect_Config (c : Config.t) : GoValue :=
  VStruct [ VBool (Config.Sudo c); VString (Config.Dist c);
            VString (Config.Language c) ].

Definition reflect_Repository (r : Repository.t) : GoValue :=
  VStruct [ VInt (Repository.ID r); VString (Repository.Name r);
            VString (Repository.OwnerName r); VString (Repository.URL r) ].

Definition Payload_values (p : Payload) : list GoValue :=
  [
    VInt (ID p);
    VString (Number p);
    VPtr (reflect_Config <$> Config p);
    VString (Type_ p);
    VString (State p);
    VInt (Status p);
    VInt (Result p);
    VString (StatusMessage p);
    VString (ResultMessage p);
    VTime (StartedAt p);
    VTime (FinishedAt p);
    VInt (Duration p);
    VString (BuildURL p);
    VInt (CommitID p);
    VString (Commit p);
    VString (BaseCommit p);
    VString (HeadCommit p);
    VString (Branch p);
    VString (Message p);
    VString (CompareURL p);
    VTime (CommitedAt p);
    VString (AuthorName p);
    VString (AuthorEmail p);
    VString (CommiterName p);
    VString (CommiterEmail p);
    VInt (PullRequest p);
    VInt (PullRequestNumber p);
    VString (PullRequestTitle p);
    VString (Tag p);
    VPtr (reflect_Repository <$> Repository p) ].

Definition reflect_Payload (p : Payload) : GoValue := VStruct (Payload_values p).

Definition asBool (v : GoValue) : option bool :=
  match v with VBool b => Some b | _ => None end.

Definition asInt (v : GoValue) : option Z :=
  match v with VInt n => Some n | _ => None end.

Definition asString (v : GoValue) : option string :=
  match v with VString s => Some s | _ => None end.

Definition asTime (v : GoValue) : option time_Time :=
  match v with VTime t => Some t | _ => None end.

Definition asPtr {A} (f : GoValue -> option A) (v : GoValue) : option (option A) :=
  match v with
  | VPtr None => Some None
  | VPtr (Some x) => Some <$> f x
  | _ => None
  end.

Definition Config_of_value (v : GoValue) : option Config.t :=
  match v with
  | VStruct [VBool sudo; VString dist; VString language] =>
      Some (Config.mk sudo dist language)
  | _ => None
  end.

Definition Repository_of_value (v : GoValue) : option Repository.t :=
  match v with
  | VStruct [VInt id; VString name; VString owner; VString url] =>
      Some (Repository.mk id name owner url)
  | _ => None
  end.

Definition Payload_of_value (v : GoValue) : option Payload :=
  match v with
  | VStruct xs =>
      x0 ← xs !! 0%nat ≫= asInt;
      x1 ← xs !! 1%nat ≫= asString;
      x2 ← xs !! 2%nat ≫= asPtr Config_of_value;
      x3 ← xs !! 3%nat ≫= asString;
      x4 ← xs !! 4%nat ≫= asString;
      x5 ← xs !! 5%nat ≫= asInt;
      x6 ← xs !! 6%nat ≫= asInt;
      x7 ← xs !! 7%nat ≫= asString;
      x8 ← xs !! 8%nat ≫= asString;
      x9 ← xs !! 9%nat ≫= asTime;
      x10 ← xs !! 10%nat ≫= asTime;
      x11 ← xs !! 11%nat ≫= asInt;
      x12 ← xs !! 12%nat ≫= asString;
      x13 ← xs !! 13%nat ≫= asInt;
      x14 ← xs !! 14%nat ≫= asString;
      x15 ← xs !! 15%nat ≫= asString;
      x16 ← xs !! 16%nat ≫= asString;
      x17 ← xs !! 17%nat ≫= asString;
      x18 ← xs !! 18%nat ≫= asString;
      x19 ← xs !! 19%nat ≫= asString;
      x20 ← xs !! 20%nat ≫= asTime;
      x21 ← xs !! 21%nat ≫= asString;
      x22 ← xs !! 22%nat ≫= asString;
      x23 ← xs !! 23%nat ≫= asString;
      x24 ← xs !! 24%nat ≫= asString;
      x25 ← xs !! 25%nat ≫= asInt;
      x26 ← xs !! 26%nat ≫= asInt;
      x27 ← xs !! 27%nat ≫= asString;
      x28 ← xs !! 28%nat ≫= asString;
      x29 ← xs !! 29%nat ≫= asPtr Repository_of_value;
      if Nat.eqb (List.length xs) 30 then
        Some
          {| ID := x0; Number := x1; Config := x2; Type_ := x3; State := x4;
           Status := x5; Result := x6; StatusMessage := x7;
           ResultMessage := x8; StartedAt := x9; FinishedAt := x10;
           Duration := x11; BuildURL := x12; CommitID := x13; Commit := x14;
           BaseCommit := x15; HeadCommit := x16; Branch := x17;
           Message := x18; CompareURL := x19; CommitedAt := x20;
           AuthorName := x21; AuthorEmail := x22; CommiterName := x23;
           CommiterEmail := x24; PullRequest := x25;
           PullRequestNumber := x26; PullRequestTitle := x27; Tag := x28;
           Repository := x29 |}
      else None
  | _ => None
  end.

(** A field of a struct value, selected by the name in its tag. *)
Fixpoint fieldNamed (fs : list (StructField GoType)) (xs : list GoValue)
    (name : string) : option (GoType * GoValue) :=
  match fs, xs with
  | f :: fs', x :: xs' =>
      if String.eqb (jsonName f) name then Some (fieldType f, x)
      else fieldNamed fs' xs' name
  | _, _ => None
  end.

(** [select T v path]: the field reached from [v] through the selectors of
    [path], as in [t.Config.Notifications.Webhook.PublicKey]. *)
Fixpoint select (T : GoType) (v : GoValue) (path : list string) : option GoValue :=
  match path with
  | [] => Some v
  | name :: path' =>
      match T, v with
      | TStruct fs, VStruct xs =>
          '(T', v') ← fieldNamed fs xs name; select T' v' path'
      | _, _ => None
      end
  end.

(** [t.Config.Notifications.Webhook.PublicKey] of a [configKey] [t]. *)
Definition PublicKeyOf (t : GoValue) : string :=
  default EmptyString
    (select configKey_type t ["config"; "notifications"; "webhook"; "public_key"]
       ≫= asString).

(** ** encoding/json over reflected values *)

Section Codec.
Context `{RT : Runtime}.

(** The position of the first name [f] accepts. *)
Fixpoint indexWhere (f : string -> bool) (names : list string) : option nat :=
  match names with
  | [] => None
  | n :: names' => if f n then Some O else S <$> indexWhere f names'
  end.

(** The field an object key is stored in: the field whose name is the key,
    and without one the first field whose name equals the key under case
    folding.  A key that selects no field is skipped. *)
Definition findField (fs : list (StructField GoType)) (key : string) : option nat :=
  match indexWhere (String.eqb key) (List.map jsonName fs) with
  | Some i => Some i
  | None => indexWhere (strings_EqualFold key) (List.map jsonName fs)
  end.

(** The decoder stores [v] in the [i]-th field of a struct that holds
    [xs], with [dec] for the field's type. *)
Fixpoint storeField (dec : GoType -> JSON -> GoValue -> option GoValue)
    (fs : list (StructField GoType)) (xs : list GoValue) (i : nat) (v : JSON)
    : option (list GoValue) :=
  match fs, xs with
  | f :: fs', x :: xs' =>
      match i with
      | O => (fun x' => x' :: xs') <$> dec (fieldType f) v x
      | S i' => (fun xs'' => x :: xs'') <$> storeField dec fs' xs' i' v
      end
  | _, _ => None
  end.

(** One member of an object: stored in the field its key selects, skipped
    when the key selects none. *)
Definition storeMember (dec : GoType -> JSON -> GoValue -> option GoValue)
    (fs : list (StructField GoType)) (acc : option (list GoValue))
    (m : string * JSON) : option (list GoValue) :=
  xs ← acc;
  match findField fs (fst m) with
  | Some i => storeField dec fs xs i (snd m)
  | None => Some xs
  end.

(** [json_decode T j cur]: the decoder stores the JSON value [j] in a
    variable of type [T] that holds [cur]; [None] when it reports an error.
    - [null] sets a pointer or slice to nil and leaves anything else as it
      is;
    - a bool, string or integer takes a JSON value of its kind only, an
      integer only a literal [strconv.ParseInt] accepts at its size;
    - a [time.Time] takes a string its [UnmarshalJSON] accepts;
    - a pointer is allocated if nil, and the value is stored behind it;
    - a slice takes an array, element by element;
    - a struct takes an object and stores its members in order, each in
      the field its key selects, so of two members with one key the later
      is stored over the earlier. *)
Fixpoint json_decode (T : GoType) (j : JSON) (cur : GoValue) : option GoValue :=
  match j with
  | JNull =>
      match T with
      | TPtr _ | TSlice _ => Some (zeroValue T)
      | _ => Some cur
      end
  | _ =>
      match T with
      | TBool => match j with JBool b => Some (VBool b) | _ => None end
      | TInt kind =>
          match j with
          | JNumber lit => VInt <$> strconv_ParseInt lit (bitsOf kind)
          | _ => None
          end
      | TString => match j with JString s => Some (VString s) | _ => None end
      | TTime =>
          match j with
          | JString s => VTime <$> time_UnmarshalJSON s
          | _ => None
          end
      | TPtr elem =>
          let target :=
            match cur with VPtr (Some x) => x | _ => zeroValue elem end in
          (fun x => VPtr (Some x)) <$> json_decode elem j target
      | TSlice elem =>
          match j with
          | JArray items =>
              (fun xs => VSlice (Some xs))
                <$> mapM (fun item => json_decode elem item (zeroValue elem)) items
          | _ => None
          end
      | TStruct fs =>
          match j, cur with
          | JObject members, VStruct xs =>
              VStruct <$>
                foldl (storeMember (fun T' => json_decode T') fs) (Some xs) members
          | _, _ => None
          end
      end
  end.

(** The members [json.Marshal] writes for the fields of a struct, in
    order: a field with [omitempty] only when its value is not empty. *)
Fixpoint encodeFields (enc : GoType -> GoValue -> option JSON)
    (fs : list (StructField GoType)) (xs : list GoValue)
    : option (list (string * JSON)) :=
  match fs, xs with
  | [], [] => Some []
  | f :: fs', x :: xs' =>
      if omitEmpty f && isEmptyValue x then encodeFields enc fs' xs'
      else
        j ← enc (fieldType f) x;
        rest ← encodeFields enc fs' xs';
        Some ((jsonName f, j) :: rest)
  | _, _ => None
  end.

(** [json_encode T v]: [json.Marshal] of a value [v] of type [T]; [None]
    when a [MarshalJSON] fails. *)
Fixpoint json_encode (T : GoType) (v : GoValue) : option JSON :=
  match T, v with
  | TBool, VBool b => Some (JBool b)
  | TInt _, VInt n => Some (JNumber (strconv_FormatInt n))
  | TString, VString s => Some (JString s)
  | TTime, VTime t => JString <$> time_MarshalJSON t
  | TPtr _, VPtr None => Some JNull
  | TPtr elem, VPtr (Some x) => json_encode elem x
  | TSlice _, VSlice None => Some JNull
  | TSlice elem, VSlice (Some xs) => JArray <$> mapM (json_encode elem) xs
  | TStruct fs, VStruct xs =>
      JObject <$> encodeFields (fun T' => json_encode T') fs xs
  | _, _ => None
  end.

(** White space of JSON: space, tab, carriage return, line feed. *)
Definition json_isSpace (c : ascii) : bool :=
  match nat_of_ascii c with
  | 32%nat | 9%nat | 13%nat | 10%nat => true
  | _ => false
  end.

(** [json.NewDecoder(r).Decode(v)] on a reader that delivers [stream]: the
    decoder reads one JSON value and does not look at what follows it. *)
Definition json_Decoder_Decode (stream : string) (T : GoType) (cur : GoValue)
    : option GoValue :=
  '(j, _) ← json_scan stream; json_decode T j cur.

(** [json.Unmarshal(data, v)]: [data] must be one JSON value, with white
    space at most around it. *)
Definition json_Unmarshal (data : string) (T : GoType) (cur : GoValue)
    : option GoValue :=
  '(j, rest) ← json_scan data;
  if forallb json_isSpace (list_ascii_of_string rest)
  then json_decode T j cur else None.

(** [json.Marshal(p)] for a payload. *)
Definition json_Marshal_Payload (p : Payload) : option JSON :=
  json_encode Payload_type (reflect_Payload p).

(** ** The package *)

(** An [io.Reader]: the nil interface, or a reader that delivers a
    sequence of bytes and then [io.EOF]. *)
Definition io_Reader : Type := option string.

(** [GetPayload] will parse the payload inside [r]. *)
Definition GetPayload (r : io_Reader) : result Payload :=
  match r with
  | None => Err "can't parse from nil reader"
  | Some stream =>
      let p := Payload_zero in
      match json_Decoder_Decode stream Payload_type (reflect_Payload p)
              ≫= Payload_of_value with
      | None => Err "cannot decode payload"
      | Some p => Ok p
      end
  end.

(** [http.Header]: the values sent under each (canonical) header name, and
    [Header.Get], the first of them or the empty string.  The two names the
    package asks for are in canonical form. *)
Definition http_Header : Type := gmap string (list string).

Definition Header_Get (h : http_Header) (key : string) : string :=
  match h !! key with
  | Some (v :: _) => v
  | _ => EmptyString
  end.

(** [*http.Request]: what the package reads of it.  [Form] is the parsed
    form [FormValue] builds from the URL-encoded body and the query. *)
Record http_Request : Type := mkRequest {
  Method : string;
  Header : http_Header;
  Form : gmap string (list string)
}.

(** [r.FormValue(key)]: the first value of the form field, or the empty
    string. *)
Definition FormValue (r : http_Request) (key : string) : string :=
  match Form r !! key with
  | Some (v :: _) => v
  | _ => EmptyString
  end.

(** The state of the process the package reads and writes: the package
    variable [travisPubKey] (nil until a key is stored) and the requests
    [http.Get] has sent so far. *)
Record World : Type := mkWorld {
  travisPubKey : option rsa_PublicKey;
  sent : list string
}.

Definition configURL : string := "https://api.travis-ci.org/config".

(** [parsePublicKey]: the RSA key of a PEM block labelled PUBLIC KEY.  The
    type assertion of [publicKey] to a pointer to [rsa.PublicKey] has no
    comma-ok form: on a key of another dynamic type it panics. *)
Definition parsePublicKey (key : string) : result rsa_PublicKey :=
  match pem_Decode key with
  | None => Err "invalid public key"
  | Some block =>
      if negb (String.eqb (pem_Type block) "PUBLIC KEY")
      then Err "invalid public key"
      else
        match x509_ParsePKIXPublicKey (pem_Bytes block) with
        | None => Err "invalid public key"
        | Some (RSAKey k) => Ok k
        | Some publicKey =>
            Panic ("interface conversion: interface {} is "
                   ++ dynamicType publicKey ++ ", not *rsa.PublicKey")
        end
  end.

(** [travisPublicKey]: the cached key, or the key fetched from the
    provider's configuration, which it then stores in [travisPubKey]. *)
Definition travisPublicKey (w : World) : result rsa_PublicKey * World :=
  match travisPubKey w with
  | Some k => (Ok k, w)
  | None =>
      let w' := {| travisPubKey := travisPubKey w; sent := sent w ++ [configURL] |} in
      match http_Get (List.length (sent w)) configURL with
      | None => (Err "cannot fetch travis public key", w')
      | Some body =>
          match json_Decoder_Decode body configKey_type (zeroValue configKey_type) with
          | None => (Err "cannot decode travis public key", w')
          | Some t =>
              match parsePublicKey (PublicKeyOf t) with
              | Ok key =>
                  (Ok key, {| travisPubKey := Some key; sent := sent w' |})
              | Err msg => (Err msg, w')
              | Panic msg => (Panic msg, w')
              end
          end
      end
  end.

(** [parsePayloadSignature]: the bytes of the Signature header. *)
Definition parsePayloadSignature (r : http_Request) : result (list byte) :=
  let signature := Header_Get (Header r) "Signature" in
  if String.eqb signature EmptyString then Err "missing Signature header"
  else
    match base64_DecodeString signature with
    | None => Err "cannot decode signature"
    | Some b64 => Ok b64
    end.

(** [payloadDigest]: the SHA-1 digest of the bytes of the payload text. *)
Definition payloadDigest (payload : string) : list byte :=
  sha1_Sum (list_byte_of_string payload).

(** [GetPayloadFromRequest] will verify the integrity of the request and
    then parse the payload inside the body.  [r] is a pointer: reading
    [r.Method] through the nil pointer panics. *)
Definition GetPayloadFromRequest (r : option http_Request) (w : World)
    : result Payload * World :=
  match r with
  | None => (Panic "invalid memory address or nil pointer dereference", w)
  | Some r =>
      if negb (String.eqb (Method r) "POST") then
        (Err ("wrong request method " ++ strconv_Quote (Method r)
              ++ " instead of POST"), w)
      else if negb (String.eqb (Header_Get (Header r) "Content-Type")
                      "application/x-www-form-urlencoded") then
        (Err ("wrong Content-Type header, got "
              ++ Header_Get (Header r) "Content-Type"
              ++ " != want application/x-www-form-urlencoded"), w)
      else
        match travisPublicKey w with
        | (Err msg, w') => (Err msg, w')
        | (Panic msg, w') => (Panic msg, w')
        | (Ok key, w') =>
            match parsePayloadSignature r with
            | Err msg => (Err msg, w')
            | Panic msg => (Panic msg, w')
            | Ok signature =>
                let payload := payloadDigest (FormValue r "payload") in
                if negb (rsa_VerifyPKCS1v15_SHA1 key payload signature) then
                  (Err "unauthorized payload", w')
                else
                  let p := Payload_zero in
                  match json_Unmarshal (FormValue r "payload") Payload_type
                          (reflect_Payload p) ≫= Payload_of_value with
                  | None => (Err "cannot decode payload", w')
                  | Some p => (Ok p, w')
                  end
            end
        end
  end.

(** [n] calls of [travisPublicKey] one after the other: their results,
    and the state they leave. *)
Fixpoint callsInARow (n : nat) (w : World) : list (result rsa_PublicKey) * World :=
  match n with
  | O => ([], w)
  | S n' =>
      let '(res, w1) := travisPublicKey w in
      let '(rest, w2) := callsInARow n' w1 in
      (res :: rest, w2)
  end.

End Codec.

(** ** Concurrent calls of [travisPublicKey]

    A host that serves requests concurrently runs [travisPublicKey] in
    several goroutines at once.  The function has no lock, channel or
    atomic operation: its steps on [travisPubKey] and on the network
    interleave freely.  A goroutine is at one of these stages. *)

Section Goroutines.
Context `{RT : Runtime}.

Inductive Stage : Type :=
| AtCheck                         (* about to test travisPubKey != nil *)
| AtReturnCached                  (* about to read travisPubKey for the first return *)
| AtGet                           (* about to call http.Get *)
| AtStore (key : rsa_PublicKey)   (* about to assign travisPubKey = key *)
| AtReturnStored                  (* about to read travisPubKey for the last return *)
| Returned (res : result (option rsa_PublicKey)).

(** The process: the shared state, the number of assignments to
    [travisPubKey] so far, and the stage of each goroutine. *)
Record Machine : Type := mkMachine {
  shared : World;
  stores : nat;
  calls : list Stage
}.

(** From the response of [http.Get] to the store: the steps of
    [travisPublicKey] that touch nothing shared. *)
Definition afterGet (n : nat) : Stage :=
  match http_Get n configURL with
  | None => Returned (Err "cannot fetch travis public key")
  | Some body =>
      match json_Decoder_Decode body configKey_type (zeroValue configKey_type) with
      | None => Returned (Err "cannot decode travis public key")
      | Some t =>
          match parsePublicKey (PublicKeyOf t) with
          | Ok key => AtStore key
          | Err msg => Returned (Err msg)
          | Panic msg => Returned (Panic msg)
          end
      end
  end.

(** Goroutine [g] takes its next step. *)
Definition step (g : nat) (m : Machine) : Machine :=
  match calls m !! g with
  | None => m
  | Some stage =>
      let w := shared m in
      match stage with
      | AtCheck =>
          let next := match travisPubKey w with
                      | Some _ => AtReturnCached
                      | None => AtGet
                      end in
          mkMachine w (stores m) (<[g := next]> (calls m))
      | AtReturnCached =>
          mkMachine w (stores m) (<[g := Returned (Ok (travisPubKey w))]> (calls m))
      | AtGet =>
          mkMachine
            {| travisPubKey := travisPubKey w; sent := sent w ++ [configURL] |}
            (stores m)
            (<[g := afterGet (List.length (sent w))]> (calls m))
      | AtStore key =>
          mkMachine {| travisPubKey := Some key; sent := sent w |}
            (S (stores m)) (<[g := AtReturnStored]> (calls m))
      | AtReturnStored =>
          mkMachine w (stores m) (<[g := Returned (Ok (travisPubKey w))]> (calls m))
      | Returned _ => m
      end
  end.

(** The goroutines step in the order a schedule lists them. *)
Definition run (schedule : list nat) (m : Machine) : Machine :=
  foldl (fun m g => step g m) m schedule.

(** [n] calls start together in a process whose state is [w]. *)
Definition start (n : nat) (w : World) : Machine :=
  mkMachine w 0 (replicate n AtCheck).

Definition finished (m : Machine) : Prop :=
  Forall (fun s => exists res, s = Returned res) (calls m).

(** The next step of a goroutine reads, or writes, [travisPubKey]. *)
Definition readsKey (s : Stage) : bool :=
  match s with
  | AtCheck | AtReturnCached | AtReturnStored => true
  | _ => false
  end.

Definition writesKey (s : Stage) : bool :=
  match s with
  | AtStore _ => true
  | _ => false
  end.

(** A data race: two goroutines are about to access [travisPubKey], one of
    them to write it, and nothing orders the two accesses. *)
Definition dataRace (m : Machine) : Prop :=
  exists g1 g2 s1 s2,
    g1 <> g2 /\ calls m !! g1 = Some s1 /\ calls m !! g2 = Some s2
    /\ writesKey s1 = true /\ (readsKey s2 || writesKey s2) = true.

(** The goroutines that are past the call of [http.Get], and those that
    are past the assignment or returned without one. *)
Definition pastGet (s : Stage) : bool :=
  match s with
  | AtStore _ | AtReturnStored | Returned _ => true
  | _ => false
  end.

Definition pastStore (s : Stage) : bool :=
  match s with
  | AtReturnStored | Returned _ => true
  | _ => false
  end.

Definition countIf (f : Stage -> bool) (l : list Stage) : nat :=
  List.length (List.filter f l).

(** The number of steps a goroutine has taken at least. *)
Definition rank (s : Stage) : nat :=
  match s with
  | AtCheck => 0
  | AtGet => 1
  | AtStore _ => 2
  | AtReturnCached | AtReturnStored => 3
  | Returned _ => 4
  end.

Definition rankOf (m : Machine) (g : nat) : nat :=
  match calls m !! g with
  | Some s => rank s
  | None => 4
  end.

(** What holds of a goroutine at its stage while the endpoint serves
    [key]: a key about to be stored is [key]; a goroutine that has seen or
    stored a key, and one that has returned, finds [key] in the cache. *)
Definition stageOk (key : rsa_PublicKey) (w : World) (s : Stage) : Prop :=
  match s with
  | AtCheck | AtGet => True
  | AtStore k => k = key
  | AtReturnCached | AtReturnStored => travisPubKey w = Some key
  | Returned res => res = Ok (Some key) /\ travisPubKey w = Some key
  end.

(** The invariant of [n] concurrent calls that started when [sent0] had
    been sent. *)
Record Invariant (key : rsa_PublicKey) (n : nat) (sent0 : list string)
    (m : Machine) : Prop := mkInvariant {
  inv_calls : List.length (calls m) = n;
  inv_cache : travisPubKey (shared m) = None \/ travisPubKey (shared m) = Some key;
  inv_stages : forall g s, calls m !! g = Some s -> stageOk key (shared m) s;
  inv_stores : (stores m <= countIf pastStore (calls m))%nat;
  inv_stored : travisPubKey (shared m) <> None -> (1 <= stores m)%nat;
  inv_sent :
    (List.length (sent (shared m))
     <= List.length sent0 + countIf pastGet (calls m))%nat
}.

(** A goroutine that will neither fetch nor assign: it is before the
    test, before one of the two returns, or has returned [key]. *)
Definition settled (key : rsa_PublicKey) (s : Stage) : Prop :=
  match s with
  | AtCheck | AtReturnCached | AtReturnStored => True
  | Returned res => res = Ok (Some key)
  | AtGet | AtStore _ => False
  end.

(** What holds of a goroutine at its stage whatever the endpoint answers:
    before a return the cache holds a key, and a call that has returned
    without an error has returned a key. *)
Definition stageSafe (w : World) (s : Stage) : Prop :=
  match s with
  | AtReturnCached | AtReturnStored => travisPubKey w <> None
  | Returned (Ok k) => k <> None
  | _ => True
  end.

(** The result of a call as a goroutine returns it: the key behind a
    pointer. *)
Definition returned (res : result rsa_PublicKey) : Stage :=
  Returned match res with
           | Ok k => Ok (Some k)
           | Err msg => Err msg
           | Panic msg => Panic msg
           end.

End Goroutines.

(** ** Well-formed values *)

(** [n] fits [bitSize] bits. *)
Definition fitsInt (bitSize n : Z) : Prop :=
  - 2 ^ (bitSize - 1) <= n < 2 ^ (bitSize - 1).

Fixpoint allFields (P : GoType -> GoValue -> Prop)
    (fs : list (StructField GoType)) (xs : list GoValue) : Prop :=
  match fs, xs with
  | [], [] => True
  | f :: fs', x :: xs' => P (fieldType f) x /\ allFields P fs' xs'
  | _, _ => False
  end.

(** [v] is a value of type [T], its integers fit their kinds, and its
    times satisfy [okTime]. *)
Fixpoint sound (okTime : time_Time -> Prop) (T : GoType) (v : GoValue) : Prop :=
  match T, v with
  | TBool, VBool _ => True
  | TInt kind, VInt n => fitsInt (bitsOf kind) n
  | TString, VString _ => True
  | TTime, VTime t => okTime t
  | TPtr _, VPtr None => True
  | TPtr elem, VPtr (Some x) => sound okTime elem x
  | TSlice _, VSlice None => True
  | TSlice elem, VSlice (Some xs) => Forall (sound okTime elem) xs
  | TStruct fs, VStruct xs => allFields (fun T' => sound okTime T') fs xs
  | _, _ => False
  end.



(** ** A standard runtime

    Executable models of the library functions the package calls, written
    after the documentation of the Go packages, to evaluate the package on
    concrete inputs.  No theorem about the package depends on them: the
    theorems quantify over every [Runtime]. *)

Module Std.

Definition dquote : ascii := "034"%char.
Definition backslash : ascii := "092"%char.
Definition chr (n : Z) : ascii := ascii_of_nat (Z.to_nat n).
Definition ord (c : ascii) : Z := Z.of_nat (nat_of_ascii c).

(** Inputs are written with apostrophes where the text has double quotes. *)
Fixpoint dq (s : string) : string :=
  match s with
  | EmptyString => EmptyString
  | String c r => String (if Ascii.eqb c "'"%char then dquote else c) (dq r)
  end.

(** *** encoding/json: the scanner *)

Definition isDigit (c : ascii) : bool :=
  (48 <=? nat_of_ascii c)%nat && (nat_of_ascii c <=? 57)%nat.

Fixpoint skipSpace (s : string) : string :=
  match s with
  | String c r => if json_isSpace c then skipSpace r else s
  | EmptyString => s
  end.

(** The digits at the head of [s], and what follows them. *)
Fixpoint spanDigits (s : string) : string * string :=
  match s with
  | String c r =>
      if isDigit c then let '(d, rest) := spanDigits r in (String c d, rest)
      else (EmptyString, s)
  | EmptyString => (EmptyString, s)
  end.

(** A number literal: an optional minus, an integer part without a
    superfluous leading zero, an optional fraction, an optional exponent. *)
Definition scanNumber (s : string) : option (string * string) :=
  let '(sign, s1) :=
    match s with
    | String "-"%char r => ("-", r)
    | _ => (EmptyString, s)
    end in
  let '(int, s2) := spanDigits s1 in
  match int with
  | EmptyString => None
  | String "0"%char (String _ _) => None
  | _ =>
      '(frac, s3) ←
        match s2 with
        | String "."%char r =>
            let '(d, rest) := spanDigits r in
            if String.eqb d EmptyString then None else Some ("." ++ d, rest)
        | _ => Some (EmptyString, s2)
        end;
      '(exp, s4) ←
        match s3 with
        | String c r =>
            if Ascii.eqb c "e"%char || Ascii.eqb c "E"%char then
              let '(sg, r') :=
                match r with
                | String "+"%char r' => ("+", r')
                | String "-"%char r' => ("-", r')
                | _ => (EmptyString, r)
                end in
              let '(d, rest) := spanDigits r' in
              if String.eqb d EmptyString then None
              else Some (String c sg ++ d, rest)
            else Some (EmptyString, s3)
        | EmptyString => Some (EmptyString, s3)
        end;
      Some (sign ++ int ++ frac ++ exp, s4)
  end.

Definition hexDigit (c : ascii) : option Z :=
  let n := Z.of_nat (nat_of_ascii c) in
  if ((48 <=? n) && (n <=? 57))%Z then Some (n - 48)
  else if ((97 <=? n) && (n <=? 102))%Z then Some (n - 87)
  else if ((65 <=? n) && (n <=? 70))%Z then Some (n - 55)
  else None.

Definition hex4 (s : string) : option (Z * string) :=
  match s with
  | String a (String b (String c (String d r))) =>
      a ← hexDigit a; b ← hexDigit b; c ← hexDigit c; d ← hexDigit d;
      Some (((a * 16 + b) * 16 + c) * 16 + d, r)
  | _ => None
  end.

(** The UTF-8 encoding of a code point. *)
Definition utf8 (r : Z) : string :=
  if (r <? 128)%Z then String (chr r) EmptyString
  else if (r <? 2048)%Z then
    String (chr (192 + r / 64)) (String (chr (128 + r mod 64)) EmptyString)
  else if (r <? 65536)%Z then
    String (chr (224 + r / 4096))
      (String (chr (128 + (r / 64) mod 64))
         (String (chr (128 + r mod 64)) EmptyString))
  else
    String (chr (240 + r / 262144))
      (String (chr (128 + (r / 4096) mod 64))
         (String (chr (128 + (r / 64) mod 64))
            (String (chr (128 + r mod 64)) EmptyString))).

(** The contents of a string literal after its opening quote, unescaped,
    and what follows the closing quote. *)
Fixpoint scanString (fuel : nat) (s : string) : option (string * string) :=
  match fuel with
  | O => None
  | S fuel =>
      match s with
      | EmptyString => None
      | String c r =>
          if Ascii.eqb c dquote then Some (EmptyString, r)
          else if (nat_of_ascii c <? 32)%nat then None
          else if Ascii.eqb c backslash then
            match r with
            | String e r' =>
                let plain (x : ascii) :=
                  '(t, rest) ← scanString fuel r'; Some (String x t, rest) in
                if Ascii.eqb e dquote then plain dquote
                else if Ascii.eqb e backslash then plain backslash
                else if Ascii.eqb e "/"%char then plain "/"%char
                else if Ascii.eqb e "b"%char then plain "008"%char
                else if Ascii.eqb e "f"%char then plain "012"%char
                else if Ascii.eqb e "n"%char then plain "010"%char
                else if Ascii.eqb e "r"%char then plain "013"%char
                else if Ascii.eqb e "t"%char then plain "009"%char
                else if Ascii.eqb e "u"%char then
                  '(u, r1) ← hex4 r';
                  if ((55296 <=? u) && (u <? 56320))%Z then
                    (* a high surrogate: with the low one after it, one
                       code point; alone, the replacement character *)
                    match r1 with
                    | String b1 (String b2 r2) =>
                        if Ascii.eqb b1 backslash && Ascii.eqb b2 "u"%char then
                          match hex4 r2 with
                          | Some (l, r3) =>
                              if ((56320 <=? l) && (l <? 57344))%Z then
                                '(t, rest) ← scanString fuel r3;
                                Some (utf8 (65536 + (u - 55296) * 1024 + (l - 56320)) ++ t, rest)
                              else
                                '(t, rest) ← scanString fuel r1;
                                Some (utf8 65533 ++ t, rest)
                          | None => None
                          end
                        else
                          '(t, rest) ← scanString fuel r1;
                          Some (utf8 65533 ++ t, rest)
                    | _ =>
                        '(t, rest) ← scanString fuel r1;
                        Some (utf8 65533 ++ t, rest)
                    end
                  else if ((56320 <=? u) && (u <? 57344))%Z then
                    '(t, rest) ← scanString fuel r1;
                    Some (utf8 65533 ++ t, rest)
                  else
                    '(t, rest) ← scanString fuel r1;
                    Some (utf8 u ++ t, rest)
                else None
            | EmptyString => None
            end
          else '(t, rest) ← scanString fuel r; Some (String c t, rest)
      end
  end.

(** One JSON value at the head of [s], after white space, and the rest. *)
Fixpoint scanValue (fuel : nat) (s : string) : option (JSON * string) :=
  match fuel with
  | O => None
  | S fuel =>
      match skipSpace s with
      | EmptyString => None
      | String c r =>
          if Ascii.eqb c "{"%char then
            match skipSpace r with
            | String "}"%char r' => Some (JObject [], r')
            | _ => '(ms, rest) ← scanMembers fuel r; Some (JObject ms, rest)
            end
          else if Ascii.eqb c "["%char then
            match skipSpace r with
            | String "]"%char r' => Some (JArray [], r')
            | _ => '(xs, rest) ← scanItems fuel r; Some (JArray xs, rest)
            end
          else if Ascii.eqb c dquote then
            '(t, rest) ← scanString (String.length r + 1) r; Some (JString t, rest)
          else
            match String c r with
            | String "t" (String "r" (String "u" (String "e" rest))) =>
                Some (JBool true, rest)
            | String "f" (String "a" (String "l" (String "s" (String "e" rest)))) =>
                Some (JBool false, rest)
            | String "n" (String "u" (String "l" (String "l" rest))) =>
                Some (JNull, rest)
            | _ => '(lit, rest) ← scanNumber (String c r); Some (JNumber lit, rest)
            end
      end
  end
with scanMembers (fuel : nat) (s : string) : option (list (string * JSON) * string) :=
  match fuel with
  | O => None
  | S fuel =>
      match skipSpace s with
      | String c r =>
          if Ascii.eqb c dquote then
            '(k, r1) ← scanString (String.length r + 1) r;
            match skipSpace r1 with
            | String ":"%char r2 =>
                '(v, r3) ← scanValue fuel r2;
                match skipSpace r3 with
                | String ","%char r4 =>
                    '(ms, rest) ← scanMembers fuel r4; Some ((k, v) :: ms, rest)
                | String "}"%char r4 => Some ([(k, v)], r4)
                | _ => None
                end
            | _ => None
            end
          else None
      | EmptyString => None
      end
  end
with scanItems (fuel : nat) (s : string) : option (list JSON * string) :=
  match fuel with
  | O => None
  | S fuel =>
      '(v, r1) ← scanValue fuel s;
      match skipSpace r1 with
      | String ","%char r2 => '(xs, rest) ← scanItems fuel r2; Some (v :: xs, rest)
      | String "]"%char r2 => Some ([v], r2)
      | _ => None
      end
  end.

Definition scan (s : string) : option (JSON * string) :=
  scanValue (String.length s + 1) s.

(** *** strings.EqualFold, on ASCII letters *)

Definition lower (c : ascii) : ascii :=
  if ((65 <=? ord c) && (ord c <=? 90))%Z then chr (ord c + 32) else c.

Fixpoint equalFold (s t : string) : bool :=
  match s, t with
  | EmptyString, EmptyString => true
  | String a s', String b t' => Ascii.eqb (lower a) (lower b) && equalFold s' t'
  | _, _ => false
  end.

(** *** strconv.Quote, on ASCII *)

Definition hexChar (n : Z) : ascii :=
  if (n <? 10)%Z then chr (48 + n) else chr (87 + n).

Definition quoteByte (c : ascii) : string :=
  let n := ord c in
  if Ascii.eqb c dquote then String backslash (String dquote EmptyString)
  else if Ascii.eqb c backslash then String backslash (String backslash EmptyString)
  else if (n =? 7)%Z then String backslash "a"
  else if (n =? 8)%Z then String backslash "b"
  else if (n =? 12)%Z then String backslash "f"
  else if (n =? 10)%Z then String backslash "n"
  else if (n =? 13)%Z then String backslash "r"
  else if (n =? 9)%Z then String backslash "t"
  else if (n =? 11)%Z then String backslash "v"
  else if ((n <? 32) || (n =? 127))%Z then
    String backslash (String "x" (String (hexChar (n / 16)) (String (hexChar (n mod 16)) EmptyString)))
  else String c EmptyString.

Fixpoint quoteBody (s : string) : string :=
  match s with
  | EmptyString => EmptyString
  | String c r => quoteByte c ++ quoteBody r
  end.

Definition quote (s : string) : string :=
  String dquote (quoteBody s ++ String dquote EmptyString).

(** *** time.Time and RFC 3339 *)

(** [n] decimal digits at the head of [s], as a number. *)
Fixpoint digits (n : nat) (acc : Z) (s : string) : option (Z * string) :=
  match n with
  | O => Some (acc, s)
  | S n' =>
      match s with
      | String c r =>
          if isDigit c then digits n' (acc * 10 + (ord c - 48)) r else None
      | EmptyString => None
      end
  end.

Definition expect (c : ascii) (s : string) : option string :=
  match s with
  | String c' r => if Ascii.eqb c c' then Some r else None
  | EmptyString => None
  end.

Definition isLeap (y : Z) : bool :=
  ((y mod 4 =? 0) && (negb (y mod 100 =? 0) || (y mod 400 =? 0)))%Z.

Definition daysIn (y m : Z) : Z :=
  if (m =? 2)%Z then (if isLeap y then 29 else 28)
  else if ((m =? 4) || (m =? 6) || (m =? 9) || (m =? 11))%Z then 30
  else 31.

(** The digits of a fraction of a second: the first nine count. *)
Fixpoint fraction (s : string) (place : Z) (acc : Z) : Z * string :=
  match s with
  | String c r =>
      if isDigit c then fraction r (place / 10) (acc + (ord c - 48) * place)
      else (acc, s)
  | EmptyString => (acc, s)
  end.

Definition parseRFC3339 (s : string) : option time_Time :=
  '(y, s) ← digits 4 0 s; s ← expect "-" s;
  '(mo, s) ← digits 2 0 s; s ← expect "-" s;
  '(d, s) ← digits 2 0 s; s ← expect "T" s;
  '(h, s) ← digits 2 0 s; s ← expect ":" s;
  '(mi, s) ← digits 2 0 s; s ← expect ":" s;
  '(sec, s) ← digits 2 0 s;
  '(ns, s) ←
    match s with
    | String "."%char (String c r) =>
        if isDigit c then Some (fraction (String c r) 100000000 0) else None
    | _ => Some (0, s)
    end;
  off ←
    match s with
    | String "Z"%char EmptyString => Some 0
    | String sg r =>
        if Ascii.eqb sg "+"%char || Ascii.eqb sg "-"%char then
          '(oh, r) ← digits 2 0 r; r ← expect ":" r;
          '(om, r) ← digits 2 0 r;
          if String.eqb r EmptyString && (oh <? 24)%Z && (om <? 60)%Z
          then Some ((if Ascii.eqb sg "-"%char then -1 else 1) * (oh * 60 + om))
          else None
        else None
    | EmptyString => None
    end;
  if ((1 <=? mo) && (mo <=? 12) && (1 <=? d) && (d <=? daysIn y mo)
      && (h <? 24) && (mi <? 60) && (sec <? 60))%Z
  then Some (mkTime y mo d h mi sec ns off)
  else None.

(** [n] as [width] decimal digits. *)
Fixpoint pad (width : nat) (n : Z) : string :=
  match width with
  | O => EmptyString
  | S w => pad w (n / 10) ++ String (chr (48 + n mod 10)) EmptyString
  end.

(** The fraction of a second without its trailing zeros. *)
Fixpoint trimFraction (fuel : nat) (width : nat) (n : Z) : string :=
  match fuel with
  | O => EmptyString
  | S fuel' =>
      if (n =? 0)%Z then EmptyString
      else if (n mod 10 =? 0)%Z then trimFraction fuel' (Nat.pred width) (n / 10)
      else "." ++ pad width n
  end.

Definition formatRFC3339 (t : time_Time) : option string :=
  if ((year t <? 0) || (9999 <? year t))%Z then None
  else
    let off := zoneOffset t in
    Some (pad 4 (year t) ++ "-" ++ pad 2 (month t) ++ "-" ++ pad 2 (day t)
          ++ "T" ++ pad 2 (hour t) ++ ":" ++ pad 2 (minute t) ++ ":"
          ++ pad 2 (second t) ++ trimFraction 9 9 (nanosecond t)
          ++ (if (off =? 0)%Z then "Z"
              else (if (off <? 0)%Z then "-" else "+")
                   ++ pad 2 (Z.abs off / 60) ++ ":" ++ pad 2 (Z.abs off mod 60))).

Definition byteOf (n : Z) : byte :=
  match Byte.of_N (Z.to_N (n mod 256)) with
  | Some b => b
  | None => x00
  end.

Definition valOf (b : byte) : Z := Z.of_N (Byte.to_N b).

(** *** encoding/base64: StdEncoding.DecodeString *)

Definition sextet (c : ascii) : option Z :=
  let n := ord c in
  if ((65 <=? n) && (n <=? 90))%Z then Some (n - 65)
  else if ((97 <=? n) && (n <=? 122))%Z then Some (n - 71)
  else if ((48 <=? n) && (n <=? 57))%Z then Some (n + 4)
  else if (n =? 43)%Z then Some 62
  else if (n =? 47)%Z then Some 63
  else None.

(** Carriage returns and line feeds are skipped. *)
Fixpoint dropNewlines (s : string) : list ascii :=
  match s with
  | EmptyString => []
  | String c r =>
      if ((ord c =? 10) || (ord c =? 13))%Z then dropNewlines r
      else c :: dropNewlines r
  end.

(** Quanta of four characters; padding only in the last one. *)
Fixpoint decodeQuanta (fuel : nat) (cs : list ascii) : option (list byte) :=
  match fuel with
  | O => None
  | S fuel' =>
      match cs with
      | [] => Some []
      | [a; b; c; d] =>
          a ← sextet a; b ← sextet b;
          if Ascii.eqb d "="%char then
            if Ascii.eqb c "="%char then Some [byteOf (a * 4 + b / 16)]
            else
              c ← sextet c;
              Some [byteOf (a * 4 + b / 16); byteOf (b * 16 + c / 4)]
          else
            c ← sextet c; d ← sextet d;
            Some [byteOf (a * 4 + b / 16); byteOf (b * 16 + c / 4);
                  byteOf (c * 64 + d)]
      | a :: b :: c :: d :: rest =>
          a ← sextet a; b ← sextet b; c ← sextet c; d ← sextet d;
          tail ← decodeQuanta fuel' rest;
          Some (byteOf (a * 4 + b / 16) :: byteOf (b * 16 + c / 4)
                  :: byteOf (c * 64 + d) :: tail)
      | _ => None
      end
  end.

Definition base64Decode (s : string) : option (list byte) :=
  let cs := dropNewlines s in decodeQuanta (S (List.length cs)) cs.

(** *** encoding/pem: the first block, without headers *)

Fixpoint lines (s : string) (cur : string) : list string :=
  match s with
  | EmptyString => [cur]
  | String c r =>
      if (ord c =? 10)%Z then cur :: lines r EmptyString
      else if (ord c =? 13)%Z then lines r cur
      else lines r (cur ++ String c EmptyString)
  end.

Definition stripPrefix (p s : string) : option string :=
  if String.prefix p s
  then Some (String.substring (String.length p) (String.length s - String.length p) s)
  else None.

Definition stripSuffix (p s : string) : option string :=
  let n := (String.length s - String.length p)%nat in
  if (String.length p <=? String.length s)%nat
     && String.eqb (String.substring n (String.length p) s) p
  then Some (String.substring 0 n s)
  else None.

(** The lines up to the END line of [label], joined, and whether the END
    line was found. *)
Fixpoint pemBody (label : string) (ls : list string) (acc : string)
    : option string :=
  match ls with
  | [] => None
  | l :: ls' =>
      if String.eqb l ("-----END " ++ label ++ "-----") then Some acc
      else pemBody label ls' (acc ++ l)
  end.

Fixpoint pemBlock (ls : list string) : option pem_Block :=
  match ls with
  | [] => None
  | l :: ls' =>
      match stripPrefix "-----BEGIN " l ≫= stripSuffix "-----" with
      | Some label =>
          match pemBody label ls' EmptyString ≫= base64Decode with
          | Some bytes => Some (mkBlock label bytes)
          | None => pemBlock ls'
          end
      | None => pemBlock ls'
      end
  end.

Definition pemDecode (s : string) : option pem_Block := pemBlock (lines s EmptyString).

(** *** DER and SubjectPublicKeyInfo *)

(** One TLV at the head of the input: tag, contents, rest. *)
Definition derTLV (bs : list byte) : option (Z * list byte * list byte) :=
  match bs with
  | t :: l :: r =>
      let l := valOf l in
      if (l <? 128)%Z then
        if (Z.of_nat (List.length r) <? l)%Z then None
        else Some (valOf t, take (Z.to_nat l) r, drop (Z.to_nat l) r)
      else
        let k := Z.to_nat (l - 128) in
        if (k =? 0)%nat || (4 <? k)%nat || (List.length r <? k)%nat then None
        else
          let len := foldl (fun acc b => acc * 256 + valOf b) 0 (take k r) in
          let r' := drop k r in
          if (Z.of_nat (List.length r') <? len)%Z then None
          else Some (valOf t, take (Z.to_nat len) r', drop (Z.to_nat len) r')
  | _ => None
  end.

(** The value of a DER INTEGER, which is not negative here. *)
Definition derUnsigned (bs : list byte) : Z :=
  foldl (fun acc b => acc * 256 + valOf b) 0 bs.

Definition oidRSA : list Z := [42; 134; 72; 134; 247; 13; 1; 1; 1].
Definition oidECPublicKey : list Z := [42; 134; 72; 206; 61; 2; 1].
Definition oidP256 : list Z := [42; 134; 72; 206; 61; 3; 1; 7].
Definition oidEd25519 : list Z := [43; 101; 112].

Definition sameBytes (bs : list byte) (zs : list Z) : bool :=
  bool_decide (List.map valOf bs = zs).

(** The curve P-256: y^2 = x^3 - 3x + b modulo p. *)
Definition p256_p : Z := 2 ^ 256 - 2 ^ 224 + 2 ^ 192 + 2 ^ 96 - 1.
Definition p256_b : Z :=
  0x5ac635d8aa3a93e7b3ebbd55769886bc651d06b0cc53b0f63bce3c3e27d2604b.

Definition onP256 (x y : Z) : bool :=
  ((0 <=? x) && (x <? p256_p) && (0 <=? y) && (y <? p256_p)
   && ((y * y) mod p256_p =? (x * x * x - 3 * x + p256_b) mod p256_p))%Z.

Definition parsePKIX (der : list byte) : option crypto_PublicKey :=
  '(t, spki, rest) ← derTLV der;
  if negb ((t =? 48)%Z && bool_decide (rest = [])) then None else
  '(t, alg, r1) ← derTLV spki;
  if negb (t =? 48)%Z then None else
  '(t, key, r2) ← derTLV r1;
  if negb ((t =? 3)%Z && bool_decide (r2 = [])) then None else
  '(t, oid, params) ← derTLV alg;
  if negb (t =? 6)%Z then None else
  match key with
  | pad :: bits =>
      if negb (valOf pad =? 0)%Z then None
      else if sameBytes oid oidRSA then
        '(t, body, r) ← derTLV bits;
        if negb ((t =? 48)%Z && bool_decide (r = [])) then None else
        '(t, n, r) ← derTLV body;
        if negb (t =? 2)%Z then None else
        '(t, e, r) ← derTLV r;
        if negb ((t =? 2)%Z && bool_decide (r = [])) then None else
        let n := derUnsigned n in
        let e := derUnsigned e in
        if ((0 <? n) && (0 <? e) && (e <? 2 ^ 31))%Z
        then Some (RSAKey (mkRSA n e)) else None
      else if sameBytes oid oidEd25519 then
        if bool_decide (params = []) && (List.length bits =? 32)%nat
        then Some (Ed25519Key bits) else None
      else if sameBytes oid oidECPublicKey then
        '(t, curve, r) ← derTLV params;
        if negb ((t =? 6)%Z && bool_decide (r = []) && sameBytes curve oidP256)
        then None else
        match bits with
        | form :: xy =>
            let x := derUnsigned (take 32 xy) in
            let y := derUnsigned (drop 32 xy) in
            if (valOf form =? 4)%Z && (List.length xy =? 64)%nat && onP256 x y
            then Some (ECDSAKey "P-256" x y) else None
        | [] => None
        end
      else None
  | [] => None
  end.

(** *** crypto/sha1 *)

Definition word (x : Z) : Z := x mod 2 ^ 32.

Definition rotl (n x : Z) : Z :=
  word (Z.lor (Z.shiftl x n) (Z.shiftr x (32 - n))).

(** [n] as [k] bytes, most significant first. *)
Fixpoint bigEndian (k : nat) (n : Z) : list Z :=
  match k with
  | O => []
  | S k' => bigEndian k' (n / 256) ++ [n mod 256]
  end.

(** The message, a one bit, zeros, and the bit length in eight bytes: a
    whole number of 64-byte blocks. *)
Definition sha1Pad (msg : list Z) : list Z :=
  let len := Z.of_nat (List.length msg) in
  let zeros := Z.to_nat ((55 - len) mod 64) in
  msg ++ [128] ++ List.repeat 0 zeros ++ bigEndian 8 (len * 8).

Fixpoint words (fuel : nat) (bs : list Z) : list Z :=
  match fuel with
  | O => []
  | S fuel' =>
      match bs with
      | a :: b :: c :: d :: r => (((a * 256 + b) * 256 + c) * 256 + d) :: words fuel' r
      | _ => []
      end
  end.

(** The message schedule, latest word first. *)
Fixpoint schedule (n : nat) (w : list Z) : list Z :=
  match n with
  | O => w
  | S n' =>
      let at_ i := nth i w 0 in
      schedule n' (rotl 1 (Z.lxor (Z.lxor (at_ 2%nat) (at_ 7%nat))
                                  (Z.lxor (at_ 13%nat) (at_ 15%nat))) :: w)
  end.

Definition sha1Round (st : Z * Z * Z * Z * Z * nat) (w : Z) : Z * Z * Z * Z * Z * nat :=
  let '(a, b, c, d, e, t) := st in
  let '(f, k) :=
    if (t <? 20)%nat then
      (Z.lor (Z.land b c) (Z.land (Z.lxor b (2 ^ 32 - 1)) d), 0x5A827999)
    else if (t <? 40)%nat then (Z.lxor (Z.lxor b c) d, 0x6ED9EBA1)
    else if (t <? 60)%nat then
      (Z.lor (Z.lor (Z.land b c) (Z.land b d)) (Z.land c d), 0x8F1BBCDC)
    else (Z.lxor (Z.lxor b c) d, 0xCA62C1D6) in
  (word (rotl 5 a + f + e + k + w), a, rotl 30 b, c, d, S t).

Definition sha1Block (h : Z * Z * Z * Z * Z) (block : list Z) : Z * Z * Z * Z * Z :=
  let '(h0, h1, h2, h3, h4) := h in
  let w := List.rev (schedule 64 (List.rev (words 16 block))) in
  let '(a, b, c, d, e, _) := foldl sha1Round (h0, h1, h2, h3, h4, O) w in
  (word (h0 + a), word (h1 + b), word (h2 + c), word (h3 + d), word (h4 + e)).

Fixpoint sha1Blocks (fuel : nat) (h : Z * Z * Z * Z * Z) (bs : list Z)
    : Z * Z * Z * Z * Z :=
  match fuel with
  | O => h
  | S fuel' =>
      match bs with
      | [] => h
      | _ => sha1Blocks fuel' (sha1Block h (take 64 bs)) (drop 64 bs)
      end
  end.

Definition sha1 (msg : list byte) : list byte :=
  let padded := sha1Pad (List.map valOf msg) in
  let '(h0, h1, h2, h3, h4) :=
    sha1Blocks (List.length padded)
      (0x67452301, 0xEFCDAB89, 0x98BADCFE, 0x10325476, 0xC3D2E1F0) padded in
  List.map byteOf
    (bigEndian 4 h0 ++ bigEndian 4 h1 ++ bigEndian 4 h2 ++ bigEndian 4 h3
     ++ bigEndian 4 h4).

(** *** crypto/rsa: VerifyPKCS1v15 with crypto.SHA1 *)

Fixpoint powmod (b : Z) (e : positive) (m : Z) : Z :=
  match e with
  | xH => b mod m
  | xO e' => let r := powmod b e' m in (r * r) mod m
  | xI e' => let r := powmod b e' m in (r * r * b) mod m
  end.

(** The length of [n] in bytes. *)
Definition byteLen (n : Z) : nat := Z.to_nat ((Z.log2 n + 8) / 8).

(** The DER prefix of a SHA-1 DigestInfo. *)
Definition sha1Prefix : list Z :=
  [48; 33; 48; 9; 6; 5; 43; 14; 3; 2; 26; 5; 0; 4; 20].

Definition verifyPKCS1v15 (key : rsa_PublicKey) (hashed sig : list byte) : bool :=
  let k := byteLen (N key) in
  let t := (sha1Prefix ++ List.map valOf hashed)%list in
  if negb (List.length hashed =? 20)%nat then false
  else if (k <? List.length t + 11)%nat then false
  else if negb (List.length sig =? k)%nat then false
  else
    let s := foldl (fun acc b => acc * 256 + valOf b) 0 sig in
    if (N key <=? s)%Z then false
    else
      match E key with
      | Zpos e =>
          let em := bigEndian k (powmod s e (N key)) in
          bool_decide (em = ([0; 1] ++ List.repeat 255 (k - List.length t - 3)
                               ++ [0] ++ t)%list)
      | _ => false
      end.

(** The runtime whose network answers as [endpoint] says. *)
Definition runtime (endpoint : nat -> string -> option string) : Runtime :=
  {| json_scan := scan;
     strings_EqualFold := equalFold;
     time_UnmarshalJSON := parseRFC3339;
     time_MarshalJSON := formatRFC3339;
     strconv_Quote := quote;
     base64_DecodeString := base64Decode;
     pem_Decode := pemDecode;
     x509_ParsePKIXPublicKey := parsePKIX;
     sha1_Sum := sha1;
     rsa_VerifyPKCS1v15_SHA1 := verifyPKCS1v15;
     http_Get := endpoint |}.

End Std.

(** ** Example inputs *)

Module Example.

(** A 1024-bit RSA public key, as the provider publishes its key. *)
Definition rsaPEM : string :=
"-----BEGIN PUBLIC KEY-----
MIGfMA0GCSqGSIb3DQEBAQUAA4GNADCBiQKBgQC1ymTnctc7DxqlnbLzM6d6SJOV
CxXUt10Ug5ySCf6DvG8n2P0UiCEYGhDKqh/8EGX5SUJUIOJQLRnzXBPdy3VU1BwR
at0UwOrfD8JTn2A2Tqo8pmL6OhtUn6NN+fM8xtkWY2j4lUnmHYfxtg3xaBVp4ZbX
yotx8YPtXUokMu3VEQIDAQAB
-----END PUBLIC KEY-----
".

Definition rsaKey : rsa_PublicKey :=
  {| N := 127657702152834850198957874994058392212686769623394655537415540501756293772561310877913529744617079183212580479468397878552145131085669707089962328121404917428163197188716733517006801549695053951062201672143827144119938903558127250867019343597998766604766615186870462252490421750250188461738496067294385263889;
     E := 65537 |}.

(** An Ed25519 public key in the same framing (the key of RFC 8410). *)
Definition ed25519PEM : string :=
"-----BEGIN PUBLIC KEY-----
MCowBQYDK2VwAyEAGb9ECWmEzf6FQbrBZ9w7lshQhqowtrbLDFw4rXAxZuE=
-----END PUBLIC KEY-----
".

(** The configuration document of the provider, with the RSA key and with
    the Ed25519 key. *)
Definition configBody : string := Std.dq
"{'config':{'host':'travis-ci.org','shorten_host':'trvs.io','assets':{'host':'travis-ci.org'},'pusher':{'key':'5df8ac576dcccf4fd076'},'github':{'api_url':'https://api.github.com','scopes':['read:org','user:email','repo_deployment','repo:status','write:repo_hook']},'notifications':{'webhook':{'public_key':'-----BEGIN PUBLIC KEY-----\nMIGfMA0GCSqGSIb3DQEBAQUAA4GNADCBiQKBgQC1ymTnctc7DxqlnbLzM6d6SJOV\nCxXUt10Ug5ySCf6DvG8n2P0UiCEYGhDKqh/8EGX5SUJUIOJQLRnzXBPdy3VU1BwR\nat0UwOrfD8JTn2A2Tqo8pmL6OhtUn6NN+fM8xtkWY2j4lUnmHYfxtg3xaBVp4ZbX\nyotx8YPtXUokMu3VEQIDAQAB\n-----END PUBLIC KEY-----\n'}}}}".

Definition ed25519ConfigBody : string := Std.dq
"{'config':{'host':'travis-ci.org','shorten_host':'trvs.io','assets':{'host':'travis-ci.org'},'pusher':{'key':'5df8ac576dcccf4fd076'},'github':{'api_url':'https://api.github.com','scopes':['read:org','user:email','repo_deployment','repo:status','write:repo_hook']},'notifications':{'webhook':{'public_key':'-----BEGIN PUBLIC KEY-----\nMCowBQYDK2VwAyEAGb9ECWmEzf6FQbrBZ9w7lshQhqowtrbLDFw4rXAxZuE=\n-----END PUBLIC KEY-----\n'}}}}".

(** The endpoint answers every request with [body]; no endpoint answers;
    the endpoint is out of reach for the first request only. *)
Definition online (body : string) : nat -> string -> option string :=
  fun _ url => if String.eqb url configURL then Some body else None.

Definition offline : nat -> string -> option string := fun _ _ => None.


(** A notification, and its signature under the RSA key above (PKCS #1
    v1.5 with SHA-1), in base64. *)
Definition payloadText : string := Std.dq
"{'id':1,'number':'42','type':'push','state':'passed','status':0,'result':0,'status_message':'Passed','result_message':'Passed','started_at':'2019-11-17T10:15:30Z','finished_at':'2019-11-17T10:17:02Z','duration':92,'branch':'master','commit':'62aae5f70ceee39123ef','repository':{'id':7,'name':'travis','owner_name':'jacksgt','url':'https://github.com/jacksgt/travis'},'config':{'sudo':false,'dist':'trusty','language':'go'}}".

Definition signature : string :=
"HltgMwk61UBKG6c96Ljb7kOPWAM8t9NezsIZKWxtt8ts3PyCPEKc3pWKu5rES0ES4ViN4S2l76IY4Ultv5ZnatVL4iteDqT0QE4Y60JzisLtSkrllh4Qsp7qbLwm3vtsfn4mbH1T/wgBnqxm9LmzVr30Ai9DYjtUhUAnvhlNtgk=".

Definition formType : string := "application/x-www-form-urlencoded".

Definition signedRequest : http_Request :=
  {| Method := "POST";
     Header := {[ "Content-Type" := [formType]; "Signature" := [signature] ]};
     Form := {[ "payload" := [payloadText] ]} |}.

(** The same request with one byte of the payload changed. *)
Definition tamperedRequest : http_Request :=
  {| Method := "POST";
     Header := {[ "Content-Type" := [formType]; "Signature" := [signature] ]};
     Form := {[ "payload" := [Std.dq "{'id':2" ++ String.substring 7 416 payloadText] ]} |}.

(** The same request sent with GET, sent as JSON, and sent unsigned. *)
Definition getRequest : http_Request :=
  {| Method := "GET"; Header := Header signedRequest; Form := Form signedRequest |}.

Definition jsonRequest : http_Request :=
  {| Method := "POST";
     Header := {[ "Content-Type" := ["application/json"]; "Signature" := [signature] ]};
     Form := Form signedRequest |}.

Definition unsignedRequest : http_Request :=
  {| Method := "POST";
     Header := {[ "Content-Type" := [formType] ]};
     Form := Form signedRequest |}.

(** A process that has fetched nothing yet. *)
Definition fresh : World := {| travisPubKey := None; sent := [] |}.

(** The standard runtime in front of each of these endpoints. *)
Definition served : Runtime := Std.runtime (online configBody).

Definition servedEd25519 : Runtime := Std.runtime (online ed25519ConfigBody).

Definition unreachable : Runtime := Std.runtime offline.


(** What the standard runtime makes of the inputs: the block and the key
    of the Ed25519 PEM, the decoded configuration, the decoded
    notification, and the bytes of the signature. *)
Definition ed25519Block : pem_Block :=
  Eval vm_compute in default (mkBlock EmptyString []) (Std.pemDecode ed25519PEM).

Definition ed25519Key : crypto_PublicKey :=
  Eval vm_compute in
    default (Ed25519Key []) (Std.parsePKIX (pem_Bytes ed25519Block)).

Definition configValue : GoValue :=
  Eval vm_compute in
    default (VBool false)
      (@json_Decoder_Decode served configBody configKey_type
         (zeroValue configKey_type)).

Definition payload : Payload :=
  Eval vm_compute in
    match @GetPayload served (Some payloadText) with
    | Ok p => p
    | _ => Payload_zero
    end.

Definition signatureBytes : list byte :=
  Eval vm_compute in default [] (Std.base64Decode signature).

(** An endpoint whose configuration document is the empty object. *)
Definition servedNoKey : Runtime := Std.runtime (online "{}").

(** The signed request without its payload field; and the signed request
    with a second signature, another header, a second payload and another
    form field. *)
Definition bareRequest : http_Request :=
  {| Method := "POST";
     Header := {[ "Content-Type" := [formType]; "Signature" := [signature] ]};
     Form := ∅ |}.

Definition paddedRequest : http_Request :=
  {| Method := "POST";
     Header := {[ "Content-Type" := [formType];
                  "Signature" := [signature; "AAAA"];
                  "X-Forwarded-For" := ["203.0.113.7"] ]};
     Form := {[ "payload" := [payloadText; "{}"]; "token" := ["x"] ]} |}.

(** A process that has fetched the key. *)
Definition warm : World := {| travisPubKey := Some rsaKey; sent := [configURL] |}.

End Example.

(** * Properties *)

(** ** The codec *)

Section CodecFacts.
Context `{RT : Runtime}.

(** Induction on a type, with the hypothesis for every field of a struct. *)
Lemma GoType_nested_ind (P : GoType -> Prop) :
  P TBool -> (forall b, P (TInt b)) -> P TString -> P TTime ->
  (forall E, P E -> P (TPtr E)) -> (forall E, P E -> P (TSlice E)) ->
  (forall fs, Forall (fun f => P (fieldType f)) fs -> P (TStruct fs)) ->
  forall T, P T.
Proof.
  intros HB HI HS HT HP HSl HSt.
  fix IH 1. intros [| b | | | E | E | fs].
  - exact HB.
  - apply HI.
  - exact HS.
  - exact HT.
  - apply HP, IH.
  - apply HSl, IH.
  - apply HSt. induction fs as [| f fs IHfs]; constructor.
    + apply IH.
    + exact IHfs.
Qed.





Lemma ParseInt_fits s bitSize n :
  strconv_ParseInt s bitSize = Some n -> fitsInt bitSize n.
Proof.
  unfold strconv_ParseInt. destruct (parseSigned s) as [m |]; cbn [mbind option_bind]; [| discriminate].
  destruct (Z.leb _ _ && Z.ltb _ _) eqn:Hr; [| discriminate].
  intros [= ->]. apply andb_prop in Hr as [Hlo Hhi].
  split; [now apply Z.leb_le | now apply Z.ltb_lt].
Qed.









(** *** What the decoder stores is well formed *)

Lemma fitsInt_zero k : fitsInt (bitsOf k) 0.
Proof. destruct k; (split; [apply Z.leb_le | apply Z.ltb_lt]; reflexivity). Qed.

Lemma sound_zero okTime T : okTime time_zero -> sound okTime T (zeroValue T).
Proof.
  intros Hz. induction T as [| b | | | E IH | E IH | fs IH] using GoType_nested_ind;
    simpl; try exact I; try exact Hz.
  - apply fitsInt_zero.
  - induction IH as [| f fs Hf _ IHfs]; simpl; [exact I | split; assumption].
Qed.

Lemma storeField_sound (P : GoType -> GoValue -> Prop) dec fs :
  Forall (fun f => forall j cur v, P (fieldType f) cur ->
            dec (fieldType f) j cur = Some v -> P (fieldType f) v) fs ->
  forall xs i j xs',
    allFields P fs xs -> storeField dec fs xs i j = Some xs' -> allFields P fs xs'.
Proof.
  induction 1 as [| f fs Hf _ IH]; intros [| x xs] i j xs' Hs Hst;
    simpl in *; try discriminate; try contradiction.
  destruct Hs as [Hx Hs]. destruct i as [| i].
  - destruct (dec (fieldType f) j x) as [x' |] eqn:Hd; simpl in Hst; [| discriminate].
    injection Hst as <-. simpl. split; [exact (Hf j x x' Hx Hd) | exact Hs].
  - destruct (storeField dec fs xs i j) as [xs'' |] eqn:Hr; simpl in Hst; [| discriminate].
    injection Hst as <-. simpl. split; [exact Hx | exact (IH xs i j xs'' Hs Hr)].
Qed.

Lemma foldl_storeMember_None dec fs ms :
  foldl (storeMember dec fs) None ms = None.
Proof. induction ms as [| m ms IH]; simpl; [reflexivity | exact IH]. Qed.

Lemma storeMembers_sound (P : GoType -> GoValue -> Prop) dec fs :
  Forall (fun f => forall j cur v, P (fieldType f) cur ->
            dec (fieldType f) j cur = Some v -> P (fieldType f) v) fs ->
  forall ms xs xs',
    allFields P fs xs ->
    foldl (storeMember dec fs) (Some xs) ms = Some xs' -> allFields P fs xs'.
Proof.
  intros Hfs. induction ms as [| m ms IH]; intros xs xs' Hs Hf; simpl in Hf.
  - now injection Hf as <-.
  - destruct (findField fs (fst m)) as [i |].
    + destruct (storeField dec fs xs i (snd m)) as [xs1 |] eqn:Hst.
      * exact (IH xs1 xs' (storeField_sound P dec fs Hfs xs i (snd m) xs1 Hs Hst) Hf).
      * now rewrite foldl_storeMember_None in Hf.
    + exact (IH xs xs' Hs Hf).
Qed.

(** The decoder keeps a variable well formed: what it stores has the type
    of the variable, and an integer it stores fits the size of its kind. *)
Lemma decode_sound T :
  forall j cur v,
    sound (fun _ => True) T cur -> json_decode T j cur = Some v ->
    sound (fun _ => True) T v.
Proof.
  induction T as [| b | | | E IH | E IH | fs IH] using GoType_nested_ind;
    intros j cur v Hcur Hdec.
  - destruct j; simpl in Hdec; try discriminate; injection Hdec as <-; [exact Hcur | exact I].
  - destruct j; simpl in Hdec; try discriminate.
    + now injection Hdec as <-.
    + destruct (strconv_ParseInt lit (bitsOf b)) as [n |] eqn:Hp; simpl in Hdec; [| discriminate].
      injection Hdec as <-. exact (ParseInt_fits _ _ _ Hp).
  - destruct j; simpl in Hdec; try discriminate; injection Hdec as <-; [exact Hcur | exact I].
  - destruct j; simpl in Hdec; try discriminate.
    + now injection Hdec as <-.
    + destruct (time_UnmarshalJSON s); simpl in Hdec; [| discriminate].
      now injection Hdec as <-.
  - assert (Htarget : sound (fun _ => True) E
                        match cur with VPtr (Some x) => x | _ => zeroValue E end).
    { destruct cur as [| | | | [x |] | |]; simpl in Hcur; try contradiction;
        first [exact Hcur | now apply sound_zero]. }
    destruct j; simpl in Hdec;
      try (injection Hdec as <-; exact I);
      match type of Hdec with
      | _ <$> json_decode E ?j ?t = Some _ =>
          destruct (json_decode E j t) as [x |] eqn:Hx; simpl in Hdec; [| discriminate];
          injection Hdec as <-; exact (IH j _ x Htarget Hx)
      end.
  - destruct j; simpl in Hdec; try discriminate.
    + injection Hdec as <-. exact I.
    + destruct (mapM _ items) as [xs |] eqn:Hm; simpl in Hdec; [| discriminate].
      injection Hdec as <-. simpl.
      apply mapM_Some in Hm. induction Hm as [| item x items xs Hx _ IHm]; constructor.
      * exact (IH item _ x (sound_zero _ E I) Hx).
      * exact IHm.
  - destruct j; simpl in Hdec; try discriminate.
    + now injection Hdec as <-.
    + destruct cur as [| | | | | | xs]; try discriminate. simpl in Hcur.
      destruct (foldl _ _ members) as [xs' |] eqn:Hf; simpl in Hdec; [| discriminate].
      injection Hdec as <-. simpl.
      refine (storeMembers_sound _ _ fs _ members xs xs' Hcur Hf).
      rewrite List.Forall_forall in IH |- *. intros f Hin j cur v. apply (IH f Hin).
Qed.


(** *** Payloads and their reflected values *)

Lemma Config_of_reflect c : Config_of_value (reflect_Config c) = Some c.
Proof. now destruct c. Qed.

Lemma Repository_of_reflect r : Repository_of_value (reflect_Repository r) = Some r.
Proof. now destruct r. Qed.

Lemma Payload_of_reflect p : Payload_of_value (reflect_Payload p) = Some p.
Proof.
  destruct p as [? ? c ? ? ? ? ? ? ? ? ? ? ? ? ? ? ? ? ? ? ? ? ? ? ? ? ? ? r].
  destruct c as [[? ? ?] |], r as [[? ? ? ?] |]; reflexivity.
Qed.

Ltac invert_sound :=
  repeat match goal with
         | H : False |- _ => contradiction
         | H : True |- _ => clear H
         | H : _ /\ _ |- _ => destruct H
         | H : fitsInt _ _ |- _ => revert H
         | H : match ?x with _ => _ end |- _ => is_var x; destruct x
         end.

Lemma reflect_of_Config v c :
  sound (fun _ => True) Config_type v -> Config_of_value v = Some c ->
  v = reflect_Config c.
Proof.
  intros Hs Hv. simpl in Hs. invert_sound. simpl in Hv. now injection Hv as <-.
Qed.

Lemma reflect_of_Repository v r :
  sound (fun _ => True) Repository_type v -> Repository_of_value v = Some r ->
  v = reflect_Repository r.
Proof.
  intros Hs Hv. simpl in Hs. invert_sound. intros _. simpl in Hv. now injection Hv as <-.
Qed.

Lemma reflect_of_Payload v p :
  sound (fun _ => True) Payload_type v -> Payload_of_value v = Some p ->
  v = reflect_Payload p.
Proof.
  intros Hs Hv. simpl in Hs. invert_sound; intros; simpl in Hv; now injection Hv as <-.
Qed.


Lemma reflect_zero : reflect_Payload Payload_zero = zeroValue Payload_type.
Proof. reflexivity. Qed.

Lemma Payload_names_NoDup : NoDup (List.map jsonName Payload_fields).
Proof. apply (bool_decide_unpack _). vm_compute. exact I. Qed.



(** A payload [GetPayload] returns is what the decoder stored in a zero
    [Payload]. *)
Lemma GetPayload_decoded stream p :
  GetPayload (Some stream) = Ok p ->
  exists j rest,
    json_scan stream = Some (j, rest)
    /\ json_decode Payload_type j (zeroValue Payload_type) = Some (reflect_Payload p).
Proof.
  unfold GetPayload, json_Decoder_Decode. rewrite reflect_zero.
  destruct (json_scan stream) as [[j rest] |]; cbn [mbind option_bind]; [| discriminate].
  destruct (json_decode Payload_type j (zeroValue Payload_type)) as [v |] eqn:Hd;
    cbn [mbind option_bind]; [| discriminate].
  destruct (Payload_of_value v) as [q |] eqn:Hv; [| discriminate].
  intros [= ->]. exists j, rest. split; [reflexivity |]. rewrite Hd. f_equal.
  apply reflect_of_Payload; [| assumption].
  exact (decode_sound Payload_type j _ v (sound_zero _ _ I) Hd).
Qed.

Lemma GetPayload_sound stream p :
  GetPayload (Some stream) = Ok p ->
  sound (fun _ => True) Payload_type (reflect_Payload p).
Proof.
  intros H. destruct (GetPayload_decoded stream p H) as (j & rest & _ & Hd).
  exact (decode_sound Payload_type j _ _ (sound_zero _ _ I) Hd).
Qed.


Lemma allFields_named P fs xs name T x :
  allFields P fs xs -> fieldNamed fs xs name = Some (T, x) -> P T x.
Proof.
  revert xs. induction fs as [| f fs IH]; intros [| y xs] Hs Hn; simpl in *;
    try discriminate.
  destruct Hs as [Hy Hs]. destruct (String.eqb (jsonName f) name).
  - now injection Hn as <- <-.
  - exact (IH xs Hs Hn).
Qed.



(** The names written are names of fields, in the order of the fields. *)
Lemma encodeFields_names enc fs xs ms :
  encodeFields enc fs xs = Some ms ->
  sublist (List.map fst ms) (List.map jsonName fs).
Proof.
  revert xs ms. induction fs as [| f fs IH]; intros [| y xs] ms He;
    simpl in *; try discriminate.
  - injection He as <-. constructor.
  - destruct (omitEmpty f && isEmptyValue y).
    + apply sublist_cons, (IH xs ms He).
    + destruct (enc (fieldType f) y) as [jy |]; cbn [mbind option_bind] in He; [| discriminate].
      destruct (encodeFields enc fs xs) as [rest |] eqn:Hrest;
        cbn [mbind option_bind] in He; [| discriminate].
      injection He as <-. simpl. apply sublist_skip, (IH xs rest Hrest).
Qed.

Lemma json_encode_Payload p :
  json_encode Payload_type (reflect_Payload p)
  = JObject <$> encodeFields (fun T' => json_encode T') Payload_fields (Payload_values p).
Proof. reflexivity. Qed.

Lemma sound_Payload okTime p :
  sound okTime Payload_type (reflect_Payload p)
  = allFields (fun T' => sound okTime T') Payload_fields (Payload_values p).
Proof. reflexivity. Qed.


End CodecFacts.

(** ** The classification predicates *)

(** A state predicate holds exactly when one of the two message fields is
    its word, byte for byte. *)
Lemma statePredicates_spec word f p :
  In (word, f) statePredicates ->
  f p = true <-> StatusMessage p = word \/ ResultMessage p = word.
Proof.
  intros Hin. simpl in Hin.
  repeat (destruct Hin as [[= <- <-] | Hin];
          [apply (iff_trans (orb_true_iff _ _)); rewrite !String.eqb_eq; reflexivity |]).
  contradiction.
Qed.

(** An event predicate holds exactly when [Type] is its word. *)
Lemma eventPredicates_spec word f p :
  In (word, f) eventPredicates -> f p = true <-> Type_ p = word.
Proof.
  intros Hin. simpl in Hin.
  repeat (destruct Hin as [[= <- <-] | Hin]; [apply String.eqb_eq |]).
  contradiction.
Qed.


(** C6.  Each state predicate is true iff [StatusMessage] is its word or
    [ResultMessage] is; so when the two fields hold the words of two
    predicates, both predicates are true of the payload, as [Passed] and
    [Failed] are of [Payload{StatusMessage: "Passed", ResultMessage:
    "Failed"}]: the state predicates are not mutually exclusive. *)
Theorem state_predicates_not_exclusive :
  (forall p,
     (Pending p = true <-> StatusMessage p = "Pending" \/ ResultMessage p = "Pending")
     /\ (Passed p = true <-> StatusMessage p = "Passed" \/ ResultMessage p = "Passed")
     /\ (Fixed p = true <-> StatusMessage p = "Fixed" \/ ResultMessage p = "Fixed")
     /\ (Broken p = true <-> StatusMessage p = "Broken" \/ ResultMessage p = "Broken")
     /\ (Failed p = true <-> StatusMessage p = "Failed" \/ ResultMessage p = "Failed")
     /\ (StillFailing p = true <->
           StatusMessage p = "Still Failing" \/ ResultMessage p = "Still Failing")
     /\ (Canceled p = true <-> StatusMessage p = "Canceled" \/ ResultMessage p = "Canceled")
     /\ (Errored p = true <-> StatusMessage p = "Errored" \/ ResultMessage p = "Errored"))
  /\ (forall w1 f1 w2 f2 p,
        In (w1, f1) statePredicates -> In (w2, f2) statePredicates ->
        StatusMessage p = w1 -> ResultMessage p = w2 ->
        f1 p = true /\ f2 p = true)
  /\ (let p := Payload_literal "Passed" "Failed" "" in
      Passed p = true /\ Failed p = true).
Proof.
  split; [| split].
  - intros p. repeat split;
      first [ apply (statePredicates_spec _ _ p); simpl; tauto
            | intros H; apply (statePredicates_spec _ _ p) in H; [exact H | simpl; tauto]
            | intros H; apply (statePredicates_spec _ _ p); [simpl; tauto | exact H] ].
  - intros w1 f1 w2 f2 p H1 H2 Hs Hr. split.
    + apply (statePredicates_spec w1 f1 p H1). now left.
    + apply (statePredicates_spec w2 f2 p H2). now right.
  - split; reflexivity.
Qed.

(** ** The package *)

Section PackageFacts.
Context `{RT : Runtime}.

(** *** GetPayload *)

(** A well-formed value of [Payload_type] is the value of a payload. *)
Lemma Payload_of_sound v :
  sound (fun _ => True) Payload_type v -> exists p, Payload_of_value v = Some p.
Proof.
  intros Hs. simpl in Hs.
  repeat match goal with
         | H : False |- _ => contradiction
         | H : True |- _ => clear H
         | H : _ /\ _ |- _ => destruct H
         | H : fitsInt _ _ |- _ => clear H
         | H : match ?x with _ => _ end |- _ => is_var x; destruct x
         end; eexists; reflexivity.
Qed.

(** [GetPayload] returns a payload exactly when the stream begins with a
    JSON value that the decoder can store in a [Payload]. *)
Lemma GetPayload_Ok_iff stream p :
  GetPayload (Some stream) = Ok p <->
  exists j rest,
    json_scan stream = Some (j, rest)
    /\ json_decode Payload_type j (zeroValue Payload_type) = Some (reflect_Payload p).
Proof.
  split; [apply GetPayload_decoded |].
  intros (j & rest & Hscan & Hd).
  unfold GetPayload, json_Decoder_Decode. rewrite reflect_zero, Hscan.
  cbn [mbind option_bind]. rewrite Hd. cbn [mbind option_bind].
  now rewrite Payload_of_reflect.
Qed.



(** *** parsePublicKey *)

Lemma parsePublicKey_cases key :
  match pem_Decode key with
  | None => parsePublicKey key = Err "invalid public key"
  | Some block =>
      if String.eqb (pem_Type block) "PUBLIC KEY" then
        match x509_ParsePKIXPublicKey (pem_Bytes block) with
        | None => parsePublicKey key = Err "invalid public key"
        | Some (RSAKey k) => parsePublicKey key = Ok k
        | Some _ => is_Panic (parsePublicKey key) = true
        end
      else parsePublicKey key = Err "invalid public key"
  end.
Proof.
  unfold parsePublicKey. destruct (pem_Decode key) as [block |]; [| reflexivity].
  destruct (String.eqb (pem_Type block) "PUBLIC KEY"); [| reflexivity]. simpl.
  destruct (x509_ParsePKIXPublicKey (pem_Bytes block)) as [[] |]; reflexivity.
Qed.

(** C1, as the code has it.  On a block labelled PUBLIC KEY whose bytes
    parse as a PKIX key that is not an RSA key, [parsePublicKey] does not
    return the error "invalid public key": the unchecked type assertion
    panics, with the message of the Go runtime. *)
Theorem parsePublicKey_non_RSA_panics key block publicKey :
  pem_Decode key = Some block ->
  pem_Type block = "PUBLIC KEY" ->
  x509_ParsePKIXPublicKey (pem_Bytes block) = Some publicKey ->
  (forall k, publicKey <> RSAKey k) ->
  parsePublicKey key
  = Panic ("interface conversion: interface {} is " ++ dynamicType publicKey
           ++ ", not *rsa.PublicKey")
  /\ parsePublicKey key <> Err "invalid public key".
Proof.
  intros Hpem Htype Hparse Hrsa. unfold parsePublicKey.
  rewrite Hpem, Htype, Hparse. simpl.
  destruct publicKey; try (split; [reflexivity | discriminate]).
  now destruct (Hrsa k).
Qed.

(** *** parsePayloadSignature *)

Lemma Header_Get_absent (h : http_Header) key :
  h !! key = None -> Header_Get h key = "".
Proof. intros H. unfold Header_Get. now rewrite H. Qed.

(** C8, amended.  Signature extraction fails with the error "missing
    Signature header" when the request has no Signature header or an
    empty one; when the header is present but is not standard base64 text
    it fails with "cannot decode signature"; otherwise it returns exactly
    the bytes the base64 decoder returns, with no further validation. *)
Theorem parsePayloadSignature_outcomes r :
  let signature := Header_Get (Header r) "Signature" in
  (Header r !! "Signature" = None ->
     parsePayloadSignature r = Err "missing Signature header")
  /\ (signature = "" -> parsePayloadSignature r = Err "missing Signature header")
  /\ (signature <> "" -> base64_DecodeString signature = None ->
        parsePayloadSignature r = Err "cannot decode signature")
  /\ (forall bytes,
        signature <> "" -> base64_DecodeString signature = Some bytes ->
        parsePayloadSignature r = Ok bytes).
Proof.
  cbv zeta. unfold parsePayloadSignature.
  split; [| split; [| split]].
  - intros H. now rewrite (Header_Get_absent _ _ H).
  - intros ->. reflexivity.
  - intros Hne Hd. apply String.eqb_neq in Hne. now rewrite Hne, Hd.
  - intros bytes Hne Hd. apply String.eqb_neq in Hne. now rewrite Hne, Hd.
Qed.

(** *** GetPayloadFromRequest *)

(** C7.  A request whose method is not POST is rejected with an error
    that quotes the method it has; a POST whose Content-Type header is not
    exactly application/x-www-form-urlencoded is rejected with an error
    that gives the value the header has.  In both cases the state of the
    process is returned as it was: no request for the key has been sent,
    and the error depends on no key, signature, digest or verification of
    the runtime. *)
Theorem GetPayloadFromRequest_rejects_early r w :
  (Method r <> "POST" ->
     GetPayloadFromRequest (Some r) w
     = (Err ("wrong request method " ++ strconv_Quote (Method r)
             ++ " instead of POST"), w))
  /\ (Method r = "POST" ->
      Header_Get (Header r) "Content-Type" <> "application/x-www-form-urlencoded" ->
      GetPayloadFromRequest (Some r) w
      = (Err ("wrong Content-Type header, got "
              ++ Header_Get (Header r) "Content-Type"
              ++ " != want application/x-www-form-urlencoded"), w)).
Proof.
  unfold GetPayloadFromRequest. split.
  - intros Hm. apply String.eqb_neq in Hm. now rewrite Hm.
  - intros Hm Hct. apply String.eqb_neq in Hct. rewrite Hm, Hct. reflexivity.
Qed.

(** C9.  When the request passes the checks of its shape, the key is
    resolved and the signature is extracted, and the RSA PKCS #1 v1.5
    verification with SHA-1 of the signature against the digest of the
    payload field fails, whatever the reason, [GetPayloadFromRequest]
    returns the error "unauthorized payload" and no payload. *)
Theorem GetPayloadFromRequest_unauthorized r w key w' signature :
  Method r = "POST" ->
  Header_Get (Header r) "Content-Type" = "application/x-www-form-urlencoded" ->
  travisPublicKey w = (Ok key, w') ->
  parsePayloadSignature r = Ok signature ->
  rsa_VerifyPKCS1v15_SHA1 key (payloadDigest (FormValue r "payload")) signature
  = false ->
  GetPayloadFromRequest (Some r) w = (Err "unauthorized payload", w').
Proof.
  intros Hm Hct Hkey Hsig Hver. unfold GetPayloadFromRequest.
  rewrite Hm, Hct, Hkey, Hsig, Hver. reflexivity.
Qed.

End PackageFacts.

(** ** The key cache *)

Section CacheFacts.
Context `{RT : Runtime}.

Lemma travisPublicKey_cached w key :
  travisPubKey w = Some key -> travisPublicKey w = (Ok key, w).
Proof. intros H. unfold travisPublicKey. now rewrite H. Qed.


(** A call that finds the cache empty sends one request, and stores a key
    exactly when it returns one. *)
Lemma travisPublicKey_miss w res w' :
  travisPubKey w = None -> travisPublicKey w = (res, w') ->
  sent w' = (sent w ++ [configURL])%list
  /\ match res with
     | Ok key => travisPubKey w' = Some key
     | _ => travisPubKey w' = None
     end.
Proof.
  intros Hnone. unfold travisPublicKey. rewrite Hnone.
  destruct (http_Get _ _) as [body |]; [| intros [= <- <-]; now split].
  destruct (json_Decoder_Decode body _ _) as [t |]; [| intros [= <- <-]; now split].
  destruct (parsePublicKey (PublicKeyOf t)); intros [= <- <-]; now split.
Qed.


End CacheFacts.

(** ** Concurrent calls *)

(** Rewrites the innermost step with the equation of its stage. *)
Ltac next_step lem :=
  match goal with
  | |- context [step ?g (mkMachine ?w ?k ?l)] =>
      rewrite (lem g (mkMachine w k l)) by reflexivity;
      cbn [shared stores calls travisPubKey sent]
  end.

Section GoroutineFacts.
Context `{RT : Runtime}.

(** One goroutine moves from [old] to [new]: the count of a set of stages
    changes by what the move adds and removes. *)
Lemma countIf_insert f (l : list Stage) g old new :
  l !! g = Some old ->
  (countIf f (<[g := new]> l) + (if f old then 1 else 0)
   = countIf f l + (if f new then 1 else 0))%nat.
Proof.
  unfold countIf. revert g. induction l as [| s l IH]; intros [| g] H; simpl in *;
    try discriminate.
  - injection H as ->. destruct (f old), (f new); simpl; lia.
  - specialize (IH g H). destruct (f s); simpl; lia.
Qed.

Lemma countIf_le f (l : list Stage) : (countIf f l <= List.length l)%nat.
Proof. unfold countIf. apply List.filter_length_le. Qed.

Lemma countIf_replicate_false f s n : f s = false -> countIf f (replicate n s) = O.
Proof.
  intros H. unfold countIf. induction n as [| n IH]; simpl; [reflexivity |].
  now rewrite H.
Qed.

(** The steps, one equation for each stage. *)
Lemma step_check g m :
  calls m !! g = Some AtCheck ->
  step g m
  = mkMachine (shared m) (stores m)
      (<[g := match travisPubKey (shared m) with
              | Some _ => AtReturnCached
              | None => AtGet
              end]> (calls m)).
Proof. intros H. unfold step. now rewrite H. Qed.

Lemma step_get g m :
  calls m !! g = Some AtGet ->
  step g m
  = mkMachine
      {| travisPubKey := travisPubKey (shared m);
         sent := sent (shared m) ++ [configURL] |}
      (stores m)
      (<[g := afterGet (List.length (sent (shared m)))]> (calls m)).
Proof. intros H. unfold step. now rewrite H. Qed.

Lemma step_store g m k :
  calls m !! g = Some (AtStore k) ->
  step g m
  = mkMachine {| travisPubKey := Some k; sent := sent (shared m) |}
      (S (stores m)) (<[g := AtReturnStored]> (calls m)).
Proof. intros H. unfold step. now rewrite H. Qed.

Lemma step_return_cached g m :
  calls m !! g = Some AtReturnCached ->
  step g m
  = mkMachine (shared m) (stores m)
      (<[g := Returned (Ok (travisPubKey (shared m)))]> (calls m)).
Proof. intros H. unfold step. now rewrite H. Qed.

Lemma step_return_stored g m :
  calls m !! g = Some AtReturnStored ->
  step g m
  = mkMachine (shared m) (stores m)
      (<[g := Returned (Ok (travisPubKey (shared m)))]> (calls m)).
Proof. intros H. unfold step. now rewrite H. Qed.

Lemma step_returned g m res :
  calls m !! g = Some (Returned res) -> step g m = m.
Proof. intros H. unfold step. now rewrite H. Qed.

(** *** Fair schedules finish *)

Lemma step_rank_self g m : (Nat.min 4 (S (rankOf m g)) <= rankOf (step g m) g)%nat.
Proof.
  unfold rankOf, step. destruct (calls m !! g) as [stage |] eqn:Hg; [| rewrite Hg; simpl; lia].
  assert (Hlt : (g < List.length (calls m))%nat) by (eapply lookup_lt_Some; eassumption).
  destruct stage; simpl; rewrite ?list_lookup_insert_eq by assumption; simpl;
    try lia.
  - destruct (travisPubKey (shared m)); simpl; lia.
  - unfold afterGet. destruct (http_Get _ _); [| simpl; lia].
    destruct (json_Decoder_Decode _ _ _); [| simpl; lia].
    destruct (parsePublicKey _); simpl; lia.
  - rewrite Hg. simpl. lia.
Qed.

Lemma step_rank_other g g' m : g <> g' -> rankOf (step g m) g' = rankOf m g'.
Proof.
  intros Hne. unfold rankOf, step. destruct (calls m !! g) as [stage |] eqn:Hg; [| reflexivity].
  destruct stage; simpl; rewrite ?list_lookup_insert_ne by assumption; reflexivity.
Qed.

Lemma step_rank_mono g g' m : (rankOf m g' <= rankOf (step g m) g')%nat.
Proof.
  destruct (decide (g = g')) as [-> | Hne].
  - pose proof (step_rank_self g' m). 
    assert (rankOf m g' <= 4)%nat.
    { unfold rankOf. destruct (calls m !! g') as [[] |]; simpl; lia. }
    lia.
  - rewrite step_rank_other by assumption. lia.
Qed.

Lemma run_rank schedule m g :
  (Nat.min 4 (rankOf m g + count_occ Nat.eq_dec schedule g)
   <= rankOf (run schedule m) g)%nat.
Proof.
  unfold run. revert m. induction schedule as [| h schedule IH]; intros m;
    cbn [foldl count_occ].
  - lia.
  - specialize (IH (step h m)). destruct (Nat.eq_dec h g) as [-> | Hne].
    + pose proof (step_rank_self g m). lia.
    + rewrite step_rank_other in IH by assumption. lia.
Qed.

Lemma run_length schedule m : List.length (calls (run schedule m)) = List.length (calls m).
Proof.
  unfold run. revert m. induction schedule as [| g schedule IH]; intros m; simpl;
    [reflexivity |].
  rewrite IH. unfold step. destruct (calls m !! g) as [[] |]; simpl;
    rewrite ?length_insert; reflexivity.
Qed.

Lemma fair_finished schedule m :
  (forall g, (g < List.length (calls m))%nat ->
             (4 <= count_occ Nat.eq_dec schedule g)%nat) ->
  finished (run schedule m).
Proof.
  intros Hfair. unfold finished. apply Forall_lookup. intros g s Hl.
  assert (Hlt : (g < List.length (calls m))%nat).
  { rewrite <- (run_length schedule m). eapply lookup_lt_Some; eassumption. }
  pose proof (run_rank schedule m g) as Hr. specialize (Hfair g Hlt).
  unfold rankOf at 2 in Hr. rewrite Hl in Hr.
  destruct s as [| | | k | | res]; cbn [rank] in Hr; try lia. now exists res.
Qed.


Variable key : rsa_PublicKey.
Hypothesis served : forall n, afterGet n = AtStore key.

Lemma stageOk_stored w s :
  (travisPubKey w = None \/ travisPubKey w = Some key) ->
  stageOk key w s ->
  stageOk key {| travisPubKey := Some key; sent := sent w |} s.
Proof. intros Hc Hs. destruct s; simpl in *; intuition. Qed.

Lemma stageOk_sent w s l :
  stageOk key w s -> stageOk key {| travisPubKey := travisPubKey w; sent := l |} s.
Proof. intros Hs. destruct s; simpl in *; intuition. Qed.

(** Every step keeps the invariant. *)
Lemma step_invariant n sent0 g m :
  Invariant key n sent0 m -> Invariant key n sent0 (step g m).
Proof.
  intros [Hlen Hcache Hst Hstores Hstored Hsent]. unfold step.
  destruct (calls m !! g) as [stage |] eqn:Hg; [| now constructor].
  pose proof (Hst g stage Hg) as Hok.
  assert (Hothers : forall w' new,
             (forall s, stageOk key (shared m) s -> stageOk key w' s) ->
             stageOk key w' new ->
             forall g' s, <[g := new]> (calls m) !! g' = Some s -> stageOk key w' s).
  { intros w' new Hmono Hnew g' s Hl.
    apply list_lookup_insert_Some in Hl as [(-> & -> & _) | (Hne & Hl)];
      [exact Hnew | exact (Hmono s (Hst g' s Hl))]. }
  destruct stage as [| | | k | | res]; simpl in Hok.
  - (* AtCheck *)
    destruct (travisPubKey (shared m)) as [k |] eqn:Hc.
    + assert (Hk : k = key) by (destruct Hcache as [H | H]; congruence). subst k.
      pose proof (countIf_insert pastStore _ g _ AtReturnCached Hg) as C1.
      pose proof (countIf_insert pastGet _ g _ AtReturnCached Hg) as C2.
      simpl in C1, C2.
      constructor; simpl; rewrite ?length_insert; try assumption; try lia.
      * rewrite Hc. now right.
      * apply Hothers; [tauto | exact Hc].
      * rewrite Hc. exact Hstored.
    + pose proof (countIf_insert pastStore _ g _ AtGet Hg) as C1.
      pose proof (countIf_insert pastGet _ g _ AtGet Hg) as C2.
      simpl in C1, C2.
      constructor; simpl; rewrite ?length_insert; try assumption; try lia.
      * rewrite Hc. now left.
      * apply Hothers; [tauto | exact I].
      * rewrite Hc. exact Hstored.
  - (* AtReturnCached *)
    pose proof (countIf_insert pastStore _ g _ (Returned (Ok (travisPubKey (shared m)))) Hg) as C1.
    pose proof (countIf_insert pastGet _ g _ (Returned (Ok (travisPubKey (shared m)))) Hg) as C2.
    simpl in C1, C2.
    constructor; simpl; rewrite ?length_insert; try assumption; try lia.
    apply Hothers; [tauto |]. simpl. now rewrite Hok.
  - (* AtGet *)
    rewrite served.
    pose proof (countIf_insert pastStore _ g _ (AtStore key) Hg) as C1.
    pose proof (countIf_insert pastGet _ g _ (AtStore key) Hg) as C2.
    simpl in C1, C2.
    constructor; simpl; rewrite ?length_insert, ?List.length_app; simpl;
      try assumption; try lia.
    apply Hothers; [intros s; apply stageOk_sent | reflexivity].
  - (* AtStore *)
    subst k.
    pose proof (countIf_insert pastStore _ g _ AtReturnStored Hg) as C1.
    pose proof (countIf_insert pastGet _ g _ AtReturnStored Hg) as C2.
    simpl in C1, C2.
    constructor; simpl; rewrite ?length_insert; try assumption; try lia.
    + now right.
    + apply Hothers; [intros s; now apply stageOk_stored | reflexivity].
  - (* AtReturnStored *)
    pose proof (countIf_insert pastStore _ g _ (Returned (Ok (travisPubKey (shared m)))) Hg) as C1.
    pose proof (countIf_insert pastGet _ g _ (Returned (Ok (travisPubKey (shared m)))) Hg) as C2.
    simpl in C1, C2.
    constructor; simpl; rewrite ?length_insert; try assumption; try lia.
    apply Hothers; [tauto |]. simpl. now rewrite Hok.
  - (* Returned *)
    now constructor.
Qed.

Lemma run_invariant n sent0 schedule m :
  Invariant key n sent0 m -> Invariant key n sent0 (run schedule m).
Proof.
  unfold run. revert m. induction schedule as [| g schedule IH]; intros m Hm; simpl.
  - exact Hm.
  - apply IH. now apply step_invariant.
Qed.

Lemma start_invariant n w :
  travisPubKey w = None -> Invariant key n (sent w) (start n w).
Proof.
  intros Hnone. constructor; simpl.
  - apply length_replicate.
  - now left.
  - intros g s Hl. apply lookup_replicate in Hl as [-> _]. exact I.
  - lia.
  - now rewrite Hnone.
  - lia.
Qed.

(** Two calls that start together can both find the cache empty, both
    fetch, and stand before the assignment at the same time; both then
    assign. *)
Lemma two_racing_stores n w :
  travisPubKey w = None -> (2 <= n)%nat ->
  dataRace (run [0; 1; 0; 1]%nat (start n w))
  /\ stores (run [0; 1; 0; 1; 0; 1]%nat (start n w)) = 2%nat.
Proof.
  intros Hnone Hn. destruct n as [| [| n]]; try lia.
  unfold run, start. cbn [foldl replicate].
  next_step step_check. rewrite Hnone.
  next_step step_check. rewrite Hnone.
  next_step step_get. rewrite served.
  next_step step_get. rewrite served.
  split.
  - exists 0%nat, 1%nat, (AtStore key), (AtStore key).
    repeat split; try reflexivity. lia.
  - next_step (fun g m => step_store g m key).
    next_step (fun g m => step_store g m key). reflexivity.
Qed.

End GoroutineFacts.

Section ConcurrentCalls.
Context `{RT : Runtime}.

(** A goroutine that runs alone takes the steps of [travisPublicKey]: it
    returns what the function returns and leaves the state the function
    leaves. *)
Lemma lone_goroutine w :
  let m := run [0; 0; 0; 0]%nat (start 1 w) in
  shared m = snd (travisPublicKey w)
  /\ calls m
     = [Returned match fst (travisPublicKey w) with
                 | Ok k => Ok (Some k)
                 | Err msg => Err msg
                 | Panic msg => Panic msg
                 end].
Proof.
  cbv zeta. unfold run, start, travisPublicKey. cbn [foldl replicate].
  next_step step_check. destruct w as [[k |] sent0]; cbn [travisPubKey sent].
  - next_step step_return_cached.
    do 2 (next_step (fun g m => step_returned g m (Ok (Some k)))).
    split; reflexivity.
  - next_step step_get. unfold afterGet.
    destruct (http_Get (List.length sent0) configURL) as [body |].
    + destruct (json_Decoder_Decode body configKey_type (zeroValue configKey_type)) as [t |].
      * destruct (parsePublicKey (PublicKeyOf t)) as [k | msg | msg].
        -- next_step (fun g m => step_store g m k). next_step step_return_stored.
           split; reflexivity.
        -- do 2 (next_step (fun g m => step_returned g m (@Err (option rsa_PublicKey) msg))).
           split; reflexivity.
        -- do 2 (next_step (fun g m => step_returned g m (@Panic (option rsa_PublicKey) msg))).
           split; reflexivity.
      * do 2 (next_step (fun g m => step_returned g m
                (@Err (option rsa_PublicKey) "cannot decode travis public key"))).
        split; reflexivity.
    + do 2 (next_step (fun g m => step_returned g m
              (@Err (option rsa_PublicKey) "cannot fetch travis public key"))).
      split; reflexivity.
Qed.

Lemma afterGet_served key :
  (forall i, exists body t,
      http_Get i configURL = Some body
      /\ json_Decoder_Decode body configKey_type (zeroValue configKey_type) = Some t
      /\ parsePublicKey (PublicKeyOf t) = Ok key) ->
  forall i, afterGet i = AtStore key.
Proof.
  intros H i. destruct (H i) as (body & t & Hget & Hdec & Hkey).
  unfold afterGet. now rewrite Hget, Hdec, Hkey.
Qed.

(** C10, amended.  [n] calls start together on an empty cache, their
    steps interleave in any order, and the endpoint answers every request
    with a configuration whose key parses to the RSA key [key].  Then
    - a call that has returned has returned [key] with a nil error, and
      the cache holds nothing or [key] at every moment: no call sees an
      error or another key;
    - the cache is assigned at most [n] times and at most [n] requests are
      sent; when all calls have returned, it has been assigned at least
      once and holds [key]; and the calls have all returned as soon as
      each has been scheduled four times;
    - the cache is not assigned exactly once: from two calls on, there is
      an interleaving in which two calls stand before the assignment
      together, nothing ordering their accesses (a data race), and both
      assign. *)
Theorem concurrent_first_calls n w key schedule :
  travisPubKey w = None ->
  (forall i, exists body t,
      http_Get i configURL = Some body
      /\ json_Decoder_Decode body configKey_type (zeroValue configKey_type) = Some t
      /\ parsePublicKey (PublicKeyOf t) = Ok key) ->
  let m := run schedule (start n w) in
  (forall g res, calls m !! g = Some (Returned res) -> res = Ok (Some key))
  /\ (travisPubKey (shared m) = None \/ travisPubKey (shared m) = Some key)
  /\ (stores m <= n)%nat
  /\ (List.length (sent (shared m)) <= List.length (sent w) + n)%nat
  /\ (finished m -> (1 <= n)%nat ->
      (1 <= stores m)%nat /\ travisPubKey (shared m) = Some key)
  /\ ((forall g, (g < n)%nat -> (4 <= count_occ Nat.eq_dec schedule g)%nat) ->
      finished m)
  /\ ((2 <= n)%nat ->
      dataRace (run [0; 1; 0; 1]%nat (start n w))
      /\ stores (run [0; 1; 0; 1; 0; 1]%nat (start n w)) = 2%nat).
Proof.
  intros Hnone Hserved. cbv zeta.
  pose proof (afterGet_served key Hserved) as Hafter.
  pose proof (run_invariant key Hafter n (sent w) schedule _ (start_invariant key n w Hnone))
    as [Hlen Hcache Hst Hstores Hstored Hsent].
  split; [| split; [| split; [| split; [| split; [| split]]]]].
  - intros g res Hg. now destruct (Hst g _ Hg).
  - exact Hcache.
  - pose proof (countIf_le pastStore (calls (run schedule (start n w)))). lia.
  - pose proof (countIf_le pastGet (calls (run schedule (start n w)))). lia.
  - intros Hfin Hn.
    assert (Hc : travisPubKey (shared (run schedule (start n w))) = Some key).
    { destruct (lookup_lt_is_Some_2 (calls (run schedule (start n w))) 0%nat) as [s Hs];
        [lia |].
      unfold finished in Hfin. rewrite Forall_lookup in Hfin.
      destruct (Hfin 0%nat s Hs) as [res ->].
      now destruct (Hst 0%nat _ Hs). }
    split; [| exact Hc]. apply Hstored. now rewrite Hc.
  - intros Hfair. apply fair_finished.
    intros g Hg. apply Hfair. simpl in Hg. now rewrite length_replicate in Hg.
  - intros Hn. now apply (two_racing_stores key Hafter).
Qed.

End ConcurrentCalls.

(** ** More on the classification predicates *)

Lemma filter_sublist {A} (f : A -> bool) (l : list A) : sublist (List.filter f l) l.
Proof.
  induction l as [| x l IH]; simpl; [constructor |].
  destruct (f x); [now apply sublist_skip | now apply sublist_cons].
Qed.

(** The predicates of a vocabulary that hold of a payload are at most as
    many as the words they can hold for. *)
Lemma selected_words (l : list (string * (Payload -> bool))) p (ws : list string) :
  NoDup (List.map fst l) ->
  (forall w f, In (w, f) l -> f p = true -> In w ws) ->
  (List.length (List.filter (fun wf => snd wf p) l) <= List.length ws)%nat.
Proof.
  intros Hnd Hsel.
  rewrite <- (List.length_map fst (List.filter (fun wf => snd wf p) l)).
  apply submseteq_length, NoDup_submseteq.
  - refine (sublist_NoDup _ _ Hnd _). apply (fmap_sublist fst), filter_sublist.
  - intros w Hw. apply list_elem_of_In in Hw. apply List.in_map_iff in Hw as ([w' f] & <- & Hin).
    apply List.filter_In in Hin as [Hin Hf]. apply list_elem_of_In.
    exact (Hsel w' f Hin Hf).
Qed.

(** X1.  The event predicates are mutually exclusive: of [IsPullRequest],
    [IsPush], [IsCron] and [IsAPI] at most one holds of a payload, since
    all four compare the one field [Type] with four different words. *)
Theorem event_predicates_exclusive p :
  (List.length (List.filter (fun wf => snd wf p) eventPredicates) <= 1)%nat
  /\ IsPullRequest p && IsPush p = false
  /\ IsPullRequest p && IsCron p = false
  /\ IsPullRequest p && IsAPI p = false
  /\ IsPush p && IsCron p = false
  /\ IsPush p && IsAPI p = false
  /\ IsCron p && IsAPI p = false.
Proof.
  split.
  - apply (selected_words eventPredicates p [Type_ p]).
    + apply (bool_decide_unpack _). vm_compute. exact I.
    + intros w f Hin Hf. left. exact (proj1 (eventPredicates_spec w f p Hin) Hf).
  - unfold IsPullRequest, IsPush, IsCron, IsAPI.
    repeat split;
      match goal with
      | |- String.eqb ?s ?a && String.eqb ?s ?b = false =>
          destruct (String.eqb_spec s a) as [-> |]; [reflexivity | reflexivity]
      end.
Qed.

(** X2.  At most two of the eight state predicates hold of a payload,
    one for the word in [StatusMessage] and one for the word in
    [ResultMessage]; when the two fields hold the same text, at most
    one. *)
Theorem state_predicates_at_most_two p :
  (List.length (List.filter (fun wf => snd wf p) statePredicates)
   <= if String.eqb (StatusMessage p) (ResultMessage p) then 1 else 2)%nat.
Proof.
  assert (Hnd : NoDup (List.map fst statePredicates))
    by (apply (bool_decide_unpack _); vm_compute; exact I).
  destruct (String.eqb_spec (StatusMessage p) (ResultMessage p)) as [Heq | Hne].
  - apply (selected_words statePredicates p [StatusMessage p] Hnd).
    intros w f Hin Hf. left.
    destruct (proj1 (statePredicates_spec w f p Hin) Hf); congruence.
  - apply (selected_words statePredicates p [StatusMessage p; ResultMessage p] Hnd).
    intros w f Hin Hf.
    destruct (proj1 (statePredicates_spec w f p Hin) Hf); [left | right; left]; congruence.
Qed.

(** ** More on the codec *)

Section DecoderFacts.
Context `{RT : Runtime}.

(** *** The members of an object, one after the other *)

Lemma decode_Payload_object members :
  json_decode Payload_type (JObject members) (zeroValue Payload_type)
  = VStruct <$> foldl (storeMember (fun T' => json_decode T') Payload_fields)
                  (Some (List.map (fun f => zeroValue (fieldType f)) Payload_fields))
                  members.
Proof. reflexivity. Qed.

Lemma GetPayload_object stream members rest :
  json_scan stream = Some (JObject members, rest) ->
  GetPayload (Some stream)
  = match foldl (storeMember (fun T' => json_decode T') Payload_fields)
            (Some (List.map (fun f => zeroValue (fieldType f)) Payload_fields))
            members ≫= (fun xs => Payload_of_value (VStruct xs)) with
    | Some p => Ok p
    | None => Err "cannot decode payload"
    end.
Proof.
  intros Hscan. unfold GetPayload, json_Decoder_Decode.
  rewrite reflect_zero, Hscan. cbn [mbind option_bind].
  rewrite decode_Payload_object.
  now destruct (foldl _ _ members).
Qed.

(** A member whose key selects no field leaves the struct as it is. *)
Lemma storeMembers_known dec fs acc members :
  foldl (storeMember dec fs) acc
    (List.filter (fun m => bool_decide (is_Some (findField fs (fst m)))) members)
  = foldl (storeMember dec fs) acc members.
Proof.
  revert acc. induction members as [| m members IH]; intros acc; [reflexivity |].
  cbn [List.filter]. destruct (findField fs (fst m)) as [i |] eqn:Hf.
  - rewrite bool_decide_eq_true_2 by (now exists i). cbn [foldl]. apply IH.
  - rewrite bool_decide_eq_false_2 by (intros [i Hi]; discriminate).
    rewrite IH. cbn [foldl]. f_equal. unfold storeMember. rewrite Hf. now destruct acc.
Qed.

Lemma storeField_fails dec fs xs i f v :
  fs !! i = Some f -> (forall cur, dec (fieldType f) v cur = None) ->
  storeField dec fs xs i v = None.
Proof.
  revert xs i. induction fs as [| g fs IH]; intros [| x xs] [| i] Hi Hdec;
    simpl in *; try discriminate; try reflexivity.
  - injection Hi as ->. now rewrite Hdec.
  - now rewrite (IH xs i Hi Hdec).
Qed.

Lemma storeMembers_fail dec fs acc members key value i f :
  In (key, value) members ->
  findField fs key = Some i -> fs !! i = Some f ->
  (forall cur, dec (fieldType f) value cur = None) ->
  foldl (storeMember dec fs) acc members = None.
Proof.
  intros Hin Hfind Hi Hdec. revert acc.
  induction members as [| m members IH]; intros acc; [contradiction |].
  destruct Hin as [-> | Hin]; [| apply (IH Hin)].
  cbn [foldl]. unfold storeMember at 2. cbn [fst snd]. rewrite Hfind.
  destruct acc as [xs |]; cbn [mbind option_bind];
    rewrite ?(storeField_fails dec fs _ i f value Hi Hdec);
    apply foldl_storeMember_None.
Qed.

Lemma storeField_insert dec fs xs i f v cur x :
  fs !! i = Some f -> xs !! i = Some cur -> dec (fieldType f) v cur = Some x ->
  storeField dec fs xs i v = Some (<[i := x]> xs).
Proof.
  revert xs i. induction fs as [| g fs IH]; intros [| y xs] [| i] Hi Hx Hdec;
    simpl in *; try discriminate.
  - injection Hi as ->. injection Hx as ->. now rewrite Hdec.
  - now rewrite (IH xs i Hi Hx Hdec).
Qed.

(** X3.  At the top level, [GetPayload] takes [null] and the empty
    object for a payload with every field zero, without an error; it
    refuses a JSON value that is neither an object nor [null] (a number, a
    string, a boolean, an array). *)
Theorem GetPayload_top_level_values stream j rest :
  json_scan stream = Some (j, rest) ->
  (j = JNull \/ j = JObject [] -> GetPayload (Some stream) = Ok Payload_zero)
  /\ (j <> JNull -> (forall members, j <> JObject members) ->
      GetPayload (Some stream) = Err "cannot decode payload").
Proof.
  intros Hscan. unfold GetPayload, json_Decoder_Decode. rewrite Hscan. split.
  - intros [-> | ->]; reflexivity.
  - intros Hnull Hobj. destruct j as [| b | lit | s | items | members]; try reflexivity.
    + now destruct Hnull.
    + now destruct (Hobj members).
Qed.

(** X4.  A member whose key selects no field of [Payload] is skipped:
    the stream decodes as the stream without these members does. *)
Theorem GetPayload_skips_unknown_members stream stream' members rest rest' :
  json_scan stream = Some (JObject members, rest) ->
  json_scan stream'
  = Some (JObject (List.filter
                     (fun m => bool_decide (is_Some (findField Payload_fields (fst m))))
                     members), rest') ->
  GetPayload (Some stream) = GetPayload (Some stream').
Proof.
  intros H H'. rewrite (GetPayload_object _ _ _ H), (GetPayload_object _ _ _ H').
  now rewrite storeMembers_known.
Qed.

(** X5.  One member that its field cannot take makes the whole decoding
    fail, whatever the other members are: no partly filled payload is
    returned. *)
Theorem GetPayload_rejects_ill_typed_member stream members rest key value i f :
  json_scan stream = Some (JObject members, rest) ->
  In (key, value) members ->
  findField Payload_fields key = Some i ->
  Payload_fields !! i = Some f ->
  (forall cur, json_decode (fieldType f) value cur = None) ->
  GetPayload (Some stream) = Err "cannot decode payload".
Proof.
  intros Hscan Hin Hfind Hi Hdec. rewrite (GetPayload_object _ _ _ Hscan).
  now rewrite (storeMembers_fail _ _ _ members key value i f Hin Hfind Hi Hdec).
Qed.

(** X6.  The members of an object are stored in order.  A member added at
    the end of an object is decoded into the field its key selects,
    starting from the value the earlier members left there, and changes no
    other field: of two members with one key the later wins. *)
Theorem GetPayload_later_member_wins
    stream stream' members rest rest' p name value i f cur x :
  json_scan stream = Some (JObject members, rest) ->
  json_scan stream' = Some (JObject (members ++ [(name, value)]), rest') ->
  GetPayload (Some stream) = Ok p ->
  findField Payload_fields name = Some i ->
  Payload_fields !! i = Some f ->
  Payload_values p !! i = Some cur ->
  json_decode (fieldType f) value cur = Some x ->
  exists p',
    GetPayload (Some stream') = Ok p'
    /\ Payload_values p' = <[i := x]> (Payload_values p).
Proof.
  intros Hscan Hscan' Hget Hfind Hi Hcur Hdec.
  apply GetPayload_Ok_iff in Hget as (j & rest0 & Hscan0 & Hd).
  rewrite Hscan in Hscan0. injection Hscan0 as <- <-.
  rewrite decode_Payload_object in Hd.
  destruct (foldl _ _ members) as [xs |] eqn:Hfold; [| discriminate].
  cbn [fmap option_fmap option_map] in Hd. injection Hd as ->.
  assert (Hd' : json_decode Payload_type (JObject (members ++ [(name, value)]))
                  (zeroValue Payload_type)
                = Some (VStruct (<[i := x]> (Payload_values p)))).
  { rewrite decode_Payload_object, foldl_app, Hfold. cbn [foldl].
    unfold storeMember. cbn [mbind option_bind fst snd]. rewrite Hfind.
    now rewrite (storeField_insert (fun T' => json_decode T') _ _ i f value cur x Hi Hcur Hdec). }
  pose proof (decode_sound Payload_type _ _ _ (sound_zero _ _ I) Hd') as Hs.
  destruct (Payload_of_sound _ Hs) as [p' Hp'].
  pose proof (reflect_of_Payload _ p' Hs Hp') as Hr.
  injection Hr as Hr.
  exists p'. split; [| now symmetry].
  apply GetPayload_Ok_iff. exists (JObject (members ++ [(name, value)])), rest'.
  split; [assumption |]. rewrite Hd'. unfold reflect_Payload. now rewrite Hr.
Qed.

(** *** Fields and members *)

(** Storing in one field leaves the others as they are. *)
Lemma storeField_other dec fs xs j v xs' i :
  storeField dec fs xs j v = Some xs' -> i <> j -> xs' !! i = xs !! i.
Proof.
  revert xs j xs' i. induction fs as [| f fs IH]; intros [| x xs] [| j] xs' i Hst Hne;
    simpl in Hst; try discriminate.
  - destruct (dec (fieldType f) v x) as [x' |]; simpl in Hst; [| discriminate].
    injection Hst as <-. destruct i as [| i]; [congruence | reflexivity].
  - destruct (storeField dec fs xs j v) as [xs'' |] eqn:Hr; simpl in Hst; [| discriminate].
    injection Hst as <-. destruct i as [| i]; [reflexivity |].
    simpl. apply (IH xs j xs'' i Hr). congruence.
Qed.

Lemma storeMembers_other dec fs members : forall xs xs' i,
  foldl (storeMember dec fs) (Some xs) members = Some xs' ->
  (forall key value, In (key, value) members -> findField fs key <> Some i) ->
  xs' !! i = xs !! i.
Proof.
  induction members as [| [key value] members IH]; intros xs xs' i Hf Hkeys.
  - simpl in Hf. now injection Hf as <-.
  - cbn [foldl] in Hf. unfold storeMember at 2 in Hf. cbn [mbind option_bind fst snd] in Hf.
    assert (Hrest : forall k v, In (k, v) members -> findField fs k <> Some i)
      by (intros k v Hin; apply (Hkeys k v); now right).
    destruct (findField fs key) as [j |] eqn:Hj.
    + destruct (storeField dec fs xs j value) as [xs1 |] eqn:Hst.
      * rewrite (IH xs1 xs' i Hf Hrest).
        apply (storeField_other dec fs xs j value xs1 i Hst).
        intros ->. apply (Hkeys key value); [now left | exact Hj].
      * now rewrite foldl_storeMember_None in Hf.
    + exact (IH xs xs' i Hf Hrest).
Qed.

(** X22.  A field that no member of the object selects keeps the zero
    value of its type: what a notification does not mention is the empty
    string, 0, the zero time or a nil pointer in the payload. *)
Theorem GetPayload_absent_fields_zero stream members rest p i f :
  json_scan stream = Some (JObject members, rest) ->
  GetPayload (Some stream) = Ok p ->
  Payload_fields !! i = Some f ->
  (forall key value, In (key, value) members -> findField Payload_fields key <> Some i) ->
  Payload_values p !! i = Some (zeroValue (fieldType f)).
Proof.
  intros Hscan Hget Hi Hkeys.
  apply GetPayload_Ok_iff in Hget as (j & rest0 & Hscan0 & Hd).
  rewrite Hscan in Hscan0. injection Hscan0 as <- <-.
  rewrite decode_Payload_object in Hd.
  destruct (foldl _ _ members) as [xs |] eqn:Hfold; [| discriminate].
  cbn [fmap option_fmap option_map] in Hd. injection Hd as ->.
  rewrite (storeMembers_other _ _ members _ _ i Hfold Hkeys).
  rewrite list_lookup_fmap, Hi. reflexivity.
Qed.

(** Stores in two different fields commute. *)
Lemma storeField_comm dec fs : forall xs i j va vb,
  i <> j ->
  (storeField dec fs xs i va ≫= fun xs' => storeField dec fs xs' j vb)
  = (storeField dec fs xs j vb ≫= fun xs' => storeField dec fs xs' i va).
Proof.
  induction fs as [| f fs IH]; intros [| x xs] [| i] [| j] va vb Hne;
    try reflexivity; try congruence.
  - cbn [storeField].
    destruct (dec (fieldType f) va x) as [x' |] eqn:Ea,
             (storeField dec fs xs j vb) as [xs' |] eqn:Eb;
      cbn [fmap option_fmap option_map mbind option_bind storeField];
      rewrite ?Ea, ?Eb; reflexivity.
  - cbn [storeField].
    destruct (dec (fieldType f) vb x) as [x' |] eqn:Eb,
             (storeField dec fs xs i va) as [xs' |] eqn:Ea;
      cbn [fmap option_fmap option_map mbind option_bind storeField];
      rewrite ?Ea, ?Eb; reflexivity.
  - cbn [storeField].
    assert (Hij : i <> j) by congruence.
    specialize (IH xs i j va vb Hij).
    destruct (storeField dec fs xs i va) as [xs1 |], (storeField dec fs xs j vb) as [xs2 |];
      cbn [fmap option_fmap option_map mbind option_bind storeField] in IH |- *;
      rewrite ?IH; try reflexivity.
    + now rewrite <- IH.
Qed.

Lemma storeMember_comm dec fs acc a b :
  findField fs (fst a) <> findField fs (fst b)
  \/ findField fs (fst a) = None ->
  storeMember dec fs (storeMember dec fs acc a) b
  = storeMember dec fs (storeMember dec fs acc b) a.
Proof.
  intros Hne. unfold storeMember.
  destruct acc as [xs |]; [| reflexivity]. cbn [mbind option_bind].
  destruct (findField fs (fst a)) as [i |] eqn:Ha, (findField fs (fst b)) as [j |] eqn:Hb;
    cbn [mbind option_bind]; try reflexivity.
  - assert (Hij : i <> j) by (destruct Hne as [H | H]; congruence).
    pose proof (storeField_comm dec fs xs i j (snd a) (snd b) Hij) as Hc.
    destruct (storeField dec fs xs i (snd a)) as [xs1 |],
             (storeField dec fs xs j (snd b)) as [xs2 |];
      cbn [mbind option_bind] in Hc |- *; rewrite ?Ha, ?Hb; try exact Hc; reflexivity.
  - destruct (storeField dec fs xs i (snd a)); cbn [mbind option_bind]; rewrite ?Hb;
      reflexivity.
  - destruct (storeField dec fs xs j (snd b)); cbn [mbind option_bind]; rewrite ?Ha;
      reflexivity.
Qed.

(** X23.  The order of the members matters only among members that
    select the same field: two neighbours that do not select one field
    can change places without changing what [GetPayload] returns, be it a
    payload or the error. *)
Theorem GetPayload_members_commute stream stream' before a b after rest rest' :
  json_scan stream = Some (JObject (before ++ a :: b :: after), rest) ->
  json_scan stream' = Some (JObject (before ++ b :: a :: after), rest') ->
  findField Payload_fields (fst a) <> findField Payload_fields (fst b)
  \/ findField Payload_fields (fst a) = None ->
  GetPayload (Some stream) = GetPayload (Some stream').
Proof.
  intros H H' Hne.
  rewrite (GetPayload_object _ _ _ H), (GetPayload_object _ _ _ H').
  rewrite !foldl_app. cbn [foldl].
  now rewrite (storeMember_comm _ _ _ a b Hne).
Qed.

(** *** What json.Marshal writes *)

(** With [omitempty] on every field and no name twice, a field is written
    exactly when its value is not empty. *)
Lemma encodeFields_written enc fs xs ms name T x :
  encodeFields enc fs xs = Some ms ->
  NoDup (List.map jsonName fs) ->
  forallb omitEmpty fs = true ->
  fieldNamed fs xs name = Some (T, x) ->
  In name (List.map fst ms) <-> isEmptyValue x = false.
Proof.
  revert xs ms. induction fs as [| f fs IH]; intros [| y xs] ms He Hnd Hall Hn;
    simpl in *; try discriminate.
  apply andb_prop in Hall as [Hf Hall]. rewrite Hf in He. cbn [andb] in He.
  apply NoDup_cons in Hnd as [Hnot Hnd].
  destruct (String.eqb_spec (jsonName f) name) as [Heq | Hne].
  - injection Hn as <- <-. subst name. destruct (isEmptyValue y) eqn:Hy.
    + split; [| discriminate]. intros Hin. exfalso. apply Hnot.
      apply list_elem_of_In in Hin.
      exact (elem_of_sublist _ _ _ Hin (encodeFields_names _ _ _ _ He)).
    + destruct (enc (fieldType f) y) as [j |]; cbn [mbind option_bind] in He; [| discriminate].
      destruct (encodeFields enc fs xs) as [rest |]; cbn [mbind option_bind] in He;
        [| discriminate].
      injection He as <-. split; [reflexivity | intros _; now left].
  - destruct (isEmptyValue y).
    + exact (IH xs ms He Hnd Hall Hn).
    + destruct (enc (fieldType f) y) as [j |]; cbn [mbind option_bind] in He; [| discriminate].
      destruct (encodeFields enc fs xs) as [rest |] eqn:Hrest;
        cbn [mbind option_bind] in He; [| discriminate].
      injection He as <-. simpl. rewrite <- (IH xs rest Hrest Hnd Hall Hn). tauto.
Qed.

(** X7.  [json.Marshal] writes a field of a payload exactly when its value
    is not empty; a [time.Time] is a struct and is never empty, so the
    three times are always written, the zero time too: [omitempty] has no
    effect on them. *)
Theorem Marshal_writes_nonempty_fields p members :
  json_Marshal_Payload p = Some (JObject members) ->
  (forall name T x,
     fieldNamed Payload_fields (Payload_values p) name = Some (T, x) ->
     In name (List.map fst members) <-> isEmptyValue x = false)
  /\ In "started_at" (List.map fst members)
  /\ In "finished_at" (List.map fst members)
  /\ In "commited_at" (List.map fst members).
Proof.
  unfold json_Marshal_Payload. rewrite json_encode_Payload. intros Hm.
  destruct (encodeFields _ Payload_fields (Payload_values p)) as [ms |] eqn:He;
    [| discriminate].
  cbn [fmap option_fmap option_map] in Hm. injection Hm as ->.
  assert (Hw : forall name T x,
             fieldNamed Payload_fields (Payload_values p) name = Some (T, x) ->
             In name (List.map fst members) <-> isEmptyValue x = false).
  { intros name T x. apply (encodeFields_written _ _ _ _ _ _ _ He Payload_names_NoDup).
    reflexivity. }
  split; [exact Hw |].
  split; [| split].
  - apply (Hw "started_at" TTime (VTime (StartedAt p))); reflexivity.
  - apply (Hw "finished_at" TTime (VTime (FinishedAt p))); reflexivity.
  - apply (Hw "commited_at" TTime (VTime (CommitedAt p))); reflexivity.
Qed.

(** *** The integers of a decoded payload *)

(** X19.  Every integer of a payload that [GetPayload] returns lies within
    the range of its Go type, [int64] for [ID] and for the [ID] of the
    repository, [int] (64 bits) for the others: the decoder refuses a
    number that does not fit, it does not wrap it around. *)
Theorem GetPayload_integers_in_range stream p :
  GetPayload (Some stream) = Ok p ->
  fitsInt 64 (ID p) /\ fitsInt 64 (Status p) /\ fitsInt 64 (Result p)
  /\ fitsInt 64 (Duration p) /\ fitsInt 64 (CommitID p)
  /\ fitsInt 64 (PullRequest p) /\ fitsInt 64 (PullRequestNumber p)
  /\ forall r, Repository p = Some r -> fitsInt 64 (Repository.ID r).
Proof.
  intros Hget. pose proof (GetPayload_sound stream p Hget) as Hs.
  rewrite sound_Payload in Hs.
  assert (F : forall name T x,
             fieldNamed Payload_fields (Payload_values p) name = Some (T, x) ->
             sound (fun _ => True) T x).
  { intros name T x Hn. exact (allFields_named _ _ _ _ _ _ Hs Hn). }
  split; [exact (F "id" (TInt Int64) (VInt (ID p)) eq_refl) |].
  split; [exact (F "status" (TInt Int) (VInt (Status p)) eq_refl) |].
  split; [exact (F "result" (TInt Int) (VInt (Result p)) eq_refl) |].
  split; [exact (F "duration" (TInt Int) (VInt (Duration p)) eq_refl) |].
  split; [exact (F "commit_id" (TInt Int) (VInt (CommitID p)) eq_refl) |].
  split; [exact (F "pull_request" (TInt Int) (VInt (PullRequest p)) eq_refl) |].
  split; [exact (F "pull_request_number" (TInt Int) (VInt (PullRequestNumber p)) eq_refl) |].
  intros r Hr.
  pose proof (F "repository" (TPtr Repository_type)
                (VPtr (reflect_Repository <$> Repository p)) eq_refl) as H.
  rewrite Hr in H. exact (proj1 H).
Qed.

End DecoderFacts.

(** ** More on the package *)

Section RequestFacts.
Context `{RT : Runtime}.

(** *** The key behind a request *)

Lemma parsePublicKey_errors key msg :
  parsePublicKey key = Err msg -> msg = "invalid public key".
Proof.
  pose proof (parsePublicKey_cases key) as H.
  destruct (pem_Decode key) as [block |]; [| rewrite H; now intros [= <-]].
  destruct (String.eqb (pem_Type block) "PUBLIC KEY"); [| rewrite H; now intros [= <-]].
  destruct (x509_ParsePKIXPublicKey (pem_Bytes block)) as [[] |];
    try (rewrite H; now intros [= <-]);
    intros Hp; rewrite Hp in H; discriminate.
Qed.

Lemma parsePublicKey_panics_iff key :
  is_Panic (parsePublicKey key) = true <->
  exists block publicKey,
    pem_Decode key = Some block /\ pem_Type block = "PUBLIC KEY"
    /\ x509_ParsePKIXPublicKey (pem_Bytes block) = Some publicKey
    /\ forall k, publicKey <> RSAKey k.
Proof.
  unfold parsePublicKey. split.
  - destruct (pem_Decode key) as [block |]; [| discriminate].
    destruct (String.eqb_spec (pem_Type block) "PUBLIC KEY") as [Ht | Ht];
      cbn [negb]; [| discriminate].
    destruct (x509_ParsePKIXPublicKey (pem_Bytes block)) as [publicKey |] eqn:Hp;
      [| discriminate].
    intros Hpanic. exists block, publicKey. repeat split; try assumption.
    intros k ->. discriminate.
  - intros (block & publicKey & -> & -> & -> & Hrsa). cbn.
    destruct publicKey; try reflexivity. now destruct (Hrsa k).
Qed.

Lemma travisPublicKey_errors w msg w' :
  travisPublicKey w = (Err msg, w') ->
  In msg ["cannot fetch travis public key"; "cannot decode travis public key";
          "invalid public key"].
Proof.
  unfold travisPublicKey. destruct (travisPubKey w); [discriminate |].
  destruct (http_Get _ _) as [body |]; [| intros [= <- _]; simpl; tauto].
  destruct (json_Decoder_Decode body _ _) as [t |]; [| intros [= <- _]; simpl; tauto].
  destruct (parsePublicKey (PublicKeyOf t)) as [k | m | m] eqn:Hp; try discriminate.
  intros [= <- _]. rewrite (parsePublicKey_errors _ _ Hp). simpl. tauto.
Qed.

Lemma travisPublicKey_Ok_cache w key w' :
  travisPublicKey w = (Ok key, w') -> travisPubKey w' = Some key.
Proof.
  intros H. destruct (travisPubKey w) as [k |] eqn:Hc.
  - rewrite (travisPublicKey_cached w k Hc) in H. now injection H as <- <-.
  - now destruct (travisPublicKey_miss w _ _ Hc H).
Qed.

(** X8.  A configuration document that has no key makes
    [travisPublicKey] fail with the error of the key, not of the decoder:
    on the document [null], and on an object without a member for
    [config], the decoder leaves the key the empty string, which is no PEM
    block. *)
Theorem travisPublicKey_missing_key w body j rest :
  travisPubKey w = None ->
  http_Get (List.length (sent w)) configURL = Some body ->
  json_scan body = Some (j, rest) ->
  j = JNull
  \/ (exists members,
        j = JObject members
        /\ forall key value, In (key, value) members ->
             key <> "config" /\ strings_EqualFold key "config" = false) ->
  pem_Decode "" = None ->
  travisPublicKey w
  = (Err "invalid public key",
     {| travisPubKey := None; sent := sent w ++ [configURL] |}).
Proof.
  intros Hnone Hget Hscan Hj Hpem.
  assert (Hdec : json_Decoder_Decode body configKey_type (zeroValue configKey_type)
                 = Some (zeroValue configKey_type)).
  { unfold json_Decoder_Decode. rewrite Hscan. cbn [mbind option_bind].
    destruct Hj as [-> | (members & -> & Hkeys)]; [reflexivity |].
    unfold configKey_type at 1 2. cbn [json_decode zeroValue List.map fieldType].
    match goal with
    | |- VStruct <$> foldl ?f (Some ?xs) members = _ =>
        assert (Hfold : foldl f (Some xs) members = Some xs); [| now rewrite Hfold]
    end.
    clear Hscan. induction members as [| [key value] members IH]; [reflexivity |].
    cbn [foldl]. unfold storeMember at 2. cbn [mbind option_bind fst].
    destruct (Hkeys key value (or_introl eq_refl)) as [Hne Hfold].
    unfold findField. cbn [List.map jsonName indexWhere].
    apply String.eqb_neq in Hne. rewrite Hne, Hfold. cbn [fmap option_fmap option_map].
    apply IH. intros k v Hin. exact (Hkeys k v (or_intror Hin)). }
  unfold travisPublicKey. rewrite Hnone, Hget, Hdec.
  assert (Hkey : PublicKeyOf (zeroValue configKey_type) = "") by reflexivity.
  rewrite Hkey. unfold parsePublicKey. now rewrite Hpem.
Qed.

(** *** The request *)

(** [GetPayloadFromRequest] after the checks of the method and of the
    content type. *)
Lemma GetPayloadFromRequest_POST r w :
  Method r = "POST" ->
  Header_Get (Header r) "Content-Type" = "application/x-www-form-urlencoded" ->
  GetPayloadFromRequest (Some r) w
  = match travisPublicKey w with
    | (Err msg, w') => (Err msg, w')
    | (Panic msg, w') => (Panic msg, w')
    | (Ok key, w') =>
        match parsePayloadSignature r with
        | Err msg => (Err msg, w')
        | Panic msg => (Panic msg, w')
        | Ok signature =>
            if rsa_VerifyPKCS1v15_SHA1 key (payloadDigest (FormValue r "payload"))
                 signature
            then
              match json_Unmarshal (FormValue r "payload") Payload_type
                      (reflect_Payload Payload_zero) ≫= Payload_of_value with
              | None => (Err "cannot decode payload", w')
              | Some p => (Ok p, w')
              end
            else (Err "unauthorized payload", w')
        end
    end.
Proof.
  intros Hm Hct. unfold GetPayloadFromRequest. rewrite Hm, Hct. cbn [String.eqb negb].
  destruct (travisPublicKey w) as [[key | msg | msg] w']; try reflexivity.
  destruct (parsePayloadSignature r); try reflexivity.
  now destruct (rsa_VerifyPKCS1v15_SHA1 _ _ _).
Qed.

(** The request fails one of the two checks, or passes both. *)
Lemma request_checks r :
  Method r <> "POST"
  \/ (Method r = "POST"
      /\ Header_Get (Header r) "Content-Type" <> "application/x-www-form-urlencoded")
  \/ (Method r = "POST"
      /\ Header_Get (Header r) "Content-Type" = "application/x-www-form-urlencoded").
Proof.
  destruct (String.eqb_spec (Method r) "POST"); [| tauto].
  destruct (String.eqb_spec (Header_Get (Header r) "Content-Type")
              "application/x-www-form-urlencoded"); tauto.
Qed.

Lemma GetPayloadFromRequest_wrong_method r w :
  Method r <> "POST" ->
  GetPayloadFromRequest (Some r) w
  = (Err ("wrong request method " ++ strconv_Quote (Method r) ++ " instead of POST"), w).
Proof.
  intros Hm. unfold GetPayloadFromRequest. apply String.eqb_neq in Hm. now rewrite Hm.
Qed.

Lemma GetPayloadFromRequest_wrong_type r w :
  Method r = "POST" ->
  Header_Get (Header r) "Content-Type" <> "application/x-www-form-urlencoded" ->
  GetPayloadFromRequest (Some r) w
  = (Err ("wrong Content-Type header, got " ++ Header_Get (Header r) "Content-Type"
          ++ " != want application/x-www-form-urlencoded"), w).
Proof.
  intros Hm Hct. unfold GetPayloadFromRequest. apply String.eqb_neq in Hct.
  now rewrite Hm, Hct.
Qed.

Lemma parsePayloadSignature_not_Panic r msg : parsePayloadSignature r <> Panic msg.
Proof.
  unfold parsePayloadSignature.
  destruct (String.eqb _ _); [discriminate |].
  destruct (base64_DecodeString _); discriminate.
Qed.

Lemma parsePayloadSignature_errors r msg :
  parsePayloadSignature r = Err msg ->
  msg = "missing Signature header" \/ msg = "cannot decode signature".
Proof.
  unfold parsePayloadSignature.
  destruct (String.eqb _ _); [intros [= <-]; now left |].
  destruct (base64_DecodeString _); [discriminate | intros [= <-]; now right].
Qed.

(** X9.  A POST with the right content type has, on the state of the
    process, the effect of [travisPublicKey], whatever it carries: the key
    is resolved before the signature is looked at, so on an empty cache
    also a request without a signature, or with a wrong one, makes the
    process send a request to the provider, and caches the key when one
    comes back. *)
Theorem GetPayloadFromRequest_resolves_key_first r w :
  Method r = "POST" ->
  Header_Get (Header r) "Content-Type" = "application/x-www-form-urlencoded" ->
  snd (GetPayloadFromRequest (Some r) w) = snd (travisPublicKey w)
  /\ (travisPubKey w = None ->
      sent (snd (GetPayloadFromRequest (Some r) w)) = (sent w ++ [configURL])%list).
Proof.
  intros Hm Hct.
  assert (Hsnd : snd (GetPayloadFromRequest (Some r) w) = snd (travisPublicKey w)).
  { rewrite (GetPayloadFromRequest_POST r w Hm Hct).
    destruct (travisPublicKey w) as [[key | msg | msg] w']; try reflexivity.
    destruct (parsePayloadSignature r); try reflexivity.
    destruct (rsa_VerifyPKCS1v15_SHA1 _ _ _); [| reflexivity].
    now destruct (_ ≫= Payload_of_value). }
  split; [exact Hsnd |].
  intros Hnone. rewrite Hsnd.
  destruct (travisPublicKey w) as [res w'] eqn:Hcall.
  now destruct (travisPublicKey_miss w res w' Hnone Hcall).
Qed.

(** X10.  The errors of [GetPayloadFromRequest]: the two that name what
    the request has instead of POST and of the form content type, the
    three of the key, the two of the signature, and one each for a failed
    verification and for a payload that does not decode. *)
Theorem GetPayloadFromRequest_errors r w msg w' :
  GetPayloadFromRequest (Some r) w = (Err msg, w') ->
  msg = "wrong request method " ++ strconv_Quote (Method r) ++ " instead of POST"
  \/ msg = "wrong Content-Type header, got " ++ Header_Get (Header r) "Content-Type"
           ++ " != want application/x-www-form-urlencoded"
  \/ In msg ["cannot fetch travis public key"; "cannot decode travis public key";
             "invalid public key"; "missing Signature header";
             "cannot decode signature"; "unauthorized payload";
             "cannot decode payload"].
Proof.
  destruct (request_checks r) as [Hm | [[Hm Hct] | [Hm Hct]]].
  - rewrite (GetPayloadFromRequest_wrong_method r w Hm). intros [= <- _]. now left.
  - rewrite (GetPayloadFromRequest_wrong_type r w Hm Hct). intros [= <- _]. right. now left.
  - rewrite (GetPayloadFromRequest_POST r w Hm Hct). intros H. right. right.
    destruct (travisPublicKey w) as [[key | m | m] w1] eqn:Hkey; try discriminate.
    + destruct (parsePayloadSignature r) as [sig | m | m] eqn:Hsig; try discriminate.
      * destruct (rsa_VerifyPKCS1v15_SHA1 _ _ _).
        -- destruct (_ ≫= Payload_of_value); [discriminate |].
           injection H as <- _. simpl. tauto.
        -- injection H as <- _. simpl. tauto.
      * injection H as <- _.
        destruct (parsePayloadSignature_errors r m Hsig) as [-> | ->]; simpl; tauto.
    + injection H as <- _.
      pose proof (travisPublicKey_errors w m w1 Hkey) as Hin. simpl in Hin |- *. tauto.
Qed.

(** X11.  [GetPayloadFromRequest] panics in two cases and no other: on a
    nil request, and when a request with the right method and content
    type arrives on an empty cache and the provider serves, in a PEM
    block labelled PUBLIC KEY, a PKIX key that is not an RSA key. *)
Theorem GetPayloadFromRequest_panics_iff r w :
  is_Panic (fst (GetPayloadFromRequest r w)) = true <->
  r = None
  \/ exists req body t block publicKey,
       r = Some req
       /\ Method req = "POST"
       /\ Header_Get (Header req) "Content-Type" = "application/x-www-form-urlencoded"
       /\ travisPubKey w = None
       /\ http_Get (List.length (sent w)) configURL = Some body
       /\ json_Decoder_Decode body configKey_type (zeroValue configKey_type) = Some t
       /\ pem_Decode (PublicKeyOf t) = Some block
       /\ pem_Type block = "PUBLIC KEY"
       /\ x509_ParsePKIXPublicKey (pem_Bytes block) = Some publicKey
       /\ forall k, publicKey <> RSAKey k.
Proof.
  destruct r as [req |]; [| split; [now left | reflexivity]].
  split.
  - intros Hpanic. right.
    destruct (request_checks req) as [Hm | [[Hm Hct] | [Hm Hct]]].
    + rewrite (GetPayloadFromRequest_wrong_method req w Hm) in Hpanic. discriminate.
    + rewrite (GetPayloadFromRequest_wrong_type req w Hm Hct) in Hpanic. discriminate.
    + rewrite (GetPayloadFromRequest_POST req w Hm Hct) in Hpanic.
      assert (Hkey : is_Panic (fst (travisPublicKey w)) = true).
      { destruct (travisPublicKey w) as [[key | m | m] w1]; try reflexivity.
        - destruct (parsePayloadSignature req) as [sig | m | m] eqn:Hsig.
          + destruct (rsa_VerifyPKCS1v15_SHA1 _ _ _); [| discriminate].
            destruct (_ ≫= Payload_of_value); discriminate.
          + discriminate.
          + now destruct (parsePayloadSignature_not_Panic req m).
        - discriminate. }
      unfold travisPublicKey in Hkey.
      destruct (travisPubKey w); [discriminate |].
      destruct (http_Get _ _) as [body |] eqn:Hget; [| discriminate].
      destruct (json_Decoder_Decode body _ _) as [t |] eqn:Hdec; [| discriminate].
      assert (Hp : is_Panic (parsePublicKey (PublicKeyOf t)) = true)
        by (destruct (parsePublicKey (PublicKeyOf t)); try discriminate; reflexivity).
      apply parsePublicKey_panics_iff in Hp as (block & publicKey & Hpem & Ht & Hx & Hrsa).
      exists req, body, t, block, publicKey. repeat split; try assumption; reflexivity.
  - intros [H | (req' & body & t & block & publicKey & [= <-] & Hm & Hct & Hnone & Hget
                 & Hdec & Hpem & Ht & Hx & Hrsa)]; [discriminate |].
    rewrite (GetPayloadFromRequest_POST req w Hm Hct).
    unfold travisPublicKey. rewrite Hnone, Hget, Hdec.
    assert (Hp : is_Panic (parsePublicKey (PublicKeyOf t)) = true).
    { apply parsePublicKey_panics_iff. now exists block, publicKey. }
    destruct (parsePublicKey (PublicKeyOf t)); try discriminate. reflexivity.
Qed.

(** X12.  No payload without a verified signature.  When
    [GetPayloadFromRequest] returns a payload, the request is a POST with
    the form content type, its Signature header is standard base64, and
    RSA PKCS #1 v1.5 verification with SHA-1 of the decoded signature
    against the SHA-1 digest of the bytes of the payload field has
    succeeded under the key that is in the cache when the function
    returns. *)
Theorem GetPayloadFromRequest_accepts_only_verified r w p w' :
  GetPayloadFromRequest r w = (Ok p, w') ->
  exists req key signature,
    r = Some req
    /\ Method req = "POST"
    /\ Header_Get (Header req) "Content-Type" = "application/x-www-form-urlencoded"
    /\ travisPublicKey w = (Ok key, w')
    /\ travisPubKey w' = Some key
    /\ Header_Get (Header req) "Signature" <> ""
    /\ base64_DecodeString (Header_Get (Header req) "Signature") = Some signature
    /\ rsa_VerifyPKCS1v15_SHA1 key
         (sha1_Sum (list_byte_of_string (FormValue req "payload"))) signature = true.
Proof.
  destruct r as [req |]; [| discriminate].
  destruct (request_checks req) as [Hm | [[Hm Hct] | [Hm Hct]]].
  - rewrite (GetPayloadFromRequest_wrong_method req w Hm). discriminate.
  - rewrite (GetPayloadFromRequest_wrong_type req w Hm Hct). discriminate.
  - rewrite (GetPayloadFromRequest_POST req w Hm Hct).
    destruct (travisPublicKey w) as [[key | m | m] w1] eqn:Hkey; try discriminate.
    unfold parsePayloadSignature, payloadDigest.
    destruct (String.eqb_spec (Header_Get (Header req) "Signature") "") as [| Hne];
      [discriminate |].
    destruct (base64_DecodeString _) as [signature |] eqn:Hsig; [| discriminate].
    destruct (rsa_VerifyPKCS1v15_SHA1 _ _ _) eqn:Hver; [| discriminate].
    destruct (_ ≫= Payload_of_value); [| discriminate].
    intros [= <- <-]. exists req, key, signature.
    repeat split; try assumption. exact (travisPublicKey_Ok_cache w key w1 Hkey).
Qed.

(** [json.Unmarshal] accepts less than a decoder: what it decodes, the
    decoder decodes to the same value. *)
Lemma Unmarshal_Decode data T cur v :
  json_Unmarshal data T cur = Some v -> json_Decoder_Decode data T cur = Some v.
Proof.
  unfold json_Unmarshal, json_Decoder_Decode.
  destruct (json_scan data) as [[j rest] |]; cbn [mbind option_bind]; [| discriminate].
  now destruct (forallb json_isSpace (list_ascii_of_string rest)).
Qed.

(** X13.  The two entry points agree: the payload [GetPayloadFromRequest]
    returns for a request is the payload [GetPayload] returns for the text
    of its payload field. *)
Theorem GetPayloadFromRequest_decodes_as_GetPayload req w p w' :
  GetPayloadFromRequest (Some req) w = (Ok p, w') ->
  GetPayload (Some (FormValue req "payload")) = Ok p.
Proof.
  destruct (request_checks req) as [Hm | [[Hm Hct] | [Hm Hct]]].
  - rewrite (GetPayloadFromRequest_wrong_method req w Hm). discriminate.
  - rewrite (GetPayloadFromRequest_wrong_type req w Hm Hct). discriminate.
  - rewrite (GetPayloadFromRequest_POST req w Hm Hct).
    destruct (travisPublicKey w) as [[key | m | m] w1]; try discriminate.
    destruct (parsePayloadSignature req) as [sig | m | m]; try discriminate.
    destruct (rsa_VerifyPKCS1v15_SHA1 _ _ _); [| discriminate].
    destruct (json_Unmarshal _ _ _) as [x |] eqn:Hu; cbn [mbind option_bind];
      [| discriminate].
    destruct (Payload_of_value x) as [q |] eqn:Hq; [| discriminate].
    intros [= <- _]. unfold GetPayload.
    rewrite (Unmarshal_Decode _ _ _ _ Hu). cbn [mbind option_bind]. now rewrite Hq.
Qed.

(** X14.  Once a key is cached, the outcome of a request depends on the
    request and on that key only, and the process is left as it is: a call
    that leaves a key in the cache returns what every later call with the
    same request returns.  A request that was accepted is accepted again
    (nothing tells a replayed request from the first one), and the key is
    never fetched again. *)
Theorem GetPayloadFromRequest_replay r w res w' :
  GetPayloadFromRequest r w = (res, w') ->
  travisPubKey w' <> None ->
  forall w2, travisPubKey w2 = travisPubKey w' ->
             GetPayloadFromRequest r w2 = (res, w2).
Proof.
  intros Hcall Hset w2 Hsame.
  destruct r as [req |]; [| now injection Hcall as <- _].
  destruct (request_checks req) as [Hm | [[Hm Hct] | [Hm Hct]]].
  - rewrite (GetPayloadFromRequest_wrong_method req w Hm) in Hcall.
    rewrite (GetPayloadFromRequest_wrong_method req w2 Hm). now injection Hcall as <- _.
  - rewrite (GetPayloadFromRequest_wrong_type req w Hm Hct) in Hcall.
    rewrite (GetPayloadFromRequest_wrong_type req w2 Hm Hct). now injection Hcall as <- _.
  - rewrite (GetPayloadFromRequest_POST req w Hm Hct) in Hcall.
    rewrite (GetPayloadFromRequest_POST req w2 Hm Hct).
    destruct (travisPublicKey w) as [kres w1] eqn:Hkey.
    assert (Hw1 : w1 = w').
    { destruct kres; [| now injection Hcall | now injection Hcall].
      destruct (parsePayloadSignature req); [| now injection Hcall | now injection Hcall].
      destruct (rsa_VerifyPKCS1v15_SHA1 _ _ _); [| now injection Hcall].
      destruct (_ ≫= Payload_of_value); now injection Hcall. }
    subst w1.
    destruct (travisPubKey w') as [k |] eqn:Hc; [| now destruct Hset].
    assert (Hk : kres = Ok k).
    { destruct (travisPubKey w) as [k0 |] eqn:Hc0.
      - rewrite (travisPublicKey_cached w k0 Hc0) in Hkey. injection Hkey as <- <-.
        congruence.
      - destruct (travisPublicKey_miss w kres w' Hc0 Hkey) as [_ Hres].
        destruct kres; congruence. }
    subst kres. rewrite (travisPublicKey_cached w2 k Hsame).
    destruct (parsePayloadSignature req);
      [| injection Hcall; intros; now subst ..].
    destruct (rsa_VerifyPKCS1v15_SHA1 _ _ _); [| injection Hcall; intros; now subst].
    destruct (_ ≫= Payload_of_value); injection Hcall; intros; now subst.
Qed.

(** X15.  A request without a payload field, or with an empty one, is
    never accepted: [FormValue] gives the empty string, whose digest is
    verified like any other, and the empty string is no JSON text. *)
Theorem GetPayloadFromRequest_without_payload r w :
  json_scan "" = None ->
  FormValue r "payload" = "" ->
  is_Ok (fst (GetPayloadFromRequest (Some r) w)) = false
  /\ forall w0 key signature,
       Method r = "POST" ->
       Header_Get (Header r) "Content-Type" = "application/x-www-form-urlencoded" ->
       travisPublicKey w = (Ok key, w0) ->
       parsePayloadSignature r = Ok signature ->
       GetPayloadFromRequest (Some r) w
       = (Err (if rsa_VerifyPKCS1v15_SHA1 key (sha1_Sum []) signature
               then "cannot decode payload" else "unauthorized payload"), w0).
Proof.
  intros Hscan Hform.
  assert (Hu : json_Unmarshal "" Payload_type (reflect_Payload Payload_zero) = None)
    by (unfold json_Unmarshal; now rewrite Hscan).
  split.
  - destruct (request_checks r) as [Hm | [[Hm Hct] | [Hm Hct]]].
    + now rewrite (GetPayloadFromRequest_wrong_method r w Hm).
    + now rewrite (GetPayloadFromRequest_wrong_type r w Hm Hct).
    + rewrite (GetPayloadFromRequest_POST r w Hm Hct), Hform, Hu.
      destruct (travisPublicKey w) as [[key | m | m] w1]; try reflexivity.
      destruct (parsePayloadSignature r); try reflexivity.
      now destruct (rsa_VerifyPKCS1v15_SHA1 _ _ _).
  - intros w0 key signature Hm Hct Hkey Hsig.
    rewrite (GetPayloadFromRequest_POST r w Hm Hct), Hkey, Hsig, Hform, Hu.
    unfold payloadDigest. cbn [list_byte_of_string].
    now destruct (rsa_VerifyPKCS1v15_SHA1 _ _ _).
Qed.

(** X16.  Of a request, [GetPayloadFromRequest] reads the method, the
    first value of the Content-Type header, the first value of the
    Signature header and the first value of the form field [payload], and
    nothing else: two requests that agree on these four get the same
    outcome.  The signature covers the payload field only; other headers
    and other form fields are neither verified nor refused. *)
Theorem GetPayloadFromRequest_reads_four_parts r1 r2 w :
  Method r1 = Method r2 ->
  Header_Get (Header r1) "Content-Type" = Header_Get (Header r2) "Content-Type" ->
  Header_Get (Header r1) "Signature" = Header_Get (Header r2) "Signature" ->
  FormValue r1 "payload" = FormValue r2 "payload" ->
  GetPayloadFromRequest (Some r1) w = GetPayloadFromRequest (Some r2) w.
Proof.
  intros Hm Hct Hsig Hform. unfold GetPayloadFromRequest, parsePayloadSignature.
  now rewrite Hm, Hct, Hsig, Hform.
Qed.

End RequestFacts.

(** ** More on concurrent calls *)

Section SettledCalls.
Context `{RT : Runtime}.

Lemma step_settled key g m :
  travisPubKey (shared m) = Some key ->
  Forall (settled key) (calls m) ->
  shared (step g m) = shared m
  /\ stores (step g m) = stores m
  /\ Forall (settled key) (calls (step g m)).
Proof.
  intros Hc Hall. unfold step.
  destruct (calls m !! g) as [stage |] eqn:Hg; [| now repeat split].
  pose proof (proj1 (Forall_lookup _ _) Hall g stage Hg) as Hs.
  destruct stage as [| | | k | | res]; simpl in Hs; try contradiction;
    cbn [shared stores calls]; rewrite ?Hc;
    repeat split; try assumption;
    apply Forall_insert; try assumption; simpl; trivial.
Qed.

Lemma run_settled key schedule m :
  travisPubKey (shared m) = Some key ->
  Forall (settled key) (calls m) ->
  shared (run schedule m) = shared m
  /\ stores (run schedule m) = stores m
  /\ Forall (settled key) (calls (run schedule m)).
Proof.
  unfold run. revert m. induction schedule as [| g schedule IH]; intros m Hc Hall;
    cbn [foldl]; [now repeat split |].
  destruct (step_settled key g m Hc Hall) as (Hsh & Hst & Hall').
  destruct (IH (step g m)) as (Hsh2 & Hst2 & Hall2); [now rewrite Hsh | assumption |].
  repeat split; [now rewrite Hsh2 | now rewrite Hst2 | assumption].
Qed.

Lemma settled_no_race key m : Forall (settled key) (calls m) -> ~ dataRace m.
Proof.
  intros Hall (g1 & g2 & s1 & s2 & _ & H1 & _ & Hw & _).
  pose proof (proj1 (Forall_lookup _ _) Hall g1 s1 H1) as Hs.
  destruct s1; simpl in Hw, Hs; try discriminate. contradiction.
Qed.

Lemma settled_returned key m g res :
  Forall (settled key) (calls m) -> calls m !! g = Some (Returned res) ->
  res = Ok (Some key).
Proof. intros Hall Hg. exact (proj1 (Forall_lookup _ _) Hall g _ Hg). Qed.

(** X17.  Calls that start when the key is cached only read it.  However
    their steps interleave, the state of the process stays as it is (no
    request is sent), [travisPubKey] is never assigned, no two accesses
    race, every call that has returned has returned the cached key, and
    the calls have all returned once each has been scheduled four times. *)
Theorem concurrent_calls_on_cached_key n w key schedule :
  travisPubKey w = Some key ->
  let m := run schedule (start n w) in
  shared m = w
  /\ stores m = 0%nat
  /\ ~ dataRace m
  /\ (forall g res, calls m !! g = Some (Returned res) -> res = Ok (Some key))
  /\ ((forall g, (g < n)%nat -> (4 <= count_occ Nat.eq_dec schedule g)%nat) ->
      finished m).
Proof.
  intros Hc. cbv zeta.
  assert (Hall : Forall (settled key) (calls (start n w))).
  { apply Forall_lookup. intros g s Hl. apply lookup_replicate in Hl as [-> _]. exact I. }
  destruct (run_settled key schedule (start n w) Hc Hall) as (Hsh & Hst & Hall').
  split; [exact Hsh |]. split; [exact Hst |].
  split; [exact (settled_no_race key _ Hall') |].
  split; [intros g res; exact (settled_returned key _ g res Hall') |].
  intros Hfair. apply fair_finished. intros g Hg. apply Hfair.
  simpl in Hg. now rewrite length_replicate in Hg.
Qed.


End SettledCalls.

(** *** Any endpoint *)

Section AnyEndpoint.
Context `{RT : Runtime}.

Lemma stageSafe_cache w w' s :
  (travisPubKey w <> None -> travisPubKey w' <> None) ->
  stageSafe w s -> stageSafe w' s.
Proof. intros Hmono. destruct s as [| | | k | | [k | msg | msg]]; simpl; auto. Qed.

Lemma afterGet_stage i :
  (exists key, afterGet i = AtStore key)
  \/ (exists msg, afterGet i = Returned (Err msg))
  \/ (exists msg, afterGet i = Returned (Panic msg)).
Proof.
  unfold afterGet. destruct (http_Get i configURL) as [body |]; [| right; left; eauto].
  destruct (json_Decoder_Decode body _ _) as [t |]; [| right; left; eauto].
  destruct (parsePublicKey (PublicKeyOf t)); eauto.
Qed.

(** What every step keeps, whatever the endpoint answers. *)
Lemma step_safe n (sent0 : list string) g m :
  List.length (calls m) = n
  /\ (forall g s, calls m !! g = Some s -> stageSafe (shared m) s)
  /\ (stores m <= countIf pastStore (calls m))%nat
  /\ (List.length (sent (shared m)) <= List.length sent0 + countIf pastGet (calls m))%nat ->
  List.length (calls (step g m)) = n
  /\ (forall g' s, calls (step g m) !! g' = Some s -> stageSafe (shared (step g m)) s)
  /\ (stores (step g m) <= countIf pastStore (calls (step g m)))%nat
  /\ (List.length (sent (shared (step g m)))
      <= List.length sent0 + countIf pastGet (calls (step g m)))%nat
  /\ (travisPubKey (shared m) <> None -> travisPubKey (shared (step g m)) <> None).
Proof.
  intros (Hlen & Hst & Hstores & Hsent). unfold step.
  destruct (calls m !! g) as [stage |] eqn:Hg; [| now repeat split].
  pose proof (Hst g stage Hg) as Hok.
  assert (Hothers : forall w' new,
             (travisPubKey (shared m) <> None -> travisPubKey w' <> None) ->
             stageSafe w' new ->
             forall g' s, <[g := new]> (calls m) !! g' = Some s -> stageSafe w' s).
  { intros w' new Hmono Hnew g' s Hl.
    apply list_lookup_insert_Some in Hl as [(-> & -> & _) | (Hne & Hl)];
      [exact Hnew | exact (stageSafe_cache _ _ s Hmono (Hst g' s Hl))]. }
  assert (Hkeep : forall w', travisPubKey w' = travisPubKey (shared m) ->
                            travisPubKey (shared m) <> None -> travisPubKey w' <> None)
    by (intros w' ->; trivial).
  destruct stage as [| | | k | | res]; simpl in Hok.
  - (* AtCheck *)
    set (new := match travisPubKey (shared m) with
                | Some _ => AtReturnCached
                | None => AtGet
                end).
    assert (Hnew : pastStore new = false /\ pastGet new = false
                   /\ stageSafe (shared m) new).
    { subst new. destruct (travisPubKey (shared m)) eqn:Hc; simpl; rewrite ?Hc;
        repeat split; try discriminate. }
    destruct Hnew as (Hp1 & Hp2 & Hsafe).
    pose proof (countIf_insert pastStore _ g _ new Hg) as C1.
    pose proof (countIf_insert pastGet _ g _ new Hg) as C2.
    rewrite Hp1 in C1. rewrite Hp2 in C2. simpl in C1, C2.
    cbn [shared stores calls]. rewrite length_insert.
    split; [assumption |]. split; [apply Hothers; [tauto | exact Hsafe] |].
    split; [lia |]. split; [lia | tauto].
  - (* AtReturnCached *)
    pose proof (countIf_insert pastStore _ g _ (Returned (Ok (travisPubKey (shared m)))) Hg) as C1.
    pose proof (countIf_insert pastGet _ g _ (Returned (Ok (travisPubKey (shared m)))) Hg) as C2.
    simpl in C1, C2.
    cbn [shared stores calls]. rewrite length_insert.
    split; [assumption |]. split; [apply Hothers; [tauto | exact Hok] |].
    split; [lia |]. split; [lia | tauto].
  - (* AtGet *)
    set (new := afterGet (List.length (sent (shared m)))).
    assert (Hnew : pastGet new = true /\ forall w', stageSafe w' new).
    { subst new.
      destruct (afterGet_stage (List.length (sent (shared m))))
        as [[key ->] | [[msg ->] | [msg ->]]]; split; try reflexivity; intros w'; exact I. }
    destruct Hnew as [Hpast Hsafe].
    pose proof (countIf_insert pastStore _ g _ new Hg) as C1.
    pose proof (countIf_insert pastGet _ g _ new Hg) as C2.
    rewrite Hpast in C2. simpl in C1, C2.
    cbn [shared stores calls travisPubKey sent]. rewrite length_insert, List.length_app.
    cbn [List.length].
    split; [assumption |]. split; [apply Hothers; [simpl; tauto | apply Hsafe] |].
    split; [destruct (pastStore new); lia |]. split; [lia | tauto].
  - (* AtStore *)
    pose proof (countIf_insert pastStore _ g _ AtReturnStored Hg) as C1.
    pose proof (countIf_insert pastGet _ g _ AtReturnStored Hg) as C2.
    simpl in C1, C2.
    cbn [shared stores calls travisPubKey sent]. rewrite length_insert.
    split; [assumption |].
    split; [apply Hothers; [simpl; discriminate | simpl; discriminate] |].
    split; [lia |]. split; [lia | discriminate].
  - (* AtReturnStored *)
    pose proof (countIf_insert pastStore _ g _ (Returned (Ok (travisPubKey (shared m)))) Hg) as C1.
    pose proof (countIf_insert pastGet _ g _ (Returned (Ok (travisPubKey (shared m)))) Hg) as C2.
    simpl in C1, C2.
    cbn [shared stores calls]. rewrite length_insert.
    split; [assumption |]. split; [apply Hothers; [tauto | exact Hok] |].
    split; [lia |]. split; [lia | tauto].
  - (* Returned *)
    now repeat split.
Qed.

Lemma run_safe n (sent0 : list string) schedule m :
  List.length (calls m) = n
  /\ (forall g s, calls m !! g = Some s -> stageSafe (shared m) s)
  /\ (stores m <= countIf pastStore (calls m))%nat
  /\ (List.length (sent (shared m)) <= List.length sent0 + countIf pastGet (calls m))%nat ->
  List.length (calls (run schedule m)) = n
  /\ (forall g s, calls (run schedule m) !! g = Some s ->
        stageSafe (shared (run schedule m)) s)
  /\ (stores (run schedule m) <= countIf pastStore (calls (run schedule m)))%nat
  /\ (List.length (sent (shared (run schedule m)))
      <= List.length sent0 + countIf pastGet (calls (run schedule m)))%nat
  /\ (travisPubKey (shared m) <> None -> travisPubKey (shared (run schedule m)) <> None).
Proof.
  unfold run. revert m. induction schedule as [| g schedule IH]; intros m Hm; cbn [foldl].
  - destruct Hm as (? & ? & ? & ?). now repeat split.
  - destruct (step_safe n sent0 g m Hm) as (H1 & H2 & H3 & H4 & H5).
    destruct (IH (step g m) (conj H1 (conj H2 (conj H3 H4)))) as (I1 & I2 & I3 & I4 & I5).
    repeat split; try assumption. intros Hc. exact (I5 (H5 Hc)).
Qed.

Lemma start_safe n w :
  List.length (calls (start n w)) = n
  /\ (forall g s, calls (start n w) !! g = Some s -> stageSafe (shared (start n w)) s)
  /\ (stores (start n w) <= countIf pastStore (calls (start n w)))%nat
  /\ (List.length (sent (shared (start n w)))
      <= List.length (sent w) + countIf pastGet (calls (start n w)))%nat.
Proof.
  repeat split; simpl.
  - apply length_replicate.
  - intros g s Hl. apply lookup_replicate in Hl as [-> _]. exact I.
  - lia.
  - lia.
Qed.

(** X20.  Whatever the endpoint answers, and however the steps of [n]
    concurrent calls interleave: a call that returns without an error
    returns a key, never nil (the caller hands the key to the
    verification); [travisPubKey] is assigned at most [n] times; at most
    [n] requests are sent; and once the cache holds a key it holds one
    for ever after. *)
Theorem concurrent_calls_return_a_key n w schedule later :
  let m := run schedule (start n w) in
  (forall g k, calls m !! g = Some (Returned (Ok k)) -> k <> None)
  /\ (stores m <= n)%nat
  /\ (List.length (sent (shared m)) <= List.length (sent w) + n)%nat
  /\ (travisPubKey (shared m) <> None ->
      travisPubKey (shared (run (schedule ++ later) (start n w))) <> None).
Proof.
  cbv zeta.
  destruct (run_safe n (sent w) schedule _ (start_safe n w)) as (Hlen & Hst & Hstores & Hsent & _).
  split; [| split; [| split]].
  - intros g k Hg. exact (Hst g _ Hg).
  - pose proof (countIf_le pastStore (calls (run schedule (start n w)))). lia.
  - pose proof (countIf_le pastGet (calls (run schedule (start n w)))). lia.
  - intros Hc. unfold run in *. rewrite foldl_app.
    destruct (run_safe n (sent w) later _ (conj Hlen (conj Hst (conj Hstores Hsent))))
      as (_ & _ & _ & _ & Hmono).
    exact (Hmono Hc).
Qed.

(** *** Calls one after the other *)

Lemma four_steps g m :
  calls m !! g = Some AtCheck ->
  shared (run [g; g; g; g] m) = snd (travisPublicKey (shared m))
  /\ calls (run [g; g; g; g] m)
     = <[g := returned (fst (travisPublicKey (shared m)))]> (calls m).
Proof.
  intros Hg.
  assert (Hlt : (g < List.length (calls m))%nat) by (eapply lookup_lt_Some; eassumption).
  unfold run. cbn [foldl]. rewrite (step_check g m Hg).
  unfold travisPublicKey.
  destruct (travisPubKey (shared m)) as [k |] eqn:Hc.
  - rewrite (step_return_cached g (mkMachine _ _ _))
      by (cbn [calls]; now apply list_lookup_insert_eq).
    cbn [shared stores calls]. rewrite list_insert_insert_eq, ?Hc.
    rewrite !(step_returned g (mkMachine _ _ _) (Ok (Some k)))
      by (cbn [calls]; now apply list_lookup_insert_eq).
    split; reflexivity.
  - rewrite (step_get g (mkMachine _ _ _))
      by (cbn [calls]; now apply list_lookup_insert_eq).
    cbn [shared stores calls travisPubKey sent]. rewrite list_insert_insert_eq.
    unfold afterGet.
    destruct (http_Get (List.length (sent (shared m))) configURL) as [body |].
    + destruct (json_Decoder_Decode body configKey_type (zeroValue configKey_type)) as [t |].
      * destruct (parsePublicKey (PublicKeyOf t)) as [k | msg | msg].
        -- rewrite (step_store g (mkMachine _ _ _) k)
             by (cbn [calls]; now apply list_lookup_insert_eq).
           cbn [shared stores calls travisPubKey sent]. rewrite list_insert_insert_eq.
           rewrite (step_return_stored g (mkMachine _ _ _))
             by (cbn [calls]; now apply list_lookup_insert_eq).
           cbn [shared stores calls travisPubKey sent]. rewrite list_insert_insert_eq.
           rewrite ?Hc. split; reflexivity.
        -- rewrite !(step_returned g (mkMachine _ _ _) (@Err (option rsa_PublicKey) msg))
             by (cbn [calls]; now apply list_lookup_insert_eq).
           rewrite ?Hc. split; reflexivity.
        -- rewrite !(step_returned g (mkMachine _ _ _) (@Panic (option rsa_PublicKey) msg))
             by (cbn [calls]; now apply list_lookup_insert_eq).
           rewrite ?Hc. split; reflexivity.
      * rewrite !(step_returned g (mkMachine _ _ _)
                    (@Err (option rsa_PublicKey) "cannot decode travis public key"))
          by (cbn [calls]; now apply list_lookup_insert_eq).
        rewrite ?Hc. split; reflexivity.
    + rewrite !(step_returned g (mkMachine _ _ _)
                  (@Err (option rsa_PublicKey) "cannot fetch travis public key"))
        by (cbn [calls]; now apply list_lookup_insert_eq).
      rewrite ?Hc. split; reflexivity.
Qed.

Lemma callsInARow_length n w : List.length (fst (callsInARow n w)) = n.
Proof.
  revert w. induction n as [| n IH]; intros w; [reflexivity |].
  cbn [callsInARow]. destruct (travisPublicKey w) as [res w1].
  specialize (IH w1). destruct (callsInARow n w1) as [rest w2]. simpl in *. now rewrite IH.
Qed.

Lemma serial_run k : forall a m,
  (forall g, (a <= g < a + k)%nat -> calls m !! g = Some AtCheck) ->
  let m' := run (flat_map (fun g => [g; g; g; g]) (seq a k)) m in
  shared m' = snd (callsInARow k (shared m))
  /\ (forall i res, fst (callsInARow k (shared m)) !! i = Some res ->
        calls m' !! (a + i)%nat = Some (returned res))
  /\ (forall g, (g < a \/ a + k <= g)%nat -> calls m' !! g = calls m !! g).
Proof.
  induction k as [| k IH]; intros a m Hcheck; cbv zeta.
  - cbn. split; [reflexivity |]. split; [intros i res H; discriminate | reflexivity].
  - cbn [seq flat_map]. unfold run. rewrite foldl_app. fold (run [a; a; a; a] m).
    destruct (four_steps a m (Hcheck a ltac:(lia))) as [Hsh Hcalls].
    set (m1 := run [a; a; a; a] m) in *.
    assert (Hcheck1 : forall g, (S a <= g < S a + k)%nat -> calls m1 !! g = Some AtCheck).
    { intros g Hg. rewrite Hcalls, list_lookup_insert_ne by lia. apply Hcheck. lia. }
    destruct (IH (S a) m1 Hcheck1) as (Hsh' & Hres' & Hout'). unfold run in *.
    cbn [callsInARow]. rewrite Hsh in *.
    destruct (travisPublicKey (shared m)) as [res w1]. cbn [fst snd] in *.
    destruct (callsInARow k w1) as [rest w2]. cbn [fst snd] in *.
    split; [exact Hsh' |]. split.
    + intros [| i] r Hr; simpl in Hr.
      * injection Hr as <-. rewrite Nat.add_0_r, Hout' by lia.
        rewrite Hcalls. apply list_lookup_insert_eq.
        eapply lookup_lt_Some. apply (Hcheck a). lia.
      * replace (a + S i)%nat with (S a + i)%nat by lia. exact (Hres' i r Hr).
    + intros g Hg. rewrite Hout' by lia. rewrite Hcalls.
      apply list_lookup_insert_ne. lia.
Qed.

(** X21.  Calls that run one after the other, each taking its four
    steps before the next one starts, are calls in a row: they leave the
    state that [n] sequential calls of [travisPublicKey] leave, and they
    return what these calls return. *)
Theorem serialized_calls_are_calls_in_a_row n w :
  let m := run (flat_map (fun g => [g; g; g; g]) (seq 0 n)) (start n w) in
  shared m = snd (callsInARow n w)
  /\ calls m = List.map returned (fst (callsInARow n w)).
Proof.
  cbv zeta.
  destruct (serial_run n 0%nat (start n w)) as (Hsh & Hres & _).
  { intros g Hg. simpl. apply lookup_replicate. split; [reflexivity | lia]. }
  split; [exact Hsh |].
  apply list_eq. intros i. rewrite list_lookup_fmap.
  destruct (fst (callsInARow n (shared (start n w))) !! i) as [res |] eqn:Hi.
  - simpl in Hi. change (fst (callsInARow n w) !! i = Some res) in Hi.
    rewrite Hi. exact (Hres i res Hi).
  - simpl in Hi. change (fst (callsInARow n w) !! i = None) in Hi. rewrite Hi. simpl.
    apply lookup_ge_None. apply lookup_ge_None in Hi.
    rewrite callsInARow_length in Hi. rewrite run_length. simpl.
    now rewrite length_replicate.
Qed.

End AnyEndpoint.

(** ** The package at work on the standard runtime *)

(** The Ed25519 key of RFC 8410, in a block labelled PUBLIC KEY, makes
    [parsePublicKey] panic. *)
Lemma parsePublicKey_Ed25519_panics :
  @parsePublicKey Example.unreachable Example.ed25519PEM
  = Panic "interface conversion: interface {} is ed25519.PublicKey, not *rsa.PublicKey"
  /\ @parsePublicKey Example.unreachable Example.ed25519PEM
     <> Err "invalid public key".
Proof.
  apply (@parsePublicKey_non_RSA_panics Example.unreachable Example.ed25519PEM
           Example.ed25519Block Example.ed25519Key).
  - vm_compute. reflexivity.
  - reflexivity.
  - vm_compute. reflexivity.
  - intros k H. discriminate H.
Defined.





(** The request of the examples sent with GET, and sent as JSON: both are
    turned away, and nothing has been fetched. *)
Lemma GetPayloadFromRequest_GET_and_JSON :
  @GetPayloadFromRequest Example.served (Some Example.getRequest) Example.fresh
  = (Err (Std.dq "wrong request method 'GET' instead of POST"), Example.fresh)
  /\ @GetPayloadFromRequest Example.served (Some Example.jsonRequest) Example.fresh
     = (Err "wrong Content-Type header, got application/json != want application/x-www-form-urlencoded",
        Example.fresh).
Proof.
  split.
  - apply (proj1 (@GetPayloadFromRequest_rejects_early Example.served
                    Example.getRequest Example.fresh)).
    discriminate.
  - apply (proj2 (@GetPayloadFromRequest_rejects_early Example.served
                    Example.jsonRequest Example.fresh)).
    + reflexivity.
    + vm_compute. discriminate.
Defined.

(** C8, the claim as stated fails: on a request without a Signature
    header the error is "missing Signature header", not "missing
    header". *)
Lemma parsePayloadSignature_missing_message :
  @parsePayloadSignature Example.served Example.unsignedRequest
  = Err "missing Signature header"
  /\ @parsePayloadSignature Example.served Example.unsignedRequest
     <> Err "missing header".
Proof. split; [vm_compute; reflexivity | vm_compute; discriminate]. Defined.

(** Signature extraction on a request without the header, on a header
    that is not base64, and on the signed request of the examples. *)
Lemma parsePayloadSignature_examples :
  @parsePayloadSignature Example.served Example.unsignedRequest
  = Err "missing Signature header"
  /\ @parsePayloadSignature Example.served
       {| Method := "POST"; Header := {[ "Signature" := ["not base64!"] ]};
          Form := ∅ |}
     = Err "cannot decode signature"
  /\ @parsePayloadSignature Example.served Example.signedRequest
     = Ok Example.signatureBytes.
Proof.
  split; [| split].
  - apply (@parsePayloadSignature_outcomes Example.served Example.unsignedRequest).
    vm_compute. reflexivity.
  - apply (@parsePayloadSignature_outcomes Example.served
             {| Method := "POST"; Header := {[ "Signature" := ["not base64!"] ]};
                Form := ∅ |}).
    + vm_compute. discriminate.
    + vm_compute. reflexivity.
  - apply (@parsePayloadSignature_outcomes Example.served Example.signedRequest).
    + vm_compute. discriminate.
    + vm_compute. reflexivity.
Defined.

(** The signed request of the examples with one byte of its payload
    changed is unauthorized. *)
Lemma tampered_payload_unauthorized :
  @GetPayloadFromRequest Example.served (Some Example.tamperedRequest) Example.fresh
  = (Err "unauthorized payload",
     {| travisPubKey := Some Example.rsaKey; sent := [configURL] |}).
Proof.
  apply (@GetPayloadFromRequest_unauthorized Example.served Example.tamperedRequest
           Example.fresh Example.rsaKey _ Example.signatureBytes).
  - reflexivity.
  - vm_compute. reflexivity.
  - vm_compute. reflexivity.
  - vm_compute. reflexivity.
  - vm_compute. reflexivity.
Defined.

(** The signed request itself is accepted, and gives the notification. *)
Example signed_request_accepted :
  @GetPayloadFromRequest Example.served (Some Example.signedRequest) Example.fresh
  = (Ok Example.payload,
     {| travisPubKey := Some Example.rsaKey; sent := [configURL] |}).
Proof. vm_compute. reflexivity. Qed.

(** C10, the claim as stated fails: two calls that start together on an
    empty cache, in front of an endpoint that serves the RSA key, assign
    the cache twice and send two requests; and before they assign, both
    stand at the assignment, which is a data race. *)
Lemma two_first_calls_store_twice :
  let m := @run Example.served [0; 1; 0; 1; 0; 1; 0; 1]%nat (start 2 Example.fresh) in
  (calls m = [Returned (Ok (Some Example.rsaKey)); Returned (Ok (Some Example.rsaKey))]
   /\ stores m = 2%nat
   /\ sent (shared m) = [configURL; configURL])
  /\ dataRace (@run Example.served [0; 1; 0; 1]%nat (start 2 Example.fresh)).
Proof.
  cbv zeta. split.
  - vm_compute. repeat split; reflexivity.
  - exists 0%nat, 1%nat, (AtStore Example.rsaKey), (AtStore Example.rsaKey).
    repeat split; try (vm_compute; reflexivity). discriminate.
Defined.

(** Two and three concurrent first calls in front of that endpoint. *)
Lemma concurrent_first_calls_examples :
  let m := @run Example.served [0; 1; 0; 1; 0; 1; 0; 1]%nat (start 2 Example.fresh) in
  (forall g res, calls m !! g = Some (Returned res) -> res = Ok (Some Example.rsaKey))
  /\ (travisPubKey (shared m) = None \/ travisPubKey (shared m) = Some Example.rsaKey)
  /\ (stores m <= 2)%nat
  /\ (List.length (sent (shared m)) <= List.length (sent Example.fresh) + 2)%nat
  /\ (finished m -> (1 <= 2)%nat ->
      (1 <= stores m)%nat /\ travisPubKey (shared m) = Some Example.rsaKey)
  /\ ((forall g, (g < 2)%nat ->
         (4 <= count_occ Nat.eq_dec [0; 1; 0; 1; 0; 1; 0; 1]%nat g)%nat) ->
      finished m)
  /\ ((2 <= 2)%nat ->
      dataRace (@run Example.served [0; 1; 0; 1]%nat (start 2 Example.fresh))
      /\ stores (@run Example.served [0; 1; 0; 1; 0; 1]%nat (start 2 Example.fresh)) = 2%nat).
Proof.
  apply (@concurrent_first_calls Example.served 2 Example.fresh Example.rsaKey).
  - reflexivity.
  - intros i. exists Example.configBody, Example.configValue.
    split; [reflexivity |]. split; vm_compute; reflexivity.
Defined.

(** *** Further runs *)

(** The first call in front of the endpoint of the examples fetches the
    key and stores it. *)
Lemma served_first_call :
  @travisPublicKey Example.served Example.fresh
  = (Ok Example.rsaKey, Example.warm).
Proof. vm_compute. reflexivity. Qed.

(** The streams [null] and [[1, 2]]. *)
Lemma GetPayload_null_and_array :
  @GetPayload Example.unreachable (Some "null") = Ok Payload_zero
  /\ @GetPayload Example.unreachable (Some "[1, 2]") = Err "cannot decode payload".
Proof.
  split.
  - apply (proj1 (@GetPayload_top_level_values Example.unreachable "null" JNull "" eq_refl)).
    now left.
  - apply (proj2 (@GetPayload_top_level_values Example.unreachable "[1, 2]"
                    (JArray [JNumber "1"; JNumber "2"]) "" eq_refl));
      [discriminate | intros members; discriminate].
Defined.

(** A notification with a [sender] and [labels], which [Payload] does not
    have, decodes as the notification without them. *)
Lemma GetPayload_unknown_members_example :
  @GetPayload Example.unreachable
    (Some (Std.dq "{'id':7,'sender':{'login':'x'},'state':'passed','labels':[1,2]}"))
  = @GetPayload Example.unreachable (Some (Std.dq "{'id':7,'state':'passed'}")).
Proof.
  apply (@GetPayload_skips_unknown_members Example.unreachable _ _
           [ ("id", JNumber "7"); ("sender", JObject [("login", JString "x")]);
             ("state", JString "passed");
             ("labels", JArray [JNumber "1"; JNumber "2"]) ] "" "").
  - vm_compute. reflexivity.
  - vm_compute. reflexivity.
Defined.

(** An [id] one past the largest int64 makes the notification fail to
    decode. *)
Lemma GetPayload_id_overflow :
  @GetPayload Example.unreachable
    (Some (Std.dq "{'number':'42','id':9223372036854775808}"))
  = Err "cannot decode payload".
Proof.
  apply (@GetPayload_rejects_ill_typed_member Example.unreachable _
           [("number", JString "42"); ("id", JNumber "9223372036854775808")] ""
           "id" (JNumber "9223372036854775808") 0%nat (mkField "id" true (TInt Int64))).
  - vm_compute. reflexivity.
  - right. now left.
  - vm_compute. reflexivity.
  - reflexivity.
  - intros cur. vm_compute. reflexivity.
Defined.

(** Of two [status_message] members the second is kept. *)
Lemma GetPayload_duplicate_member :
  exists p',
    @GetPayload Example.unreachable
      (Some (Std.dq "{'status_message':'Pending','status_message':'Passed'}"))
    = Ok p'
    /\ Payload_values p'
       = <[7%nat := VString "Passed"]> (Payload_values (Payload_literal "Pending" "" "")).
Proof.
  apply (@GetPayload_later_member_wins Example.unreachable
           (Std.dq "{'status_message':'Pending'}") _
           [("status_message", JString "Pending")] "" ""
           (Payload_literal "Pending" "" "") "status_message" (JString "Passed")
           7%nat (mkField "status_message" true TString) (VString "Pending")).
  - vm_compute. reflexivity.
  - vm_compute. reflexivity.
  - vm_compute. reflexivity.
  - vm_compute. reflexivity.
  - reflexivity.
  - reflexivity.
  - reflexivity.
Defined.

(** A payload with every field zero is written with its three times. *)
Lemma Marshal_zero_payload :
  let members :=
    [ ("started_at", JString "0001-01-01T00:00:00Z");
      ("finished_at", JString "0001-01-01T00:00:00Z");
      ("commited_at", JString "0001-01-01T00:00:00Z") ] in
  @json_Marshal_Payload Example.unreachable Payload_zero = Some (JObject members)
  /\ (forall name T x,
        fieldNamed Payload_fields (Payload_values Payload_zero) name = Some (T, x) ->
        In name (List.map fst members) <-> isEmptyValue x = false)
  /\ In "started_at" (List.map fst members)
  /\ In "finished_at" (List.map fst members)
  /\ In "commited_at" (List.map fst members).
Proof.
  cbv zeta.
  assert (H : @json_Marshal_Payload Example.unreachable Payload_zero
              = Some (JObject
                        [ ("started_at", JString "0001-01-01T00:00:00Z");
                          ("finished_at", JString "0001-01-01T00:00:00Z");
                          ("commited_at", JString "0001-01-01T00:00:00Z") ]))
    by (vm_compute; reflexivity).
  split; [exact H |].
  exact (@Marshal_writes_nonempty_fields Example.unreachable Payload_zero _ H).
Defined.

(** An endpoint that answers with the empty object. *)
Lemma travisPublicKey_empty_configuration :
  @travisPublicKey Example.servedNoKey Example.fresh
  = (Err "invalid public key", {| travisPubKey := None; sent := [configURL] |}).
Proof.
  apply (@travisPublicKey_missing_key Example.servedNoKey Example.fresh "{}"
           (JObject []) "").
  - reflexivity.
  - reflexivity.
  - vm_compute. reflexivity.
  - right. exists []. split; [reflexivity | intros key value []].
  - vm_compute. reflexivity.
Defined.

(** The unsigned request of the examples is turned away, and has made the
    process fetch and cache the key. *)
Lemma unsigned_request_fetches_key :
  fst (@GetPayloadFromRequest Example.served (Some Example.unsignedRequest) Example.fresh)
  = Err "missing Signature header"
  /\ snd (@GetPayloadFromRequest Example.served (Some Example.unsignedRequest)
            Example.fresh)
     = Example.warm
  /\ sent (snd (@GetPayloadFromRequest Example.served (Some Example.unsignedRequest)
                  Example.fresh))
     = [configURL].
Proof.
  destruct (@GetPayloadFromRequest_resolves_key_first Example.served
              Example.unsignedRequest Example.fresh) as [Hstate Hsent].
  - reflexivity.
  - vm_compute. reflexivity.
  - split; [| split].
    + unfold GetPayloadFromRequest. cbn [Example.unsignedRequest Method String.eqb negb].
      replace (Header_Get (Header Example.unsignedRequest) "Content-Type")
        with "application/x-www-form-urlencoded" by (vm_compute; reflexivity).
      cbn [String.eqb negb Ascii.eqb Bool.eqb]. rewrite served_first_call.
      vm_compute. reflexivity.
    + rewrite Hstate, served_first_call. reflexivity.
    + exact (Hsent eq_refl).
Defined.

(** The signed request in front of an endpoint that is out of reach. *)
Lemma unreachable_endpoint_error :
  let msg := "cannot fetch travis public key" in
  msg = "wrong request method " ++ @strconv_Quote Example.unreachable
                                     (Method Example.signedRequest)
        ++ " instead of POST"
  \/ msg = "wrong Content-Type header, got "
           ++ Header_Get (Header Example.signedRequest) "Content-Type"
           ++ " != want application/x-www-form-urlencoded"
  \/ In msg ["cannot fetch travis public key"; "cannot decode travis public key";
             "invalid public key"; "missing Signature header";
             "cannot decode signature"; "unauthorized payload";
             "cannot decode payload"].
Proof.
  cbv zeta.
  apply (@GetPayloadFromRequest_errors Example.unreachable Example.signedRequest
           Example.fresh _ {| travisPubKey := None; sent := [configURL] |}).
  vm_compute. reflexivity.
Defined.

(** In front of an endpoint that serves the Ed25519 key, the signed
    request makes [GetPayloadFromRequest] panic. *)
Lemma Ed25519_endpoint_panics :
  is_Panic (fst (@GetPayloadFromRequest Example.servedEd25519
                   (Some Example.signedRequest) Example.fresh)) = true.
Proof.
  apply (proj2 (@GetPayloadFromRequest_panics_iff Example.servedEd25519
                  (Some Example.signedRequest) Example.fresh)).
  right.
  exists Example.signedRequest, Example.ed25519ConfigBody,
    (default (VBool false)
       (@json_Decoder_Decode Example.servedEd25519 Example.ed25519ConfigBody
          configKey_type (zeroValue configKey_type))),
    Example.ed25519Block, Example.ed25519Key.
  repeat split; try (vm_compute; reflexivity).
  intros k H. discriminate H.
Defined.

(** The signed request of the examples was verified under the key of the
    examples. *)
Lemma signed_request_was_verified :
  exists req key signature,
    Some Example.signedRequest = Some req
    /\ Method req = "POST"
    /\ Header_Get (Header req) "Content-Type" = "application/x-www-form-urlencoded"
    /\ @travisPublicKey Example.served Example.fresh = (Ok key, Example.warm)
    /\ travisPubKey Example.warm = Some key
    /\ Header_Get (Header req) "Signature" <> ""
    /\ @base64_DecodeString Example.served (Header_Get (Header req) "Signature")
       = Some signature
    /\ @rsa_VerifyPKCS1v15_SHA1 Example.served key
         (@sha1_Sum Example.served (list_byte_of_string (FormValue req "payload")))
         signature = true.
Proof.
  exact (@GetPayloadFromRequest_accepts_only_verified Example.served
           (Some Example.signedRequest) Example.fresh Example.payload Example.warm
           signed_request_accepted).
Defined.

(** [GetPayload] on the payload field of the signed request. *)
Lemma signed_payload_decodes :
  @GetPayload Example.served (Some (FormValue Example.signedRequest "payload"))
  = Ok Example.payload.
Proof.
  exact (@GetPayloadFromRequest_decodes_as_GetPayload Example.served
           Example.signedRequest Example.fresh Example.payload Example.warm
           signed_request_accepted).
Defined.

(** The signed request sent a second time is accepted again, without a
    request to the provider. *)
Lemma signed_request_replayed :
  @GetPayloadFromRequest Example.served (Some Example.signedRequest) Example.warm
  = (Ok Example.payload, Example.warm).
Proof.
  apply (@GetPayloadFromRequest_replay Example.served (Some Example.signedRequest)
           Example.fresh (Ok Example.payload) Example.warm).
  - exact signed_request_accepted.
  - discriminate.
  - reflexivity.
Defined.

(** The signed request without its payload field. *)
Lemma bare_request_refused :
  is_Ok (fst (@GetPayloadFromRequest Example.served (Some Example.bareRequest)
                Example.warm)) = false.
Proof.
  apply (@GetPayloadFromRequest_without_payload Example.served Example.bareRequest
           Example.warm).
  - vm_compute. reflexivity.
  - vm_compute. reflexivity.
Defined.

(** The signed request with a second signature, another header, a second
    payload and another form field is accepted like the signed request. *)
Lemma padded_request_accepted :
  @GetPayloadFromRequest Example.served (Some Example.paddedRequest) Example.fresh
  = (Ok Example.payload, Example.warm).
Proof.
  rewrite (@GetPayloadFromRequest_reads_four_parts Example.served
             Example.paddedRequest Example.signedRequest Example.fresh).
  - exact signed_request_accepted.
  - reflexivity.
  - vm_compute. reflexivity.
  - vm_compute. reflexivity.
  - vm_compute. reflexivity.
Defined.

(** Three calls on a process that holds the key. *)
Lemma three_calls_on_cached_key :
  let m := @run Example.unreachable [2; 0; 1; 1; 0; 2; 0; 1; 2]%nat
             (start 3 Example.warm) in
  shared m = Example.warm
  /\ stores m = 0%nat
  /\ ~ dataRace m
  /\ (forall g res, calls m !! g = Some (Returned res) -> res = Ok (Some Example.rsaKey))
  /\ ((forall g, (g < 3)%nat ->
         (4 <= count_occ Nat.eq_dec [2; 0; 1; 1; 0; 2; 0; 1; 2]%nat g)%nat) ->
      finished m).
Proof.
  apply (@concurrent_calls_on_cached_key Example.unreachable 3 Example.warm
           Example.rsaKey).
  reflexivity.
Defined.


(** The integers of the notification of the examples. *)
Lemma payload_integers_in_range :
  fitsInt 64 (ID Example.payload) /\ fitsInt 64 (Status Example.payload)
  /\ fitsInt 64 (Result Example.payload) /\ fitsInt 64 (Duration Example.payload)
  /\ fitsInt 64 (CommitID Example.payload) /\ fitsInt 64 (PullRequest Example.payload)
  /\ fitsInt 64 (PullRequestNumber Example.payload)
  /\ forall r, Repository Example.payload = Some r -> fitsInt 64 (Repository.ID r).
Proof.
  apply (@GetPayload_integers_in_range Example.served Example.payloadText).
  vm_compute. reflexivity.
Defined.

(** A notification that has no [type]: the field [Type] of the payload is
    the empty string. *)
Lemma GetPayload_absent_field_example :
  Payload_values
    (Payload_literal "Passed" "" "") !! 3%nat
  = Some (zeroValue (fieldType (mkField "type" true TString))).
Proof.
  apply (@GetPayload_absent_fields_zero Example.unreachable
           (Std.dq "{'status_message':'Passed','sender':'x'}")
           [("status_message", JString "Passed"); ("sender", JString "x")] ""
           (Payload_literal "Passed" "" "") 3%nat (mkField "type" true TString)).
  - vm_compute. reflexivity.
  - vm_compute. reflexivity.
  - reflexivity.
  - intros key value [[= <- <-] | [[= <- <-] | []]]; vm_compute; discriminate.
Defined.

(** Two members, of [state] and of [type], change places. *)
Lemma GetPayload_members_swapped :
  @GetPayload Example.unreachable
    (Some (Std.dq "{'id':7,'state':'passed','type':'push'}"))
  = @GetPayload Example.unreachable
      (Some (Std.dq "{'id':7,'type':'push','state':'passed'}")).
Proof.
  apply (@GetPayload_members_commute Example.unreachable _ _
           [("id", JNumber "7")] ("state", JString "passed") ("type", JString "push")
           [] "" "").
  - vm_compute. reflexivity.
  - vm_compute. reflexivity.
  - left. vm_compute. discriminate.
Defined.
